(** * New_PDFCleaner: blank-page classification and replace-with-backup

    A shallow embedding of the three variants of the blank-page remover
    ([CleanerBase.py], [CleanerBase1.py], [CleanerBase2.py]) and the
    properties of their page classification, per-file pipeline and batch
    loop.

    External collaborators (the file system, PyPDF2 / PyMuPDF, pdf2image,
    tesseract) are modelled by a state holding the files and the list of
    external calls made so far, and by an environment that decides which
    call raises and what a copy or a move that raises midway leaves at its
    target.  A page is known by what text extraction ([extract_text],
    [get_text]) returns for it and by its bitmaps; an exception of
    [reader.pages], which [CleanerBase1] and [CleanerBase2] do not catch,
    ends their run without a report.  The windowed UI (message boxes,
    progress bar) is reduced to the outcome a run reports. *)

From stdpp Require Import base option list gmap strings fin_maps.
From Stdlib Require Import Ascii String NArith Lia.

Local Open Scope string_scope.
Local Open Scope list_scope.

(** ** Python strings *)

(** A Python [str] is a sequence of code points. *)
Definition char := N.
Definition str := list char.

(** The code points [str.strip()] removes: those for which
    [str.isspace] holds. *)
Definition is_space (c : char) : bool :=
  ((9 <=? c) && (c <=? 13))%N || ((28 <=? c) && (c <=? 32))%N
  || (c =? 133)%N || (c =? 160)%N || (c =? 5760)%N
  || ((8192 <=? c) && (c <=? 8202))%N
  || (c =? 8232)%N || (c =? 8233)%N || (c =? 8239)%N
  || (c =? 8287)%N || (c =? 12288)%N.

Fixpoint lstrip (s : str) : str :=
  match s with
  | [] => []
  | c :: r => if is_space c then lstrip r else s
  end.

Definition rstrip (s : str) : str := rev (lstrip (rev s)).

(** [s.strip()] *)
Definition strip (s : str) : str := rstrip (lstrip s).

(** [len(s)] *)
Definition len (s : str) : nat := List.length s.

(** A literal, for examples. *)
Definition py (s : string) : str :=
  map N_of_ascii (list_ascii_of_string s).

(** ** Paths ([posixpath]) *)

Definition is_sep (c : ascii) : bool := Ascii.eqb c "/".

(** [(p[:i], p[i:])] with [i = p.rfind('/') + 1]. *)
Fixpoint cut_last_sep (p : string) : string * string :=
  match p with
  | EmptyString => (EmptyString, EmptyString)
  | String c r =>
      let '(h, t) := cut_last_sep r in
      match h with
      | EmptyString =>
          if is_sep c then (String c EmptyString, t)
          else (EmptyString, String c t)
      | String _ _ => (String c h, t)
      end
  end.

Fixpoint all_sep (s : string) : bool :=
  match s with
  | EmptyString => true
  | String c r => is_sep c && all_sep r
  end.

(** [s.rstrip('/')] *)
Fixpoint rstrip_sep (s : string) : string :=
  match s with
  | EmptyString => EmptyString
  | String c r =>
      match rstrip_sep r with
      | EmptyString => if is_sep c then EmptyString else String c EmptyString
      | r' => String c r'
      end
  end.

(** [os.path.dirname] *)
Definition dirname (p : string) : string :=
  let head := fst (cut_last_sep p) in
  if all_sep head then head else rstrip_sep head.

(** [os.path.basename] *)
Definition basename (p : string) : string := snd (cut_last_sep p).

Fixpoint ends_with_sep (s : string) : bool :=
  match s with
  | EmptyString => false
  | String c EmptyString => is_sep c
  | String _ r => ends_with_sep r
  end.

(** [os.path.join(a, b)] *)
Definition join (a b : string) : string :=
  match b with
  | String c _ =>
      if is_sep c then b
      else match a with
           | EmptyString => b
           | _ => if ends_with_sep a then a +:+ b else a +:+ "/" +:+ b
           end
  | EmptyString =>
      match a with
      | EmptyString => b
      | _ => if ends_with_sep a then a +:+ b else a +:+ "/" +:+ b
      end
  end.

(** [c.lower()] on ASCII letters, and [s.lower()]. *)
Definition lower_ascii (c : ascii) : ascii :=
  let n := nat_of_ascii c in
  if (65 <=? n)%nat && (n <=? 90)%nat then ascii_of_nat (n + 32) else c.

Fixpoint lower (s : string) : string :=
  match s with
  | EmptyString => EmptyString
  | String c r => String (lower_ascii c) (lower r)
  end.

(** [s.endswith(suffix)] *)
Fixpoint endswith (s suffix : string) : bool :=
  String.eqb s suffix ||
  match s with
  | EmptyString => false
  | String _ r => endswith r suffix
  end.

(** ** Documents and files *)

(** A bitmap is known by what tesseract reads from it. *)
Record Image := { ocr_reading : str }.

(** A page: its text layer ([None] when the extractor returns [None]) and
    the bitmaps pdf2image renders for it. *)
Record Page := {
  text_layer : option str;
  rendering : list Image
}.

(** Where the bytes of a file come from.  Two files are taken to be
    byte-identical when they agree on origin and content. *)
Inductive Origin :=
| OnDisk       (* present before the run *)
| FromWriter   (* produced by the document writer *)
| FromTemp.    (* created empty by [tempfile] *)

(** A file: [document] is what the library's opener makes of the bytes,
    [None] when it rejects them.  ([PdfReader] wants a PDF; [fitz.open]
    goes by the content, not by the name, and also takes other formats,
    for which the pages are those it hands out.) *)
Record File := {
  origin : Origin;
  document : option (list Page)
}.

(** ** External calls *)

Inductive Call :=
| CCopy (src dst : string)            (* shutil.copy, shutil.copyfile *)
| COpen (path : string)               (* PdfReader(path), fitz.open(path) *)
| CPages (path : string)              (* reader.pages *)
| CRasterize (path : string) (page_num : nat) (poppler_path : option string)
                                      (* convert_from_path *)
| COcr (img : Image)                  (* pytesseract.image_to_string *)
| CMkTemp                             (* tempfile.NamedTemporaryFile *)
| CWrite (path : string) (pages : list Page)
                                      (* writer.write, new_doc.save *)
| CMove (src dst : string)            (* shutil.move *)
| CRemove (path : string).            (* os.remove *)

(** How a call can go wrong: it raises before it had any effect, or it
    raises midway.  The difference shows for the calls that write a file:
    the document writer has by then truncated its target, and a copy or a
    move (which copies when it cannot rename) leaves at its target what it
    had written so far, or everything when only its last step failed.  A
    failed removal leaves the files as they were. *)
Inductive Fault := NoFault | RaiseBefore | RaiseDuring.

(** The environment of a run.  [fault n c] is the fate of call [c] when it
    is the [n]-th external call; [leftover n] is the file a copy or a move
    that raises midway leaves at its target then; [temp_name n] is the
    name the operating system picks for a temporary file created then;
    [stop_requested i] is
    the value of the global [stop_requested], which the Stop button sets
    from another thread, when the batch loop reads it before file [i]. *)
Record Env := {
  fault : nat -> Call -> Fault;
  leftover : nat -> File;
  temp_name : nat -> string;
  stop_requested : nat -> bool
}.

Record State := {
  fs : gmap string File;
  trace : list Call
}.

Inductive Exn :=
| ExternalError (c : Call)
| NameError (name : string)
| IndexError
| ValueError.   (* PyMuPDF: "cannot save with zero pages" *)

Inductive Res (A : Type) :=
| Ok (a : A)
| Raise (e : Exn).
Arguments Ok {A} a.
Arguments Raise {A} e.

(** ** The monad of effectful Python code *)

Definition M (A : Type) : Type := State -> Res A * State.

Definition ret {A} (a : A) : M A := fun s => (Ok a, s).

Definition bind {A B} (m : M A) (k : A -> M B) : M B :=
  fun s =>
    match m s with
    | (Ok a, s') => k a s'
    | (Raise e, s') => (Raise e, s')
    end.

Definition raise {A} (e : Exn) : M A := fun s => (Raise e, s).

(** [try: m except Exception as e: ...], with the outcome reified. *)
Definition try_except {A} (m : M A) : M (Res A) :=
  fun s => let '(r, s') := m s in (Ok r, s').

Declare Scope py_scope.
Delimit Scope py_scope with py.
Notation "x <~ m ;; k" := (bind m (fun x => k))
  (at level 100, m at next level, right associativity) : py_scope.
Notation "m ;;; k" := (bind m (fun _ => k))
  (at level 100, right associativity) : py_scope.
Local Open Scope py_scope.

(** The number of external calls made so far. *)
Definition now : M nat := fun s => (Ok (List.length (trace s)), s).

Definition get_fs : M (gmap string File) := fun s => (Ok (fs s), s).

Definition set_fs (f : gmap string File -> gmap string File) : M unit :=
  fun s => (Ok tt, {| fs := f (fs s); trace := trace s |}).

(** ** The external collaborators *)

Section Collaborators.
Variable env : Env.

(** Log the call and learn its fate. *)
Definition call (c : Call) : M Fault :=
  fun s => (Ok (fault env (List.length (trace s)) c),
            {| fs := fs s; trace := trace s ++ [c] |}).

(** [shutil.copy(src, dst)] and [shutil.copyfile(src, dst)]: raise when
    the source is missing, before the target is created; a copy that
    raises midway leaves a target. *)
Definition shutil_copy (src dst : string) : M unit :=
  n <~ now;;
  f <~ call (CCopy src dst);;
  files <~ get_fs;;
  match f, files !! src with
  | NoFault, Some d => set_fs (insert dst d)
  | RaiseDuring, Some _ =>
      set_fs (insert dst (leftover env n));;;
      raise (ExternalError (CCopy src dst))
  | _, _ => raise (ExternalError (CCopy src dst))
  end.

(** [PdfReader(path)] and [fitz.open(path)]: the pages of the document,
    or an exception when the file is missing or the opener rejects it. *)
Definition open_document (path : string) : M (list Page) :=
  f <~ call (COpen path);;
  files <~ get_fs;;
  match f, files !! path ≫= document with
  | NoFault, Some pages => ret pages
  | _, _ => raise (ExternalError (COpen path))
  end.

(** [convert_from_path(path, first_page=n, last_page=n)]: the bitmaps of
    page [n] (1-based) of the file on disk; no bitmap for a page that is
    out of range. *)
Definition convert_from_path (path : string) (page_num : nat)
    (poppler_path : option string) : M (list Image) :=
  f <~ call (CRasterize path page_num poppler_path);;
  files <~ get_fs;;
  match f, files !! path ≫= document with
  | NoFault, Some pages =>
      ret (match pages !! (page_num - 1) with
           | Some pg => rendering pg
           | None => []
           end)
  | _, _ => raise (ExternalError (CRasterize path page_num poppler_path))
  end.

(** [pytesseract.image_to_string(image)] *)
Definition image_to_string (image : Image) : M str :=
  f <~ call (COcr image);;
  match f with
  | NoFault => ret (ocr_reading image)
  | _ => raise (ExternalError (COcr image))
  end.

(** [tempfile.NamedTemporaryFile(delete=False, suffix=".pdf")], closed at
    once: an empty file under a name of the system's choosing, which must
    not exist yet. *)
Definition NamedTemporaryFile : M string :=
  n <~ now;;
  f <~ call CMkTemp;;
  files <~ get_fs;;
  match f, files !! temp_name env n with
  | NoFault, None =>
      set_fs (insert (temp_name env n)
                     {| origin := FromTemp; document := None |});;;
      ret (temp_name env n)
  | _, _ => raise (ExternalError CMkTemp)
  end.

(** The document writer: [writer.write(open(path, "wb"))] and
    [new_doc.save(path)]. *)
Definition write_document (path : string) (pages : list Page) : M unit :=
  f <~ call (CWrite path pages);;
  match f with
  | NoFault =>
      set_fs (insert path {| origin := FromWriter; document := Some pages |})
  | RaiseBefore => raise (ExternalError (CWrite path pages))
  | RaiseDuring =>
      set_fs (insert path {| origin := FromWriter; document := None |});;;
      raise (ExternalError (CWrite path pages))
  end.

(** [reader.pages], as in [len(reader.pages)]: PyPDF2 reads the page tree
    when the pages are first asked for, and raises then for a document it
    cannot list (an encrypted one, for instance). *)
Definition reader_pages (path : string) (reader : list Page)
    : M (list Page) :=
  f <~ call (CPages path);;
  match f with
  | NoFault => ret reader
  | _ => raise (ExternalError (CPages path))
  end.

(** [shutil.move(src, dst)]: a rename, or a copy followed by the removal
    of the source; when it raises midway the source is still there and
    the target is left with what the copy had written. *)
Definition shutil_move (src dst : string) : M unit :=
  n <~ now;;
  f <~ call (CMove src dst);;
  files <~ get_fs;;
  match f, files !! src with
  | NoFault, Some d => set_fs (fun m => <[dst := d]> (delete src m))
  | RaiseDuring, Some _ =>
      set_fs (insert dst (leftover env n));;;
      raise (ExternalError (CMove src dst))
  | _, _ => raise (ExternalError (CMove src dst))
  end.

(** [os.remove(path)] *)
Definition os_remove (path : string) : M unit :=
  f <~ call (CRemove path);;
  files <~ get_fs;;
  match f, files !! path with
  | NoFault, Some _ => set_fs (delete path)
  | _, _ => raise (ExternalError (CRemove path))
  end.

(** A module-level name, looked up when the expression is evaluated. *)
Definition load_global (globals : gmap string nat) (name : string) : M nat :=
  match globals !! name with
  | Some v => ret v
  | None => raise (NameError name)
  end.

(** Truthiness of an optional path: [if poppler_path:]. *)
Definition truthy_path (p : option string) : option string :=
  match p with
  | Some (String c r) => Some (String c r)
  | _ => None
  end.

(** ** [CleanerBase1.py] and [CleanerBase2.py]

    [is_blank_page] has the same text in both files and [process_pdf]
    differs in how the temporary file is made; the two modules differ in
    their namespace: [CleanerBase1] binds [OCR_TEXT_LENGTH_THRESHOLD],
    [CleanerBase2] does not. *)

(** What [process_pdf] tells the user before it returns. *)
Inductive Outcome :=
| BackupFailed                                (* "Failed to create backup copy" *)
| ReadFailed                                  (* "Failed to read PDF" *)
| AllPagesBlank                               (* "All pages are blank ..." *)
| WriteFailed                                 (* "Failed to write modified PDF" *)
| ReplaceFailed                               (* "Failed to replace the original PDF" *)
| Success (total_pages removed_pages : nat).  (* "Modified PDF saved ..." *)

Section PyPDF2Variants.
Variable globals : gmap string nat.
(** The step that writes the writer's pages to a temporary file and names
    that file. *)
Variable write_temp : string -> list Page -> M string.

(** [text is not None and text.strip() != ""] *)
Definition has_text (text : option str) : bool :=
  match text with
  | Some t => match strip t with [] => false | _ => true end
  | None => false
  end.

(** The [try] block of [is_blank_page] (lines 43-55). *)
Definition ocr_stage (file_path : string) (page_num : nat)
    (poppler_path : option string) : M bool :=
  images <~ convert_from_path file_path page_num (truthy_path poppler_path);;
  match images with
  | image :: _ =>
      ocr_text <~ image_to_string image;;
      enough <~ match ocr_text with
                | [] => ret false
                | _ => threshold <~ load_global globals "OCR_TEXT_LENGTH_THRESHOLD";;
                       ret (threshold <=? len (strip ocr_text))%nat
                end;;
      if enough then ret false else ret true
  | [] => ret true
  end.

Definition is_blank_page (page : Page) (file_path : string) (page_num : nat)
    (poppler_path : option string) : M bool :=
  let text := text_layer page in
  if has_text text then ret false
  else
    r <~ try_except (ocr_stage file_path page_num poppler_path);;
    match r with
    | Ok blank => ret blank
    | Raise _ => ret true   (* "If OCR fails, to be safe, consider the page blank." *)
    end.

(** The loop over [enumerate(reader.pages, start=i)]: the pages added to
    the writer and the count of removed pages. *)
Fixpoint scan_pages (file_path : string) (poppler_path : option string)
    (i : nat) (pages : list Page) : M (list Page * nat) :=
  match pages with
  | [] => ret ([], 0)
  | page :: rest =>
      blank <~ is_blank_page page file_path i poppler_path;;
      wr <~ scan_pages file_path poppler_path (S i) rest;;
      ret (if blank then (fst wr, S (snd wr)) else (page :: fst wr, snd wr))
  end.

Definition backup_path_of (file_path : string) : string :=
  join (dirname file_path) (basename file_path +:+ ".backup").

(** Lines 103-129 ([CleanerBase1.py]), 97-121 ([CleanerBase2.py]): write
    the temporary file, move it onto the original, delete the backup. *)
Definition replace_original (file_path backup_path : string)
    (total_pages removed_pages : nat) (writer_pages : list Page) : M Outcome :=
  r <~ try_except (write_temp file_path writer_pages);;
  match r with
  | Raise _ => ret WriteFailed
  | Ok temp_file =>
  r <~ try_except (shutil_move temp_file file_path);;
  match r with
  | Raise _ => ret ReplaceFailed
  | Ok _ =>
  _ <~ try_except (os_remove backup_path);;
  ret (Success total_pages removed_pages)
  end end.

Definition process_pdf (file_path : string) (poppler_path : option string)
    : M Outcome :=
  let backup_path := backup_path_of file_path in
  r <~ try_except (shutil_copy file_path backup_path);;
  match r with
  | Raise _ => ret BackupFailed
  | Ok _ =>
  r <~ try_except (open_document file_path);;
  match r with
  | Raise _ => ret ReadFailed
  | Ok reader =>
  (* [len(reader.pages)] stands outside every [try] *)
  pages <~ reader_pages file_path reader;;
  let total_pages := List.length pages in
  wr <~ scan_pages file_path poppler_path 1 pages;;
  let writer_pages := fst wr in
  let removed_pages := snd wr in
  if (List.length writer_pages =? 0)%nat then ret AllPagesBlank
  else replace_original file_path backup_path total_pages removed_pages
         writer_pages
  end end.

End PyPDF2Variants.

(** [CleanerBase1.py], lines 104-107: [temp_file = file_path + ".temp"]. *)
Definition write_temp_sibling (file_path : string) (pages : list Page)
    : M string :=
  let temp_file := file_path +:+ ".temp" in
  write_document temp_file pages;;;
  ret temp_file.

(** [CleanerBase2.py], lines 99-102: a [NamedTemporaryFile], reopened for
    writing. *)
Definition write_temp_secure (file_path : string) (pages : list Page)
    : M string :=
  temp_file <~ NamedTemporaryFile;;
  write_document temp_file pages;;;
  ret temp_file.

End Collaborators.

Module CleanerBase1.
(** [OCR_TEXT_LENGTH_THRESHOLD = 5] *)
Definition globals : gmap string nat :=
  {[ "OCR_TEXT_LENGTH_THRESHOLD" := 5 ]}.
Definition is_blank_page (env : Env) := is_blank_page env globals.
Definition process_pdf (env : Env) :=
  process_pdf env globals (write_temp_sibling env).
End CleanerBase1.

Module CleanerBase2.
(** The module assigns no [OCR_TEXT_LENGTH_THRESHOLD]. *)
Definition globals : gmap string nat := ∅.
Definition is_blank_page (env : Env) := is_blank_page env globals.
Definition process_pdf (env : Env) :=
  process_pdf env globals (write_temp_secure env).
End CleanerBase2.

(** ** [CleanerBase.py] *)

Module CleanerBase.

(** A PyMuPDF document and a page taken from it. *)
Record FitzDocument := { name : string; pages : list Page }.
Record FitzPage := { parent : FitzDocument; number : nat; content : Page }.

(** One line of [pdf_processing2_log.txt]. *)
Inductive LogRecord :=
| Modified (file : string) (total_pages removed_pages : nat)
| NoChanges (file : string) (total_pages : nat)
| Failed (file : string) (e : Exn).

(** [page.get_text("text")]: PyMuPDF answers the empty string for a page
    without text. *)
Definition get_text (page : FitzPage) : str :=
  default [] (text_layer (content page)).

(** [page_num in blank_pages] *)
Definition mem (page_num : nat) (blank_pages : list nat) : bool :=
  existsb (Nat.eqb page_num) blank_pages.

(** Lines 86-89: the pages inserted into [new_doc]. *)
Fixpoint insert_kept (doc : FitzDocument) (page_nums blank_pages : list nat)
    : list Page :=
  match page_nums with
  | [] => []
  | page_num :: rest =>
      if mem page_num blank_pages then insert_kept doc rest blank_pages
      else match pages doc !! page_num with
           | Some p => p :: insert_kept doc rest blank_pages
           | None => insert_kept doc rest blank_pages
           end
  end.

(** Line 111: the candidates of a folder listing. *)
Definition pdf_files (folder_path : string) (listing : list string)
    : list string :=
  map (join folder_path)
      (List.filter (fun f => endswith (lower f) ".pdf") listing).

Section WithEnv.
Variable env : Env.

(** [fitz.open(filepath)]; [len(doc)] and [doc[page_num]] then read the
    document in memory. *)
Definition fitz_open (filepath : string) : M FitzDocument :=
  ps <~ open_document env filepath;;
  ret {| name := filepath; pages := ps |}.

(** [doc[page_num]] *)
Definition getitem (doc : FitzDocument) (page_num : nat) : M FitzPage :=
  match pages doc !! page_num with
  | Some p => ret {| parent := doc; number := page_num; content := p |}
  | None => raise IndexError
  end.

(** The [try] block of [check_blank_page] (lines 44-49). *)
Definition ocr_stage (page : FitzPage) : M bool :=
  images <~ convert_from_path env (name (parent page)) (number page + 1) None;;
  match images with
  | [] => ret true   (* "Consider it blank if no image is generated." *)
  | image :: _ =>
      text <~ image_to_string env image;;
      ret (len (strip text) <? 5)%nat
  end.

Definition check_blank_page (page : FitzPage) (use_ocr : bool) : M bool :=
  if use_ocr then
    r <~ try_except (ocr_stage page);;
    match r with
    | Ok blank => ret blank
    | Raise _ => ret false   (* "If OCR fails, do not mark as blank." *)
    end
  else
    let text := strip (get_text page) in
    ret (match text with [] => true | _ => false end).

(** Lines 69-73: "First, check for blank pages using text extraction." *)
Fixpoint text_pass (doc : FitzDocument) (page_nums : list nat) : M (list nat) :=
  match page_nums with
  | [] => ret []
  | page_num :: rest =>
      page <~ getitem doc page_num;;
      blank <~ check_blank_page page false;;
      blank_pages <~ text_pass doc rest;;
      ret (if blank then page_num :: blank_pages else blank_pages)
  end.

(** Lines 75-81: "Refine blank page detection using OCR." *)
Fixpoint ocr_pass (doc : FitzDocument) (blank_pages : list nat) : M (list nat) :=
  match blank_pages with
  | [] => ret []
  | page_num :: rest =>
      page <~ getitem doc page_num;;
      blank <~ check_blank_page page true;;
      blank_pages_ocr <~ ocr_pass doc rest;;
      ret (if blank then page_num :: blank_pages_ocr else blank_pages_ocr)
  end.

(** [new_doc.save(filepath)]: PyMuPDF refuses a document without pages
    ("cannot save with zero pages") before it touches the file. *)
Definition save (filepath : string) (new_doc : list Page) : M unit :=
  match new_doc with
  | [] => call env (CWrite filepath []);;; raise ValueError
  | _ => write_document env filepath new_doc
  end.

(** Lines 84-95: back up, save the kept pages to [filepath], delete the
    backup. *)
Definition save_in_place (filepath : string) (doc : FitzDocument)
    (blank_pages : list nat) : M LogRecord :=
  let total_pages := List.length (pages doc) in
  let temp_filepath := filepath +:+ ".bak" in
  shutil_copy env filepath temp_filepath;;;
  let new_doc := insert_kept doc (seq 0 total_pages) blank_pages in
  save filepath new_doc;;;
  os_remove env temp_filepath;;;
  ret (Modified (basename filepath) total_pages (List.length blank_pages)).

Definition process_pdf (filepath : string) : M LogRecord :=
  r <~ try_except (
    doc <~ fitz_open filepath;;
    let total_pages := List.length (pages doc) in
    blank_pages <~ text_pass doc (seq 0 total_pages);;
    blank_pages_ocr <~ ocr_pass doc blank_pages;;
    let blank_pages := blank_pages_ocr in
    match blank_pages with
    | _ :: _ => save_in_place filepath doc blank_pages
    | [] => ret (NoChanges (basename filepath) total_pages)
    end);;
  match r with
  | Ok record => ret record
  | Raise e => ret (Failed (basename filepath) e)
  end.

(** Lines 122-125: the loop over [files]; [i] counts the files already
    looked at. *)
Fixpoint batch_loop (i : nat) (files : list string) : M (list LogRecord) :=
  match files with
  | [] => ret []
  | filepath :: rest =>
      if stop_requested env i then ret []   (* break *)
      else
        record <~ process_pdf filepath;;
        records <~ batch_loop (S i) rest;;
        ret (record :: records)
  end.

(** The lines written to the log file by one batch run. *)
Definition process_files (folder_path : string) (listing : list string)
    : M (list LogRecord) :=
  let files := pdf_files folder_path listing in
  match files with
  | [] => ret []   (* "No PDF files found in the selected folder." *)
  | _ => batch_loop 0 files
  end.

End WithEnv.
End CleanerBase.

(** ** Sample data *)

Definition quiet : Env :=
  {| fault := fun _ _ => NoFault;
     leftover := fun _ => {| origin := OnDisk; document := None |};
     temp_name := fun _ => "/tmp/tmpk3x9.pdf";
     stop_requested := fun _ => false |}.

Definition page_of (text : string) (ocr : string) : Page :=
  {| text_layer := Some (py text); rendering := [ {| ocr_reading := py ocr |} ] |}.

Definition pdf (ps : list Page) : File :=
  {| origin := OnDisk; document := Some ps |}.

Definition disk (path : string) (f : File) : State :=
  {| fs := {[ path := f ]}; trace := [] |}.

Definition five_pages : list Page :=
  [ page_of "one" "one"; page_of "" ""; page_of "three" "three";
    page_of " " ""; page_of "five" "five" ].

Definition three_pages : list Page :=
  [ page_of "one" "one"; page_of "two" "two"; page_of "three" "three" ].

(** A page without text layer that shows printed text. *)
Definition scanned_page : Page := page_of "" "Hello world".

(** A page with nothing on it. *)
Definition empty_page : Page := page_of "" "".

(** Tesseract is missing: every OCR call raises. *)
Definition ocr_down : Env :=
  {| fault := fun _ c => match c with COcr _ => RaiseBefore | _ => NoFault end;
     leftover := leftover quiet;
     temp_name := temp_name quiet;
     stop_requested := stop_requested quiet |}.


(** The document is encrypted: [reader.pages] raises. *)
Definition pages_locked : Env :=
  {| fault := fun _ c => match c with CPages _ => RaiseBefore | _ => NoFault end;
     leftover := leftover quiet;
     temp_name := temp_name quiet;
     stop_requested := stop_requested quiet |}.

(** The user presses Stop while file [n] (counted from 1) is in progress. *)
Definition stop_during (n : nat) : Env :=
  {| fault := fault quiet;
     leftover := leftover quiet;
     temp_name := temp_name quiet;
     stop_requested := fun i => (n <=? i)%nat |}.

(** A file that is not a PDF. *)
Definition garbage : File := {| origin := OnDisk; document := None |}.

(** ** The vocabulary of the properties *)

Definition logged (s : State) (evs : list Call) : State :=
  {| fs := fs s; trace := trace s ++ evs |}.

(** The calls the OCR stage of one page may make. *)
Definition ocr_call (path : string) (n : nat) (pp : option string) (c : Call)
    : Prop :=
  c = CRasterize path n pp \/ exists img, c = COcr img.

Definition written (ps : list Page) : File :=
  {| origin := FromWriter; document := Some ps |}.

(** The state after a copy that raised: the call is logged and no file
    has changed, except that a copy that raised midway has left a file at
    its target. *)
Definition copy_failed (env : Env) (src dst : string) (s s' : State) : Prop :=
  trace s' = trace s ++ [CCopy src dst]
  /\ (fs s' = fs s
      \/ is_Some (fs s !! src)
         /\ fault env (List.length (trace s)) (CCopy src dst) = RaiseDuring
         /\ fs s' = <[dst := leftover env (List.length (trace s))]> (fs s)).

(** The original after a move of [tmp] onto it that raised: as it was,
    or, when the move raised midway, what the move left there. *)
Definition move_failed (env : Env) (tmp fp : string) (s s' : State) : Prop :=
  fs s' !! fp = fs s !! fp
  \/ exists n, fault env n (CMove tmp fp) = RaiseDuring
       /\ fs s' !! fp = Some (leftover env n).

(** The state once the backup is made and the opening of the document
    was tried. *)
Definition backed_up (fp : string) (d : File) (s : State) : State :=
  {| fs := <[backup_path_of fp := d]> (fs s);
     trace := trace s ++ [CCopy fp (backup_path_of fp); COpen fp] |}.

(** The state once the document is open and its pages were asked for. *)
Definition opened (fp : string) (d : File) (s : State) : State :=
  {| fs := <[backup_path_of fp := d]> (fs s);
     trace := trace s ++ [CCopy fp (backup_path_of fp); COpen fp; CPages fp] |}.

Fixpoint no_sep (s : string) : bool :=
  match s with
  | EmptyString => true
  | String c r => negb (is_sep c) && no_sep r
  end.

(** The calls of a rebuild that goes through the temporary file [tmp],
    according to where it ends. *)
Definition rebuild_calls (fp bk tmp : string) (w : list Page)
    (out : Res Outcome) (evs : list Call) : Prop :=
  (out = Ok WriteFailed /\ evs = [CWrite tmp w])
  \/ (out = Ok ReplaceFailed /\ evs = [CWrite tmp w; CMove tmp fp])
  \/ (exists total removed, out = Ok (Success total removed)
      /\ evs = [CWrite tmp w; CMove tmp fp; CRemove bk]).

Definition is_success (out : Res Outcome) : bool :=
  match out with Ok (Success _ _) => true | _ => false end.

(** The text-layer verdict on page [n] of a document. *)
Definition flagged_by_text (doc : CleanerBase.FitzDocument) (n : nat) : bool :=
  match CleanerBase.pages doc !! n with
  | Some p => match strip (default [] (text_layer p)) with
              | [] => true
              | _ => false
              end
  | None => false
  end.

(** Page [n] of [doc], as [doc[n]] hands it out. *)
Definition page_at (doc : CleanerBase.FitzDocument) (n : nat) (p : Page)
    : CleanerBase.FitzPage :=
  {| CleanerBase.parent := doc; CleanerBase.number := n;
     CleanerBase.content := p |}.

(** [k] successive calls of [check_blank_page(page, use_ocr=True)] on the
    same page, and their answers. *)
Fixpoint repeated_checks (env : Env) (page : CleanerBase.FitzPage) (k : nat)
    : M (list bool) :=
  match k with
  | 0 => ret []
  | S k' =>
      blank <~ CleanerBase.check_blank_page env page true;;
      answers <~ repeated_checks env page k';;
      ret (blank :: answers)
  end.

(** What a call of [process_pdf filepath] may touch. *)
Definition about (filepath : string) (c : Call) : Prop :=
  match c with
  | CCopy src dst => src = filepath /\ dst = filepath +:+ ".bak"
  | COpen p | CRasterize p _ _ | CWrite p _ => p = filepath
  | COcr _ => True
  | CRemove p => p = filepath +:+ ".bak"
  | CMkTemp | CMove _ _ | CPages _ => False
  end.

Definition record_file (r : CleanerBase.LogRecord) : string :=
  match r with
  | CleanerBase.Modified f _ _ | CleanerBase.NoChanges f _
  | CleanerBase.Failed f _ => f
  end.

(** The log line of a run of the [try] body. *)
Definition record_of (filepath : string) (r : Res CleanerBase.LogRecord)
    : CleanerBase.LogRecord :=
  match r with
  | Ok record => record
  | Raise e => CleanerBase.Failed (basename filepath) e
  end.

(** What the rasterizer and tesseract hand back when both succeed. *)
Definition ocr_reads (env : Env) (path : string) (n : nat)
    (pp : option string) (s : State) (t : str) : Prop :=
  exists img rest,
    fst (convert_from_path env path n pp s) = Ok (img :: rest)
    /\ fst (image_to_string env img (snd (convert_from_path env path n pp s)))
       = Ok t.

(** The calls made before a rebuild: neither the document writer, nor a
    move, nor a removal. *)
Definition prelude_call (c : Call) : Prop :=
  match c with
  | CCopy _ _ | COpen _ | CPages _ | CRasterize _ _ _ | COcr _ | CMkTemp => True
  | CWrite _ _ | CMove _ _ | CRemove _ => False
  end.

(** The runs that get as far as rebuilding the document. *)
Definition rebuild_proceeds (out : Res Outcome) : bool :=
  match out with
  | Ok WriteFailed | Ok ReplaceFailed | Ok (Success _ _) => true
  | _ => false
  end.

(** A rebuild through the temporary file [tmp]: after the prelude the
    writer writes [tmp], which is then moved onto the original.  The
    original holds the writer's pages on success; it is untouched when
    the writing failed; when the move failed it is untouched, or holds
    what a move that raised midway left there. *)
Definition rebuilt_through (env : Env) (tmp fp : string) (s : State)
    (run : Res Outcome * State) : Prop :=
  exists pre tail w,
    trace (snd run) = trace s ++ pre ++ tail
    /\ Forall prelude_call pre
    /\ rebuild_calls fp (backup_path_of fp) tmp w (fst run) tail
    /\ (is_success (fst run) = true -> fs (snd run) !! fp = Some (written w))
    /\ (fst run = Ok WriteFailed -> fs (snd run) !! fp = fs s !! fp)
    /\ (fst run = Ok ReplaceFailed -> move_failed env tmp fp s (snd run)).

(** [CleanerBase1]: the temporary file is [file_path + ".temp"], a sibling
    of the original. *)
Definition rebuilt_beside (env : Env) (fp : string) (s : State)
    (run : Res Outcome * State) : Prop :=
  dirname (fp +:+ ".temp") = dirname fp
  /\ fp +:+ ".temp" <> fp
  /\ rebuilt_through env (fp +:+ ".temp") fp s run.

(** [CleanerBase2]: the temporary file is a new file wherever [tempfile]
    puts it; when it cannot be made nothing is written at all. *)
Definition rebuilt_elsewhere (env : Env) (fp : string) (s : State)
    (run : Res Outcome * State) : Prop :=
  (fst run = Ok WriteFailed
   /\ fs (snd run) !! fp = fs s !! fp
   /\ exists pre, trace (snd run) = trace s ++ pre /\ Forall prelude_call pre)
  \/ exists tmp,
       tmp <> fp /\ fs s !! tmp = None /\ rebuilt_through env tmp fp s run.

(** [CleanerBase]: after the opening and the OCR of the flagged pages,
    the file is copied to its [.bak], the writer saves onto the original
    path, and the copy is removed; a step that raises ends the sequence.
    No temporary file is made and nothing is moved.  A run logged as
    Modified went through all three steps and left the writer's document
    in the original. *)
Definition rebuilt_in_place (fp : string) (s : State)
    (run : Res CleanerBase.LogRecord * State) : Prop :=
  let bak := fp +:+ ".bak" in
  exists pre new_doc tail,
    trace (snd run) = trace s ++ pre ++ CCopy fp bak :: tail
    /\ Forall (fun c => c = COpen fp \/ exists n, ocr_call fp n None c) pre
    /\ (tail = [] \/ tail = [CWrite fp new_doc]
        \/ tail = [CWrite fp new_doc; CRemove bak])
    /\ (forall f total removed,
          fst run = Ok (CleanerBase.Modified f total removed) ->
          tail = [CWrite fp new_doc; CRemove bak]
          /\ fs (snd run) !! fp = Some (written new_doc)).

(** With no page classified blank, [CleanerBase] leaves everything as it
    was: nothing but the opening and the OCR of the flagged pages
    happens. *)
Definition left_unchanged (fp : string) (total : nat) (s : State)
    (run : Res CleanerBase.LogRecord * State) : Prop :=
  fst run = Ok (CleanerBase.NoChanges (basename fp) total)
  /\ fs (snd run) = fs s
  /\ exists evs,
       trace (snd run) = trace s ++ evs
       /\ Forall (fun c => c = COpen fp \/ exists n, ocr_call fp n None c) evs.

(** With no page removed, [CleanerBase2] still replaces the original by
    what the writer produced from all the pages. *)
Definition rewritten_in_full (fp : string) (total : nat) (s : State)
    (run : Res Outcome * State) : Prop :=
  exists d ps tmp pre,
    fs s !! fp = Some d /\ document d = Some ps /\ total = List.length ps
    /\ tmp <> fp
    /\ trace (snd run)
       = trace s ++ pre ++ [CWrite tmp ps; CMove tmp fp;
                            CRemove (backup_path_of fp)]
    /\ fs (snd run) !! fp = Some (written ps).

(** After a read failure: the backup made at the start is still there,
    next to the untouched original, and nothing was removed. *)
Definition backup_left_behind (fp : string) (d : File) (s s' : State) : Prop :=
  fs s !! fp = Some d
  /\ fs s' = <[backup_path_of fp := d]> (fs s)
  /\ fs s' !! fp = Some d
  /\ fs s' !! backup_path_of fp = Some d
  /\ exists evs,
       trace s' = trace s ++ CCopy fp (backup_path_of fp) :: COpen fp :: evs
       /\ (evs = [] \/ evs = [CPages fp]).

(** [CleanerBase1], [CleanerBase2]: the backup copy of the file, of
    content [d], goes through. *)
Definition backup_made (env : Env) (fp : string) (s : State) (d : File)
    : Prop :=
  fs s !! fp = Some d
  /\ fault env (List.length (trace s)) (CCopy fp (backup_path_of fp)) = NoFault.

(** [PdfReader(file_path)], the call after the copy, raises. *)
Definition reader_raises (env : Env) (fp : string) (s : State) (d : File)
    : Prop :=
  fault env (S (List.length (trace s))) (COpen fp) <> NoFault
  \/ document d = None.

(** [PdfReader(file_path)] returns a reader over the pages [ps]. *)
Definition reader_opens (env : Env) (fp : string) (s : State) (d : File)
    (ps : list Page) : Prop :=
  fault env (S (List.length (trace s))) (COpen fp) = NoFault
  /\ document d = Some ps.

(** [reader.pages], the call after that, raises. *)
Definition pages_raise (env : Env) (fp : string) (s : State) : Prop :=
  fault env (S (S (List.length (trace s)))) (CPages fp) <> NoFault.







(** What a batch run leaves behind when it is started at loop index [i]
    on [files]: [records] cover the first [k] files, in order, and every
    external call is about one of these. *)
Definition batch_outcome (env : Env) (i : nat) (files : list string)
    (records : list CleanerBase.LogRecord) (evs : list Call) : Prop :=
  let k := List.length records in
  k <= List.length files
  /\ map record_file records = map basename (take k files)
  /\ (forall j, j < k -> stop_requested env (i + j) = false)
  /\ (k < List.length files -> stop_requested env (i + k) = true)
  /\ (forall j, j < List.length files -> stop_requested env (i + j) = true -> k <= j)
  /\ Forall (fun c => exists f, f ∈ take k files /\ about f c) evs.

(** ** [CleanerBase2.py]: the folder mode *)

(** What [process_folder] tells the user at the end. *)
Inductive FolderOutcome :=
| NoFolderSelected                    (* "No folder selected." *)
| NoPdfFiles                          (* "No PDF files found in the selected folder." *)
| Processed (processed_count : nat).  (* "Processed ... PDF files." *)

(** Lines 136-139: the loop over [pdf_files]; the dialogs of the files, in
    order, and the counter. *)
Fixpoint folder_loop (env : Env) (pdf_files : list string)
    (poppler_path : option string) (processed_count : nat)
    : M (list Outcome * nat) :=
  match pdf_files with
  | [] => ret ([], processed_count)
  | file_path :: rest =>
      shown <~ CleanerBase2.process_pdf env file_path poppler_path;;
      r <~ folder_loop env rest poppler_path (processed_count + 1);;
      ret (shown :: fst r, snd r)
  end.

(** [process_folder], lines 124-140, for the folder the dialog returned
    (the empty string when the dialog is dismissed) and its listing. *)
Definition process_folder (env : Env) (folder_path : string)
    (listing : list string) (poppler_path : option string)
    : M (list Outcome * FolderOutcome) :=
  match folder_path with
  | EmptyString => ret ([], NoFolderSelected)
  | _ =>
      let pdf_files := CleanerBase.pdf_files folder_path listing in
      match pdf_files with
      | [] => ret ([], NoPdfFiles)
      | _ =>
          r <~ folder_loop env pdf_files poppler_path 0;;
          ret (fst r, Processed (snd r))
      end
  end.

(** ** More vocabulary *)

(** What a page looks like to a run in which nothing raises: no text
    layer, and either no bitmap or a first bitmap on which OCR reads fewer
    than 5 characters. *)
Definition blank_on_paper (page : Page) : bool :=
  negb (has_text (text_layer page))
  && match rendering page with
     | [] => true
     | image :: _ => (len (strip (ocr_reading image)) <? 5)%nat
     end.

Definition keeps (page : Page) : bool := negb (blank_on_paper page).

Definition with_text (page : Page) : bool := has_text (text_layer page).

(** The directory entry is a PDF by its name (line 111 of
    [CleanerBase.py], line 132 of [CleanerBase2.py]). *)
Definition named_pdf (f : string) : bool := endswith (lower f) ".pdf".

(** An environment in which no external call raises. *)
Definition faultless (env : Env) : Prop :=
  forall n c, fault env n c = NoFault.

(** A file the writer left truncated. *)
Definition truncated : File := {| origin := FromWriter; document := None |}.

(** Only whitespace. *)
Definition all_space (s : str) : bool := forallb is_space s.

(** The runs of [CleanerBase1] and [CleanerBase2] that stop after the
    backup was made and before the move onto the original is tried: a
    report of a failed reading, of blank pages only or of a failed
    writing, and an exception that leaves [process_pdf]. *)
Definition stopped_before_move (out : Res Outcome) : bool :=
  match out with
  | Ok ReadFailed | Ok AllPagesBlank | Ok WriteFailed | Raise _ => true
  | _ => false
  end.

(** How a rebuild through the temporary file [tmp] leaves the files, for
    a run started in [s] on a file of content [d], with [w] the pages
    given to the writer. *)
Definition rebuild_end (env : Env) (fp tmp : string) (d : File)
    (w : list Page) (total r : nat) (s : State)
    (run : Res Outcome * State) : Prop :=
  let bk := backup_path_of fp in
  (forall p, p <> fp -> p <> bk -> p <> tmp -> fs (snd run) !! p = fs s !! p)
  /\ ((fst run = Ok WriteFailed
       /\ fs (snd run) !! fp = Some d /\ fs (snd run) !! bk = Some d)
      \/ (fst run = Ok ReplaceFailed
          /\ move_failed env tmp fp s (snd run)
          /\ fs (snd run) !! bk = Some d
          /\ fs (snd run) !! tmp = Some (written w))
      \/ (fst run = Ok (Success total r)
          /\ fs (snd run) !! fp = Some (written w)
          /\ fs (snd run) !! tmp = None
          /\ exists pre,
               trace (snd run) = pre ++ [CRemove bk]
               /\ (fault env (List.length pre) (CRemove bk) = NoFault ->
                   fs (snd run) !! bk = None)
               /\ (fault env (List.length pre) (CRemove bk) <> NoFault ->
                   fs (snd run) !! bk = Some d))).

(** All the ways a run of [process_pdf] of [CleanerBase1] or
    [CleanerBase2] can go, with the files it leaves; [temp_ok] says what
    is known of the temporary file. *)
Definition run_shape (env : Env) (fp : string) (temp_ok : string -> Prop)
    (s : State) (run : Res Outcome * State) : Prop :=
  let bk := backup_path_of fp in
  (fst run = Ok BackupFailed /\ copy_failed env fp bk s (snd run))
  \/ exists d, fs s !! fp = Some d /\
     (run = (Ok ReadFailed, backed_up fp d s)
      \/ (exists ps, document d = Some ps
            /\ run = (Raise (ExternalError (CPages fp)), opened fp d s))
      \/ exists ps w r,
           document d = Some ps
           /\ List.length w + r = List.length ps
           /\ sublist w ps
           /\ (forall page, page ∈ ps -> with_text page = true -> page ∈ w)
           /\ (w = [] /\ fst run = Ok AllPagesBlank
               /\ fs (snd run) = <[bk := d]> (fs s)
               \/ w <> [] /\
                  (fst run = Ok WriteFailed /\ fs (snd run) = <[bk := d]> (fs s)
                   \/ exists tmp,
                        temp_ok tmp /\ tmp <> fp /\ tmp <> bk
                        /\ rebuild_end env fp tmp d w (List.length ps) r s run))).

(** The original and its backup both hold the content the original had
    in [s]. *)
Definition backup_intact (fp : string) (s s' : State) : Prop :=
  exists d,
    fs s !! fp = Some d
    /\ fs s' !! fp = Some d
    /\ fs s' !! backup_path_of fp = Some d.

(** After "Failed to replace the original PDF": the backup holds the
    content the original had, the rebuilt document is still in the
    temporary file [tmp], and the original is as the failed move left
    it. *)
Definition replace_failed_at (env : Env) (fp tmp : string) (s s' : State)
    : Prop :=
  exists d w,
    w <> []
    /\ fs s !! fp = Some d
    /\ fs s' !! backup_path_of fp = Some d
    /\ fs s' !! tmp = Some (written w)
    /\ move_failed env tmp fp s s'.

(** The original now holds [total - removed] of its [total] pages, in
    their order, among them every page with a text layer. *)
Definition trimmed (fp : string) (total removed : nat) (s s' : State) : Prop :=
  exists d ps w,
    fs s !! fp = Some d /\ document d = Some ps
    /\ total = List.length ps
    /\ List.length w + removed = total
    /\ w <> []
    /\ sublist w ps
    /\ (forall page, page ∈ ps -> with_text page = true -> page ∈ w)
    /\ fs s' !! fp = Some (written w).

(** The run ended with the attempt to remove the backup, which is gone
    exactly when that call did not raise, and left no other new file. *)
Definition cleaned_up (env : Env) (fp : string) (s s' : State) : Prop :=
  let bk := backup_path_of fp in
  (exists pre,
     trace s' = pre ++ [CRemove bk]
     /\ (fault env (List.length pre) (CRemove bk) = NoFault -> fs s' !! bk = None)
     /\ (fault env (List.length pre) (CRemove bk) <> NoFault ->
         fs s' !! bk = fs s !! fp))
  /\ (forall p, fs s !! p = None -> p <> bk -> fs s' !! p = None).

(** Every [shutil.move] raises midway, leaving a truncated target. *)
Definition move_breaks : Env :=
  {| fault := fun _ c => match c with CMove _ _ => RaiseDuring | _ => NoFault end;
     leftover := fun _ => {| origin := FromWriter; document := None |};
     temp_name := temp_name quiet;
     stop_requested := stop_requested quiet |}.

(** Nothing can be removed: every [os.remove] raises. *)
Definition remove_down : Env :=
  {| fault := fun _ c => match c with CRemove _ => RaiseBefore | _ => NoFault end;
     leftover := leftover quiet;
     temp_name := temp_name quiet;
     stop_requested := stop_requested quiet |}.

(** ** More vocabulary: [CleanerBase.py] *)

(** How [CleanerBase.process_pdf] may leave a file of content [d] when it
    logs an error: nothing has changed; or nothing but the [.bak] path,
    where a copy that raised midway has left a file; or the [.bak] copy
    holds [d] beside an original that is as before, truncated by the
    writer, or already saved. *)
Definition failed_in_place (env : Env) (fp : string) (d : File)
    (s s' : State) : Prop :=
  let bak := fp +:+ ".bak" in
  fs s' = fs s
  \/ (exists n, fault env n (CCopy fp bak) = RaiseDuring
        /\ fs s' = <[bak := leftover env n]> (fs s))
  \/ fs s' !! bak = Some d
     /\ (fs s' !! fp = Some d
         \/ fs s' !! fp = Some truncated
         \/ exists w, fs s' !! fp = Some (written w)).

(** After ["Modified"]: [fp] holds [total - removed] of its [total]
    pages, in their order, among them every page with a text layer; at
    least one page was removed and the [.bak] copy is gone. *)
Definition trimmed_in_place (fp : string) (total removed : nat)
    (s s' : State) : Prop :=
  exists ps w,
    fs s !! fp ≫= document = Some ps
    /\ total = List.length ps
    /\ 1 <= removed
    /\ List.length w + removed = total
    /\ sublist w ps
    /\ (forall page, page ∈ ps -> with_text page = true -> page ∈ w)
    /\ fs s' !! fp = Some (written w)
    /\ fs s' !! (fp +:+ ".bak") = None.

(** The OCR verdict on page [n] of a document when nothing raises. *)
Definition ocr_blank (ps : list Page) (n : nat) : bool :=
  match ps !! n with
  | Some p => match rendering p with
              | [] => true
              | image :: _ => (len (strip (ocr_reading image)) <? 5)%nat
              end
  | None => false
  end.

(** Page [n] is blank on paper. *)
Definition blank_index (ps : list Page) (n : nat) : bool :=
  match ps !! n with
  | Some p => blank_on_paper p
  | None => false
  end.

(** [p] is neither one of [files] nor the [.bak] copy of one. *)
Definition apart_from (files : list string) (p : string) : Prop :=
  Forall (fun f => p <> f /\ p <> f +:+ ".bak") files.

(** The Stop button is never pressed. *)
Definition never_stopped (env : Env) : Prop :=
  forall i, stop_requested env i = false.

(** The writer fails midway, whatever it writes. *)
Definition writer_breaks : Env :=
  {| fault := fun _ c => match c with CWrite _ _ => RaiseDuring | _ => NoFault end;
     leftover := leftover quiet;
     temp_name := temp_name quiet;
     stop_requested := stop_requested quiet |}.

(** The files a sequence of calls started on: the sources of its backup
    copies, in order. *)
Fixpoint attempted (evs : list Call) : list string :=
  match evs with
  | [] => []
  | CCopy src _ :: rest => src :: attempted rest
  | _ :: rest => attempted rest
  end.

(** A folder run of [CleanerBase2] over [files]: [process_pdf] is started
    on the files in order, once each.  Either every file gets its turn
    and the final count is their number, whatever [process_pdf] reported
    for each; or an exception leaves [process_pdf] of the [k]-th file and
    ends the run there, without a final message and with the later files
    never started on. *)
Definition folder_run (files : list string) (s : State)
    (run : Res (list Outcome * FolderOutcome) * State) : Prop :=
  exists evs k,
    trace (snd run) = trace s ++ evs
    /\ attempted evs = take k files
    /\ ((k = List.length files
         /\ exists shown,
              fst run = Ok (shown, Processed (List.length files))
              /\ List.length shown = List.length files)
        \/ (1 <= k <= List.length files /\ exists e, fst run = Raise e)).

(** [p] is neither one of [files] nor the [.backup] copy of one. *)
Definition apart_from_backups (files : list string) (p : string) : Prop :=
  Forall (fun f => p <> f /\ p <> backup_path_of f) files.

(** * Properties *)

(** ** The collaborators, as equations *)

Lemma logged_nil s : logged s [] = s.
Proof. destruct s; unfold logged; simpl. by rewrite app_nil_r. Qed.

Lemma logged_app s a b : logged (logged s a) b = logged s (a ++ b).
Proof. unfold logged; simpl. by rewrite app_assoc. Qed.

Lemma fs_logged s evs : fs (logged s evs) = fs s.
Proof. reflexivity. Qed.

Lemma trace_logged s evs : trace (logged s evs) = trace s ++ evs.
Proof. reflexivity. Qed.

Section CollaboratorEquations.
Variable env : Env.

Lemma shutil_copy_eq src dst s :
  shutil_copy env src dst s =
  match fault env (List.length (trace s)) (CCopy src dst), fs s !! src with
  | NoFault, Some d =>
      (Ok tt, {| fs := <[dst := d]> (fs s); trace := trace s ++ [CCopy src dst] |})
  | RaiseDuring, Some _ =>
      (Raise (ExternalError (CCopy src dst)),
       {| fs := <[dst := leftover env (List.length (trace s))]> (fs s);
          trace := trace s ++ [CCopy src dst] |})
  | _, _ => (Raise (ExternalError (CCopy src dst)), logged s [CCopy src dst])
  end.
Proof.
  unfold shutil_copy, bind, now, call, get_fs, set_fs, raise; simpl.
  destruct (fault env _ _), (fs s !! src); reflexivity.
Qed.

Lemma open_document_eq path s :
  open_document env path s =
  match fault env (List.length (trace s)) (COpen path), fs s !! path ≫= document with
  | NoFault, Some ps => (Ok ps, logged s [COpen path])
  | _, _ => (Raise (ExternalError (COpen path)), logged s [COpen path])
  end.
Proof.
  unfold open_document, bind, call, get_fs, ret, raise; simpl.
  destruct (fault env _ _), (fs s !! path ≫= document); reflexivity.
Qed.

Lemma convert_from_path_eq path n pp s :
  convert_from_path env path n pp s =
  match fault env (List.length (trace s)) (CRasterize path n pp),
        fs s !! path ≫= document with
  | NoFault, Some ps =>
      (Ok (match ps !! (n - 1) with Some pg => rendering pg | None => [] end),
       logged s [CRasterize path n pp])
  | _, _ => (Raise (ExternalError (CRasterize path n pp)),
             logged s [CRasterize path n pp])
  end.
Proof.
  unfold convert_from_path, bind, call, get_fs, ret, raise; simpl.
  destruct (fault env _ _), (fs s !! path ≫= document); reflexivity.
Qed.

Lemma image_to_string_eq img s :
  image_to_string env img s =
  match fault env (List.length (trace s)) (COcr img) with
  | NoFault => (Ok (ocr_reading img), logged s [COcr img])
  | _ => (Raise (ExternalError (COcr img)), logged s [COcr img])
  end.
Proof.
  unfold image_to_string, bind, call, ret, raise; simpl.
  destruct (fault env _ _); reflexivity.
Qed.

Lemma write_document_eq path ps s :
  write_document env path ps s =
  match fault env (List.length (trace s)) (CWrite path ps) with
  | NoFault =>
      (Ok tt, {| fs := <[path := {| origin := FromWriter; document := Some ps |}]> (fs s);
                 trace := trace s ++ [CWrite path ps] |})
  | RaiseBefore => (Raise (ExternalError (CWrite path ps)), logged s [CWrite path ps])
  | RaiseDuring =>
      (Raise (ExternalError (CWrite path ps)),
       {| fs := <[path := {| origin := FromWriter; document := None |}]> (fs s);
          trace := trace s ++ [CWrite path ps] |})
  end.
Proof.
  unfold write_document, bind, call, set_fs, raise; simpl.
  destruct (fault env _ _); reflexivity.
Qed.

Lemma shutil_move_eq src dst s :
  shutil_move env src dst s =
  match fault env (List.length (trace s)) (CMove src dst), fs s !! src with
  | NoFault, Some d =>
      (Ok tt, {| fs := <[dst := d]> (delete src (fs s));
                 trace := trace s ++ [CMove src dst] |})
  | RaiseDuring, Some _ =>
      (Raise (ExternalError (CMove src dst)),
       {| fs := <[dst := leftover env (List.length (trace s))]> (fs s);
          trace := trace s ++ [CMove src dst] |})
  | _, _ => (Raise (ExternalError (CMove src dst)), logged s [CMove src dst])
  end.
Proof.
  unfold shutil_move, bind, now, call, get_fs, set_fs, raise; simpl.
  destruct (fault env _ _), (fs s !! src); reflexivity.
Qed.

Lemma reader_pages_eq path reader s :
  reader_pages env path reader s =
  match fault env (List.length (trace s)) (CPages path) with
  | NoFault => (Ok reader, logged s [CPages path])
  | _ => (Raise (ExternalError (CPages path)), logged s [CPages path])
  end.
Proof.
  unfold reader_pages, bind, call, ret, raise; simpl.
  destruct (fault env _ _); reflexivity.
Qed.

Lemma save_eq path new_doc s :
  CleanerBase.save env path new_doc s =
  match new_doc with
  | [] => (Raise ValueError, logged s [CWrite path []])
  | _ => write_document env path new_doc s
  end.
Proof. by destruct new_doc. Qed.

Lemma os_remove_eq path s :
  os_remove env path s =
  match fault env (List.length (trace s)) (CRemove path), fs s !! path with
  | NoFault, Some _ =>
      (Ok tt, {| fs := delete path (fs s); trace := trace s ++ [CRemove path] |})
  | _, _ => (Raise (ExternalError (CRemove path)), logged s [CRemove path])
  end.
Proof.
  unfold os_remove, bind, call, get_fs, set_fs, raise; simpl.
  destruct (fault env _ _), (fs s !! path); reflexivity.
Qed.

Lemma NamedTemporaryFile_eq s :
  NamedTemporaryFile env s =
  let name := temp_name env (List.length (trace s)) in
  match fault env (List.length (trace s)) CMkTemp, fs s !! name with
  | NoFault, None =>
      (Ok name, {| fs := <[name := {| origin := FromTemp; document := None |}]> (fs s);
                   trace := trace s ++ [CMkTemp] |})
  | _, _ => (Raise (ExternalError CMkTemp), logged s [CMkTemp])
  end.
Proof.
  unfold NamedTemporaryFile, bind, now, call, get_fs, set_fs, ret, raise; simpl.
  destruct (fault env _ CMkTemp);
    destruct (fs s !! temp_name env (List.length (trace s))); reflexivity.
Qed.

End CollaboratorEquations.

(** From here on the collaborators are used through their equations. *)
Arguments shutil_copy : simpl never.
Arguments open_document : simpl never.
Arguments convert_from_path : simpl never.
Arguments image_to_string : simpl never.
Arguments write_document : simpl never.
Arguments shutil_move : simpl never.
Arguments reader_pages : simpl never.
Arguments CleanerBase.save : simpl never.
Arguments os_remove : simpl never.
Arguments NamedTemporaryFile : simpl never.
Arguments strip : simpl never.

(** ** Classification in [CleanerBase1.py] and [CleanerBase2.py] *)

Ltac fate :=
  match goal with
  | |- context [fault ?e ?n ?c] =>
      let F := fresh "Hfate" in destruct (fault e n c) eqn:F
  end.

Ltac calls :=
  cbn [app];
  repeat (apply Forall_cons_2; [solve [auto] |]); apply Forall_nil_2.

(** Case analysis on membership in an explicit list. *)
Ltac members H :=
  repeat (apply elem_of_cons in H as [H | H]; [subst; auto |]);
  try (by apply elem_of_nil in H).

Section Classification.
Variable env : Env.
Variable globals : gmap string nat.

Lemma ocr_stage_run path n pp s :
  exists r evs,
    ocr_stage env globals path n pp s = (r, logged s evs)
    /\ Forall (ocr_call path n (truthy_path pp)) evs.
Proof.
  unfold ocr_stage, bind. rewrite convert_from_path_eq.
  assert (Hr : ocr_call path n (truthy_path pp) (CRasterize path n (truthy_path pp)))
    by (by left).
  assert (Ho : forall img, ocr_call path n (truthy_path pp) (COcr img))
    by (intros img; right; by exists img).
  destruct (fault env _ _); [destruct (fs s !! path ≫= document) as [ps|] |..];
    try (eexists _, _; split; [reflexivity | calls]).
  destruct (match ps !! (n - 1) with Some pg => rendering pg | None => [] end)
    as [|img rest].
  { eexists _, _; split; [reflexivity | calls]. }
  rewrite image_to_string_eq.
  destruct (fault env _ (COcr img));
    try (rewrite logged_app; eexists _, _; split; [reflexivity | calls]).
  destruct (ocr_reading img) as [|c t].
  { cbn. rewrite logged_app. eexists _, _; split; [reflexivity | calls]. }
  unfold load_global. destruct (globals !! _) as [v|]; cbn.
  - destruct (v <=? _)%nat; rewrite logged_app; eexists _, _; split;
      try reflexivity; calls.
  - rewrite logged_app. eexists _, _; split; [reflexivity | calls].
Qed.

Lemma is_blank_page_text page path n pp s :
  has_text (text_layer page) = true ->
  is_blank_page env globals page path n pp s = (Ok false, s).
Proof. intros H. unfold is_blank_page. by rewrite H. Qed.

Lemma is_blank_page_no_text page path n pp s :
  has_text (text_layer page) = false ->
  is_blank_page env globals page path n pp s =
  (Ok match fst (ocr_stage env globals path n pp s) with
      | Ok blank => blank
      | Raise _ => true
      end,
   snd (ocr_stage env globals path n pp s)).
Proof.
  intros H. unfold is_blank_page. rewrite H. unfold bind, try_except.
  destruct (ocr_stage env globals path n pp s) as [[b|e] s']; reflexivity.
Qed.

Lemma is_blank_page_run page path n pp s :
  exists blank evs,
    is_blank_page env globals page path n pp s = (Ok blank, logged s evs)
    /\ Forall (ocr_call path n (truthy_path pp)) evs
    /\ (has_text (text_layer page) = true -> blank = false /\ evs = []).
Proof.
  destruct (has_text (text_layer page)) eqn:H.
  - exists false, []. rewrite is_blank_page_text, logged_nil by done. done.
  - rewrite is_blank_page_no_text by done.
    destruct (ocr_stage_run path n pp s) as (r & evs & E & Hevs).
    rewrite E. cbn. eexists _, evs. split; [reflexivity|]. split; [done|].
    discriminate.
Qed.

(** The loop over the pages: the file system is left as it was, only
    rasterize and OCR calls are made, and every page is either added to
    the writer or counted as removed. *)
Lemma scan_pages_run path pp pages : forall i s,
  exists w r evs,
    scan_pages env globals path pp i pages s = (Ok (w, r), logged s evs)
    /\ Forall (fun c => exists n, ocr_call path n (truthy_path pp) c) evs
    /\ List.length w + r = List.length pages
    /\ sublist w pages.
Proof.
  induction pages as [|page rest IH]; intros i s.
  - exists [], 0, []. cbn. rewrite logged_nil. by repeat split.
  - cbn [scan_pages]. unfold bind.
    destruct (is_blank_page_run page path i pp s) as (b & evs & E & Hevs & _).
    rewrite E.
    destruct (IH (S i) (logged s evs)) as (w & r & evs' & E' & Hevs' & Hlen & Hsub).
    rewrite E', logged_app. unfold ret. cbn [fst snd].
    assert (Hall : Forall (fun c => exists n, ocr_call path n (truthy_path pp) c)
                          (evs ++ evs')).
    { apply Forall_app; split; [|done].
      eapply Forall_impl; [exact Hevs|]. intros c Hc. by exists i. }
    destruct b.
    + exists w, (S r), (evs ++ evs'). repeat split; try done.
      * cbn. lia.
      * by apply sublist_cons.
    + exists (page :: w), r, (evs ++ evs'). repeat split; try done.
      * cbn. lia.
      * by apply sublist_skip.
Qed.

End Classification.

(** ** The per-file pipeline of [CleanerBase1.py] and [CleanerBase2.py] *)

Section Pipeline.
Variable env : Env.
Variable globals : gmap string nat.
Variable write_temp : string -> list Page -> M string.

(** The ways [process_pdf] can go up to its decision. *)
Lemma process_pdf_run fp pp s :
  let run := process_pdf env globals write_temp fp pp s in
  let bk := backup_path_of fp in
  (fst run = Ok BackupFailed /\ copy_failed env fp bk s (snd run))
  \/ exists d, fs s !! fp = Some d /\
     (run = (Ok ReadFailed, backed_up fp d s)
      \/ (exists ps, document d = Some ps
            /\ run = (Raise (ExternalError (CPages fp)), opened fp d s))
      \/ exists ps w r evs,
           document d = Some ps
           /\ scan_pages env globals fp pp 1 ps (opened fp d s)
              = (Ok (w, r), logged (opened fp d s) evs)
           /\ Forall (fun c => exists n, ocr_call fp n (truthy_path pp) c) evs
           /\ List.length w + r = List.length ps
           /\ sublist w ps
           /\ (w = [] /\ run = (Ok AllPagesBlank, logged (opened fp d s) evs)
               \/ w <> [] /\
                  run = replace_original env write_temp fp bk (List.length ps) r w
                          (logged (opened fp d s) evs))).
Proof.
  intros run bk. subst run. unfold process_pdf, bind, try_except.
  fold bk. rewrite shutil_copy_eq.
  destruct (fault env _ _) eqn:Hcopy;
    [destruct (fs s !! fp) as [d|] eqn:Hd | | destruct (fs s !! fp) as [d|] eqn:Hd];
    try (left; split; [reflexivity|]; split; [reflexivity|]; by left).
  2:{ left. split; [reflexivity|]. split; [reflexivity|]. right. by repeat split. }
  right. exists d. split; [done|].
  rewrite open_document_eq. cbn [trace fs].
  assert (Hfp : <[bk := d]> (fs s) !! fp = Some d).
  { destruct (decide (bk = fp)) as [->|Hne].
    - by rewrite lookup_insert_eq.
    - by rewrite lookup_insert_ne. }
  rewrite Hfp. cbn [mbind option_bind].
  assert (Hst : forall c1 c2 : Call,
            logged {| fs := <[bk := d]> (fs s); trace := trace s ++ [c1] |} [c2]
            = {| fs := <[bk := d]> (fs s); trace := trace s ++ [c1; c2] |}).
  { intros. unfold logged; cbn. by rewrite <- app_assoc. }
  destruct (fault env _ (COpen fp)); [destruct (document d) as [ps|] eqn:Hdoc |..];
    rewrite Hst; try (left; reflexivity).
  right. rewrite reader_pages_eq.
  assert (Hst' : logged {| fs := <[bk := d]> (fs s);
                           trace := trace s ++ [CCopy fp bk; COpen fp] |} [CPages fp]
                 = opened fp d s).
  { unfold logged, opened; cbn. by rewrite <- app_assoc. }
  rewrite Hst'.
  destruct (fault env _ (CPages fp)); try (left; by exists ps).
  right.
  destruct (scan_pages_run env globals fp pp ps 1 (opened fp d s))
    as (w & r & evs & E & Hevs & Hlen & Hsub).
  exists ps, w, r, evs. repeat (split; [done|]).
  rewrite E. cbn [fst snd].
  destruct w as [|p w]; cbn [List.length Nat.eqb].
  - left. done.
  - right. done.
Qed.

End Pipeline.

(** ** Paths *)

Lemma append_cons c (r t : string) : String c r +:+ t = String c (r +:+ t).
Proof. reflexivity. Qed.

Lemma cut_last_sep_no_sep t :
  no_sep t = true -> cut_last_sep t = (EmptyString, t).
Proof.
  induction t as [|c r IH]; [done|]. cbn. intros [Hc Hr]%andb_true_iff.
  rewrite (IH Hr). by destruct (is_sep c).
Qed.

(** A suffix without separator only lengthens the last component. *)
Lemma cut_last_sep_app p t :
  no_sep t = true ->
  cut_last_sep (p +:+ t) = (fst (cut_last_sep p), snd (cut_last_sep p) +:+ t).
Proof.
  intros Ht. induction p as [|c r IH].
  - cbn. by rewrite cut_last_sep_no_sep.
  - rewrite append_cons. cbn [cut_last_sep]. rewrite IH. destruct (cut_last_sep r) as [h tl]. cbn.
    destruct h; [destruct (is_sep c)|]; reflexivity.
Qed.

Lemma no_sep_basename p : no_sep (basename p) = true.
Proof.
  unfold basename. induction p as [|c r IH]; [done|]. cbn.
  destruct (cut_last_sep r) as [h tl]. cbn in *.
  destruct h; [destruct (is_sep c) eqn:Hc|]; cbn; try done.
  by rewrite Hc.
Qed.

Lemma no_sep_app a b : no_sep (a +:+ b) = no_sep a && no_sep b.
Proof.
  induction a as [|c r IH]; [done|].
  rewrite append_cons. cbn [no_sep]. by rewrite IH, andb_assoc.
Qed.

Lemma cut_last_sep_ends_with_sep d :
  ends_with_sep d = true -> cut_last_sep d = (d, EmptyString).
Proof.
  induction d as [|c r IH]; [done|]. cbn. destruct r as [|c' r'].
  - intros ->. done.
  - intros H. rewrite (IH H). done.
Qed.

Lemma ends_with_sep_app_sep d : ends_with_sep (d +:+ "/") = true.
Proof.
  induction d as [|c r IH]; [done|]. rewrite append_cons. cbn [ends_with_sep].
  destruct (r +:+ "/") eqn:E; [by destruct r | exact IH].
Qed.

Lemma string_app_assoc (a b c : string) : (a +:+ b) +:+ c = a +:+ b +:+ c.
Proof.
  induction a as [|x r IH]; [done|]. rewrite !append_cons. by rewrite IH.
Qed.

Lemma string_app_length (a b : string) :
  String.length (a +:+ b) = String.length a + String.length b.
Proof.
  induction a as [|x r IH]; [done|].
  rewrite append_cons. cbn [String.length]. by rewrite IH.
Qed.

Lemma basename_join d b :
  no_sep b = true -> b <> EmptyString -> basename (join d b) = b.
Proof.
  intros Hb Hne. unfold basename, join.
  destruct b as [|c r]; [done|]. cbn in Hb.
  apply andb_true_iff in Hb as [Hc Hr]. apply negb_true_iff in Hc. rewrite Hc.
  assert (Hcr : no_sep (String c r) = true) by (cbn; by rewrite Hc, Hr).
  destruct d as [|x d'].
  { by rewrite cut_last_sep_no_sep. }
  destruct (ends_with_sep (String x d')) eqn:He.
  - rewrite cut_last_sep_app, cut_last_sep_ends_with_sep by done. done.
  - rewrite <- string_app_assoc, cut_last_sep_app by done.
    rewrite cut_last_sep_ends_with_sep by apply ends_with_sep_app_sep. done.
Qed.

Lemma basename_backup fp :
  basename (backup_path_of fp) = basename fp +:+ ".backup".
Proof.
  unfold backup_path_of. apply basename_join.
  - by rewrite no_sep_app, no_sep_basename.
  - by destruct (basename fp).
Qed.

(** The backup is never the original. *)
Lemma backup_path_fresh fp : backup_path_of fp <> fp.
Proof.
  intros E. pose proof (basename_backup fp) as H. rewrite E in H.
  apply (f_equal String.length) in H. rewrite string_app_length in H.
  cbn in H. lia.
Qed.

Lemma temp_sibling_fresh fp : fp +:+ ".temp" <> fp.
Proof.
  intros E. apply (f_equal String.length) in E.
  rewrite string_app_length in E. cbn in E. lia.
Qed.

Lemma bak_fresh fp : fp +:+ ".bak" <> fp.
Proof.
  intros E. apply (f_equal String.length) in E.
  rewrite string_app_length in E. cbn in E. lia.
Qed.

(** [file_path + ".temp"] lies in the directory of [file_path]. *)
Lemma dirname_temp_sibling fp : dirname (fp +:+ ".temp") = dirname fp.
Proof. unfold dirname. by rewrite cut_last_sep_app. Qed.

(** ** The first three calls of [process_pdf] *)

Section FirstCalls.
Variable env : Env.
Variable globals : gmap string nat.
Variable write_temp : string -> list Page -> M string.

Lemma process_pdf_read_failed fp pp s d :
  fs s !! fp = Some d ->
  fault env (List.length (trace s)) (CCopy fp (backup_path_of fp)) = NoFault ->
  fault env (S (List.length (trace s))) (COpen fp) <> NoFault
  \/ document d = None ->
  process_pdf env globals write_temp fp pp s = (Ok ReadFailed, backed_up fp d s).
Proof.
  intros Hd Hcopy Hopen. unfold process_pdf, bind, try_except.
  rewrite shutil_copy_eq, Hcopy, Hd. cbv beta iota zeta.
  rewrite open_document_eq. cbn [trace fs].
  rewrite length_app. cbn [List.length].
  replace (List.length (trace s) + 1) with (S (List.length (trace s))) by lia.
  rewrite lookup_insert_ne, Hd by apply backup_path_fresh. cbn [mbind option_bind].
  unfold backed_up, logged. cbn [fs trace]. rewrite <- app_assoc. cbn [app].
  destruct Hopen as [Hopen | Hnone].
  - by destruct (fault env _ (COpen fp)).
  - rewrite Hnone. by destruct (fault env _ (COpen fp)).
Qed.

Lemma process_pdf_listed fp pp s d ps :
  fs s !! fp = Some d -> document d = Some ps ->
  fault env (List.length (trace s)) (CCopy fp (backup_path_of fp)) = NoFault ->
  fault env (S (List.length (trace s))) (COpen fp) = NoFault ->
  process_pdf env globals write_temp fp pp s
  = match fault env (S (S (List.length (trace s)))) (CPages fp) with
    | NoFault =>
        let scan := scan_pages env globals fp pp 1 ps (opened fp d s) in
        match fst scan with
        | Ok (w, r) =>
            match w with
            | [] => (Ok AllPagesBlank, snd scan)
            | _ => replace_original env write_temp fp (backup_path_of fp)
                     (List.length ps) r w (snd scan)
            end
        | Raise e => (Raise e, snd scan)
        end
    | _ => (Raise (ExternalError (CPages fp)), opened fp d s)
    end.
Proof.
  intros Hd Hdoc Hcopy Hopen. unfold process_pdf, bind, try_except.
  rewrite shutil_copy_eq, Hcopy, Hd. cbv beta iota zeta.
  rewrite open_document_eq. cbn [trace fs].
  rewrite length_app. cbn [List.length].
  replace (List.length (trace s) + 1) with (S (List.length (trace s))) by lia.
  rewrite lookup_insert_ne, Hd by apply backup_path_fresh. cbn [mbind option_bind].
  rewrite Hopen, Hdoc. cbv beta iota zeta. rewrite reader_pages_eq.
  unfold logged. cbn [fs trace]. rewrite !length_app. cbn [List.length].
  replace (List.length (trace s) + 1 + 1) with (S (S (List.length (trace s))))
    by lia.
  rewrite <- !app_assoc. cbn [app]. fold (opened fp d s).
  destruct (fault env _ (CPages fp)); try reflexivity.
  destruct (scan_pages env globals fp pp 1 ps (opened fp d s)) as [[[w r]|e] s'];
    cbn [fst snd]; [|reflexivity].
  by destruct w.
Qed.

End FirstCalls.

(** ** Writing the temporary file and replacing the original *)

Section Replace.
Variable env : Env.

Lemma replace_original_from_temp write_temp fp bk tmp total r w s s1 pre :
  write_temp fp w s = (Ok tmp, s1) \/
    (exists e, write_temp fp w s = (Raise e, s1)) ->
  tmp <> fp -> bk <> fp ->
  fs s1 !! fp = fs s !! fp ->
  (forall e, write_temp fp w s = (Raise e, s1) -> trace s1 = trace s ++ pre ++ [CWrite tmp w]) ->
  (write_temp fp w s = (Ok tmp, s1) ->
     trace s1 = trace s ++ pre ++ [CWrite tmp w] /\ fs s1 !! tmp = Some (written w)) ->
  let run := replace_original env write_temp fp bk total r w s in
  exists evs,
    trace (snd run) = trace s ++ pre ++ evs
    /\ rebuild_calls fp bk tmp w (fst run) evs
    /\ (fst run = Ok WriteFailed -> fs (snd run) !! fp = fs s !! fp)
    /\ (fst run = Ok ReplaceFailed -> move_failed env tmp fp s (snd run))
    /\ (is_success (fst run) = true ->
          fst run = Ok (Success total r) /\ fs (snd run) !! fp = Some (written w)).
Proof.
  intros Hwt Htmp Hbk Hfp Hfail Hok run. subst run.
  unfold replace_original, bind, try_except.
  destruct Hwt as [E | [e E]]; rewrite E.
  2:{ cbn. exists [CWrite tmp w]. rewrite (Hfail e E).
      split; [done|]. split; [by left|]. by repeat split. }
  destruct (Hok E) as [Htr Hw]. cbv beta iota zeta.
  rewrite shutil_move_eq, Hw.
  fate.
  2,3: cbn; exists [CWrite tmp w; CMove tmp fp]; rewrite Htr;
       (split; [by rewrite <- !app_assoc|]);
       (split; [right; by left|]); (split; [done|]); (split; [|done]); intros _.
  2:{ by left. }
  2:{ right. rewrite Htr in Hfate. eexists. split; [exact Hfate|]. cbn.
      apply lookup_insert_eq. }
  cbv beta iota zeta. rewrite os_remove_eq. cbn [fs trace].
  assert (Hnew : forall m : gmap string File,
            <[fp := written w]> m !! fp = Some (written w))
    by (intros; apply lookup_insert_eq).
  exists [CWrite tmp w; CMove tmp fp; CRemove bk].
  fate; [destruct (_ !! bk) |..]; cbn; rewrite Htr, <- !app_assoc;
    (split; [done|]); (split; [right; right; by eexists _, _|]);
    (split; [done|]); (split; [done|]); intros _; (split; [done|]);
    rewrite ?lookup_delete_ne by done; apply Hnew.
Qed.

(** [CleanerBase1.py]: the temporary file is [file_path + ".temp"]. *)
Lemma replace_original_sibling fp bk total r w s :
  bk <> fp ->
  let run := replace_original env (write_temp_sibling env) fp bk total r w s in
  exists evs,
    trace (snd run) = trace s ++ evs
    /\ rebuild_calls fp bk (fp +:+ ".temp") w (fst run) evs
    /\ (fst run = Ok WriteFailed -> fs (snd run) !! fp = fs s !! fp)
    /\ (fst run = Ok ReplaceFailed ->
        move_failed env (fp +:+ ".temp") fp s (snd run))
    /\ (is_success (fst run) = true ->
          fst run = Ok (Success total r) /\ fs (snd run) !! fp = Some (written w)).
Proof.
  intros Hbk.
  pose proof (temp_sibling_fresh fp) as Htmp.
  destruct (write_temp_sibling env fp w s) as [res s1] eqn:E.
  assert (E' := E). unfold write_temp_sibling, bind, ret in E'.
  rewrite write_document_eq in E'.
  destruct (fault env _ _); cbn in E'; injection E' as <- <-;
    eapply (replace_original_from_temp (write_temp_sibling env) fp bk
              (fp +:+ ".temp") total r w s _ []);
    first [ left; exact E | right; eexists; exact E | idtac ];
    cbn; rewrite ?lookup_insert_ne, ?lookup_insert_eq by done;
    try done; intros; congruence.
Qed.

(** [CleanerBase2.py]: the temporary file is where [tempfile] puts it. *)
Lemma replace_original_secure fp bk total r w s :
  bk <> fp -> is_Some (fs s !! fp) ->
  let run := replace_original env (write_temp_secure env) fp bk total r w s in
  let tmp := temp_name env (List.length (trace s)) in
  (run = (Ok WriteFailed, logged s [CMkTemp]))
  \/ (tmp <> fp /\ fs s !! tmp = None /\
      exists evs,
        trace (snd run) = trace s ++ [CMkTemp] ++ evs
        /\ rebuild_calls fp bk tmp w (fst run) evs
        /\ (fst run = Ok WriteFailed -> fs (snd run) !! fp = fs s !! fp)
        /\ (fst run = Ok ReplaceFailed -> move_failed env tmp fp s (snd run))
        /\ (is_success (fst run) = true ->
              fst run = Ok (Success total r)
              /\ fs (snd run) !! fp = Some (written w))).
Proof.
  intros Hbk Hfp run tmp.
  destruct (write_temp_secure env fp w s) as [res s1] eqn:E.
  assert (E' := E). unfold write_temp_secure, bind, ret in E'.
  rewrite NamedTemporaryFile_eq in E'. cbv zeta in E'. fold tmp in E'.
  assert (Hleft : write_temp_secure env fp w s
                  = (Raise (ExternalError CMkTemp), logged s [CMkTemp]) ->
                  run = (Ok WriteFailed, logged s [CMkTemp])).
  { intros Hw. subst run. unfold replace_original, bind, try_except.
    by rewrite Hw. }
  destruct (fault env _ CMkTemp); [destruct (fs s !! tmp) eqn:Htmp |..];
    try (left; apply Hleft; congruence).
  right.
  assert (Hne : tmp <> fp).
  { intros ->. rewrite Htmp in Hfp. by destruct Hfp. }
  split; [done|]. split; [done|].
  rewrite write_document_eq in E'. cbn [trace fs] in E'.
  destruct (fault env _ _); cbn in E'; injection E' as <- <-;
    eapply (replace_original_from_temp (write_temp_secure env) fp bk
              tmp total r w s _ [CMkTemp]);
    first [ left; exact E | right; eexists; exact E | idtac ];
    cbn; rewrite ?lookup_insert_ne, ?lookup_insert_eq by done;
    rewrite <- ?app_assoc;
    try done; intros; congruence.
Qed.

(** Whatever makes the temporary file, [replace_original] ends in one of
    three ways. *)
Lemma replace_original_outcome write_temp fp bk total r w s :
  let out := fst (replace_original env write_temp fp bk total r w s) in
  out = Ok WriteFailed \/ out = Ok ReplaceFailed \/ out = Ok (Success total r).
Proof.
  unfold replace_original, bind, try_except.
  destruct (write_temp fp w s) as [[tmp|e] s1]; cbn; [|by left].
  destruct (shutil_move env tmp fp s1) as [[[]|e] s2]; cbn; [|right; by left].
  destruct (os_remove env bk s2) as [[[]|e] s3]; cbn; right; by right.
Qed.

End Replace.

(** ** The two passes of [CleanerBase.py] *)

Section Passes.
Variable env : Env.

Lemma check_by_text page s :
  CleanerBase.check_blank_page env page false s =
  (Ok match strip (CleanerBase.get_text page) with [] => true | _ => false end, s).
Proof. reflexivity. Qed.

Lemma ocr_stage0_run page s :
  exists r evs,
    CleanerBase.ocr_stage env page s = (r, logged s evs)
    /\ Forall (ocr_call (CleanerBase.name (CleanerBase.parent page))
                        (CleanerBase.number page + 1) None) evs.
Proof.
  unfold CleanerBase.ocr_stage, bind. rewrite convert_from_path_eq.
  set (path := CleanerBase.name (CleanerBase.parent page)).
  set (n := CleanerBase.number page + 1).
  assert (Hr : ocr_call path n None (CRasterize path n None)) by (by left).
  assert (Ho : forall img, ocr_call path n None (COcr img))
    by (intros img; right; by exists img).
  destruct (fault env _ _); [destruct (fs s !! path ≫= document) as [ps|] |..];
    try (eexists _, _; split; [reflexivity | calls]).
  destruct (match ps !! (n - 1) with Some pg => rendering pg | None => [] end)
    as [|img rest].
  { eexists _, _; split; [reflexivity | calls]. }
  rewrite image_to_string_eq.
  destruct (fault env _ (COcr img));
    rewrite logged_app; eexists _, _; (split; [reflexivity | calls]).
Qed.

Lemma check_by_ocr page s :
  CleanerBase.check_blank_page env page true s =
  (Ok match fst (CleanerBase.ocr_stage env page s) with
      | Ok blank => blank
      | Raise _ => false
      end,
   snd (CleanerBase.ocr_stage env page s)).
Proof.
  unfold CleanerBase.check_blank_page, bind, try_except.
  destruct (CleanerBase.ocr_stage env page s) as [[b|e] s']; reflexivity.
Qed.

Lemma text_pass_run doc nums s :
  Forall (fun n => n < List.length (CleanerBase.pages doc)) nums ->
  CleanerBase.text_pass env doc nums s =
  (Ok (List.filter (flagged_by_text doc) nums), s).
Proof.
  induction 1 as [|n nums Hn _ IH]; [done|].
  cbn [CleanerBase.text_pass List.filter]. unfold bind, CleanerBase.getitem.
  unfold flagged_by_text at 1.
  destruct (lookup_lt_is_Some_2 _ _ Hn) as [p Hp]. rewrite Hp.
  cbn [ret]. rewrite check_by_text, IH. unfold CleanerBase.get_text. cbn.
  by destruct (strip (default [] (text_layer p))).
Qed.

(** The OCR pass looks only at the pages it is given, keeps a sublist of
    them, and leaves the files alone. *)
Lemma ocr_pass_run doc blank : forall s,
  Forall (fun n => n < List.length (CleanerBase.pages doc)) blank ->
  exists dropped evs,
    CleanerBase.ocr_pass env doc blank s = (Ok dropped, logged s evs)
    /\ sublist dropped blank
    /\ Forall (fun c => exists n, n ∈ blank
                 /\ ocr_call (CleanerBase.name doc) (n + 1) None c) evs
    /\ (forall n, n ∈ dropped ->
          exists p s_n,
            CleanerBase.pages doc !! n = Some p /\ fs s_n = fs s
            /\ fst (CleanerBase.check_blank_page env (page_at doc n p) true s_n)
               = Ok true).
Proof.
  induction blank as [|n rest IH]; intros s Hin.
  - exists [], []. cbn. rewrite logged_nil. repeat split; try done.
    intros n Hn. by apply elem_of_nil in Hn.
  - apply Forall_cons in Hin as [Hn Hrest].
    cbn [CleanerBase.ocr_pass]. unfold bind, CleanerBase.getitem.
    destruct (lookup_lt_is_Some_2 _ _ Hn) as [p Hp]. rewrite Hp. cbn [ret].
    fold (page_at doc n p).
    destruct (ocr_stage0_run (page_at doc n p) s) as (r & evs & E & Hevs).
    pose proof (check_by_ocr (page_at doc n p) s) as Hc. rewrite E in Hc.
    cbn [fst snd] in Hc. rewrite Hc.
    destruct (IH (logged s evs) Hrest) as (dropped & evs' & E' & Hsub & Hevs' & Hd).
    rewrite E', logged_app. cbn [ret].
    assert (Hall : Forall (fun c => exists m, m ∈ n :: rest
                             /\ ocr_call (CleanerBase.name doc) (m + 1) None c)
                          (evs ++ evs')).
    { apply Forall_app; split.
      - eapply Forall_impl; [exact Hevs|]. intros c Hcall. exists n.
        split; [by left | exact Hcall].
      - eapply Forall_impl; [exact Hevs'|]. intros c (m & Hm & Hcall).
        exists m. split; [by right | exact Hcall]. }
    assert (Hrest' : forall m, m ∈ dropped ->
              exists q s_m, CleanerBase.pages doc !! m = Some q /\ fs s_m = fs s
                /\ fst (CleanerBase.check_blank_page env (page_at doc m q) true s_m)
                   = Ok true).
    { intros m Hm. destruct (Hd m Hm) as (q & s_m & Hq & Hfs & Hb).
      exists q, s_m. by repeat split. }
    destruct (match r with Ok blank => blank | Raise _ => false end) eqn:Hb.
    + eexists _, _. split; [reflexivity|]. split; [by apply sublist_skip|].
      split; [done|]. intros m [->|Hm]%elem_of_cons; [|by apply Hrest'].
      exists p, s. repeat split; try done. rewrite check_by_ocr, E. cbn.
      by rewrite Hb.
    + eexists _, _. split; [reflexivity|]. split; [by apply sublist_cons|].
      by split.
Qed.

End Passes.

(** ** The per-file pipeline of [CleanerBase.py] *)

Section InPlace.
Variable env : Env.

Lemma save_in_place_run fp doc dropped s :
  let run := CleanerBase.save_in_place env fp doc dropped s in
  let bak := fp +:+ ".bak" in
  let total := List.length (CleanerBase.pages doc) in
  let new_doc := CleanerBase.insert_kept doc (seq 0 total) dropped in
  (exists e, fst run = Raise e
     /\ (copy_failed env fp bak s (snd run)
         \/ (exists d, fs s !! fp = Some d)
            /\ (trace (snd run) = trace s ++ [CCopy fp bak; CWrite fp new_doc]
                \/ trace (snd run)
                   = trace s ++ [CCopy fp bak; CWrite fp new_doc; CRemove bak]
                   /\ fs (snd run) !! fp = Some (written new_doc))))
  \/ (fst run = Ok (CleanerBase.Modified (basename fp) total (List.length dropped))
      /\ new_doc <> []
      /\ trace (snd run)
         = trace s ++ [CCopy fp bak; CWrite fp new_doc; CRemove bak]
      /\ fs (snd run) !! fp = Some (written new_doc)
      /\ fs (snd run) !! bak = None).
Proof.
  intros run bak total new_doc. subst run.
  pose proof (bak_fresh fp) as Hbak. fold bak in Hbak.
  unfold CleanerBase.save_in_place, bind. fold bak total new_doc.
  rewrite shutil_copy_eq.
  fate; [destruct (fs s !! fp) as [d|] eqn:Hd | | destruct (fs s !! fp) as [d|] eqn:Hd];
    try (left; eexists; split; [reflexivity|]; left; split; [reflexivity|];
         by left).
  2:{ left. eexists. split; [reflexivity|]. left. split; [reflexivity|].
      right. by repeat split. }
  rewrite save_eq.
  destruct new_doc as [|p0 kept] eqn:Hnew.
  { left. eexists. split; [reflexivity|]. right. split; [by eexists|]. left.
    cbn. by rewrite <- app_assoc. }
  rewrite write_document_eq. cbn [trace fs].
  destruct (fault env _ (CWrite _ _)) eqn:Hwrite;
    try (left; eexists; split; [reflexivity|]; right;
         split; [by eexists|]; left; cbn; by rewrite <- app_assoc).
  rewrite os_remove_eq. cbn [trace fs].
  rewrite lookup_insert_ne, lookup_insert_eq by done.
  destruct (fault env _ (CRemove _)) eqn:Hremove.
  - right. cbn. rewrite <- !app_assoc. repeat split; try done.
    + by rewrite lookup_delete_ne, lookup_insert_eq by done.
    + by rewrite lookup_delete_eq.
  - left. eexists; split; [reflexivity|]. right. split; [by eexists|]. right.
    cbn. rewrite <- !app_assoc. split; [done|]. by rewrite lookup_insert_eq.
  - left. eexists; split; [reflexivity|]. right. split; [by eexists|]. right.
    cbn. rewrite <- !app_assoc. split; [done|]. by rewrite lookup_insert_eq.
Qed.

Lemma save_in_place_calls fp doc dropped s :
  exists evs,
    trace (snd (CleanerBase.save_in_place env fp doc dropped s)) = trace s ++ evs
    /\ Forall (about fp) evs.
Proof.
  destruct (save_in_place_run fp doc dropped s)
    as [(e & _ & [[-> _] | (_ & [-> | [-> _]])]) | (_ & _ & -> & _)];
    eexists; (split; [reflexivity|]); repeat constructor.
Qed.

Lemma save_in_place_record fp doc dropped s :
  record_file (record_of fp (fst (CleanerBase.save_in_place env fp doc dropped s)))
  = basename fp.
Proof.
  destruct (save_in_place_run fp doc dropped s) as [(e & -> & _) | (-> & _)];
    reflexivity.
Qed.

(** [process_pdf]: either the document cannot be opened, or the two passes
    run and the decision is taken on the pages the OCR pass confirmed. *)
Lemma process_pdf0_run fp s :
  let run := CleanerBase.process_pdf env fp s in
  (fault env (List.length (trace s)) (COpen fp) <> NoFault
   \/ fs s !! fp ≫= document = None)
  /\ run = (Ok (CleanerBase.Failed (basename fp) (ExternalError (COpen fp))),
            logged s [COpen fp])
  \/ exists ps dropped evs,
       let doc := {| CleanerBase.name := fp; CleanerBase.pages := ps |} in
       let flagged := List.filter (flagged_by_text doc) (seq 0 (List.length ps)) in
       fs s !! fp ≫= document = Some ps
       /\ CleanerBase.ocr_pass env doc flagged (logged s [COpen fp])
          = (Ok dropped, logged s (COpen fp :: evs))
       /\ sublist dropped flagged
       /\ Forall (fun c => exists n, n ∈ flagged /\ ocr_call fp (n + 1) None c) evs
       /\ (forall n, n ∈ dropped ->
             exists p s_n,
               ps !! n = Some p /\ fs s_n = fs s
               /\ fst (CleanerBase.check_blank_page env (page_at doc n p) true s_n)
                  = Ok true)
       /\ (dropped = []
           /\ run = (Ok (CleanerBase.NoChanges (basename fp) (List.length ps)),
                     logged s (COpen fp :: evs))
           \/ dropped <> []
              /\ run = (let '(r, s') := CleanerBase.save_in_place env fp doc dropped
                                          (logged s (COpen fp :: evs)) in
                        (Ok (record_of fp r), s'))).
Proof.
  intros run. subst run.
  unfold CleanerBase.process_pdf, CleanerBase.fitz_open, bind, try_except.
  rewrite open_document_eq.
  destruct (fault env _ _); [destruct (fs s !! fp ≫= document) as [ps|] |..];
    try (left; split; [(by left) || (by right) | reflexivity]).
  right. cbn [ret CleanerBase.pages].
  set (doc := {| CleanerBase.name := fp; CleanerBase.pages := ps |}).
  assert (Hrange : Forall (fun n => n < List.length (CleanerBase.pages doc))
                          (seq 0 (List.length ps))).
  { apply Forall_forall. intros n Hn%elem_of_seq. cbn. lia. }
  rewrite text_pass_run by exact Hrange.
  assert (Hrange' : Forall (fun n => n < List.length (CleanerBase.pages doc))
            (List.filter (flagged_by_text doc) (seq 0 (List.length ps)))).
  { apply Forall_forall. intros n Hn%list_elem_of_In.
    apply List.filter_In in Hn as [Hn%list_elem_of_In%elem_of_seq _]. cbn. lia. }
  destruct (ocr_pass_run env doc _ (logged s [COpen fp]) Hrange')
    as (dropped & evs & E & Hsub & Hevs & Hd).
  exists ps, dropped, evs. cbv zeta. fold doc.
  rewrite E, logged_app. cbn [app].
  repeat (split; [done|]).
  destruct dropped as [|n dropped].
  - left. done.
  - right. split; [done|].
    destruct (CleanerBase.save_in_place env fp doc (n :: dropped) _) as [[r|e] s'];
      reflexivity.
Qed.

(** Whatever happens, one record is written, under the file's base name,
    and only the file and its [.bak] copy are touched. *)
Lemma process_pdf0_calls fp s :
  exists record evs,
    CleanerBase.process_pdf env fp s
    = (Ok record, {| fs := fs (snd (CleanerBase.process_pdf env fp s));
                     trace := trace s ++ evs |})
    /\ record_file record = basename fp
    /\ Forall (about fp) evs.
Proof.
  destruct (process_pdf0_run fp s)
    as [[_ E] | (ps & dropped & evs & _ & _ & _ & Hevs & _ & [[_ E] | [_ E]])].
  - rewrite E. eexists _, _. split; [reflexivity|]. split; [done|].
    by repeat constructor.
  - rewrite E. eexists _, _. split; [reflexivity|]. split; [done|].
    constructor; [done|]. eapply Forall_impl; [exact Hevs|].
    intros c (n & _ & [-> | [img ->]]); done.
  - rewrite E.
    destruct (save_in_place_calls fp
                {| CleanerBase.name := fp; CleanerBase.pages := ps |} dropped
                (logged s (COpen fp :: evs))) as (evs' & Htr & Hevs').
    pose proof (save_in_place_record fp
                {| CleanerBase.name := fp; CleanerBase.pages := ps |} dropped
                (logged s (COpen fp :: evs))) as Hrec.
    destruct (CleanerBase.save_in_place env fp _ dropped _) as [r s'].
    cbn [snd] in Htr. cbn [fst snd] in *.
    exists (record_of fp r), ((COpen fp :: evs) ++ evs').
    split; [|split].
    + destruct s' as [fs' tr']. cbn in Htr. subst tr'. cbn.
      by rewrite <- app_assoc.
    + exact Hrec.
    + apply Forall_app. split; [|done]. constructor; [done|].
      eapply Forall_impl; [exact Hevs|].
      intros c (n & _ & [-> | [img ->]]); done.
Qed.

(** The anatomy of a run of [process_pdf]. *)
Lemma process_pdf0_anatomy fp s :
  let run := CleanerBase.process_pdf env fp s in
  (fault env (List.length (trace s)) (COpen fp) <> NoFault
   \/ fs s !! fp ≫= document = None)
  /\ run = (Ok (CleanerBase.Failed (basename fp) (ExternalError (COpen fp))),
            logged s [COpen fp])
  \/ exists ps dropped ocr tail,
       let doc := {| CleanerBase.name := fp; CleanerBase.pages := ps |} in
       let flagged := List.filter (flagged_by_text doc) (seq 0 (List.length ps)) in
       let new_doc := CleanerBase.insert_kept doc (seq 0 (List.length ps)) dropped in
       let bak := fp +:+ ".bak" in
       fs s !! fp ≫= document = Some ps
       /\ fst (CleanerBase.ocr_pass env doc flagged (logged s [COpen fp]))
          = Ok dropped
       /\ sublist dropped flagged
       /\ Forall (fun c => exists n, n ∈ flagged /\ ocr_call fp (n + 1) None c) ocr
       /\ (forall n, n ∈ dropped ->
             exists p s_n,
               ps !! n = Some p /\ fs s_n = fs s
               /\ fst (CleanerBase.check_blank_page env (page_at doc n p) true s_n)
                  = Ok true)
       /\ trace (snd run) = trace s ++ COpen fp :: ocr ++ tail
       /\ (dropped = [] /\ tail = []
           /\ fst run = Ok (CleanerBase.NoChanges (basename fp) (List.length ps))
           /\ fs (snd run) = fs s
           \/ dropped <> []
              /\ fst run = Ok (CleanerBase.Modified (basename fp) (List.length ps)
                                 (List.length dropped))
              /\ tail = [CCopy fp bak; CWrite fp new_doc; CRemove bak]
              /\ fs (snd run) !! fp = Some (written new_doc)
              /\ fs (snd run) !! bak = None
           \/ dropped <> []
              /\ (exists e, fst run = Ok (CleanerBase.Failed (basename fp) e))
              /\ (tail = [CCopy fp bak]
                  \/ tail = [CCopy fp bak; CWrite fp new_doc]
                  \/ tail = [CCopy fp bak; CWrite fp new_doc; CRemove bak])).
Proof.
  intros run.
  destruct (process_pdf0_run fp s)
    as [E | (ps & dropped & ocr & Hps & Hpass & Hsub & Hocr & Hd & Hdec)];
    [by left | right].
  fold run in Hdec. cbv zeta in Hdec, Hpass.
  apply (f_equal fst) in Hpass. cbn [fst] in Hpass.
  set (doc := {| CleanerBase.name := fp; CleanerBase.pages := ps |}) in *.
  destruct Hdec as [[-> E] | [Hne E]].
  - exists ps, [], ocr, []. cbv zeta. fold doc. rewrite E. cbn [fst snd].
    repeat (split; [done|]). split; [by rewrite app_nil_r|]. left. done.
  - pose proof (save_in_place_run fp doc dropped (logged s (COpen fp :: ocr)))
      as Hsave. cbv zeta in Hsave.
    destruct (CleanerBase.save_in_place env fp doc dropped _) as [r s'].
    cbn [fst snd] in Hsave. rewrite E. cbn [fst snd].
    assert (Happ : forall t : list Call,
              (trace s ++ COpen fp :: ocr) ++ t = trace s ++ COpen fp :: ocr ++ t).
    { intros t. by rewrite <- app_assoc. }
    destruct Hsave as [(e & -> & Hcase) | (-> & _ & Htr & Hfp & Hbak)].
    + destruct Hcase as [[Htr _] | (_ & [Htr | [Htr _]])].
      * exists ps, dropped, ocr, [CCopy fp (fp +:+ ".bak")]. cbv zeta. fold doc.
        repeat (split; [done|]). split; [rewrite Htr; apply Happ|].
        right; right. split; [done|]. split; [by eexists|]. by left.
      * eexists ps, dropped, ocr, _. cbv zeta. fold doc.
        repeat (split; [done|]). split; [rewrite Htr; apply Happ|].
        right; right. split; [done|]. split; [by eexists|]. right; by left.
      * eexists ps, dropped, ocr, _. cbv zeta. fold doc.
        repeat (split; [done|]). split; [rewrite Htr; apply Happ|].
        right; right. split; [done|]. split; [by eexists|]. right; by right.
    + eexists ps, dropped, ocr, _. cbv zeta. fold doc.
      repeat (split; [done|]). split; [rewrite Htr; apply Happ|].
      right; left. done.
Qed.

End InPlace.

(** ** The anatomy of a run in [CleanerBase1.py] and [CleanerBase2.py] *)

Section Anatomy.
Variable env : Env.

Lemma fs_opened_original fp d s :
  fs s !! fp = Some d -> fs (opened fp d s) !! fp = Some d.
Proof.
  intros H. cbn. by rewrite lookup_insert_ne by apply backup_path_fresh.
Qed.

Lemma move_failed_from env' tmp fp s0 s1 s' :
  fs s1 !! fp = fs s0 !! fp ->
  move_failed env' tmp fp s1 s' -> move_failed env' tmp fp s0 s'.
Proof. intros H [H'|H']; [left; congruence | by right]. Qed.

Lemma process_pdf1_anatomy fp pp s :
  let run := CleanerBase1.process_pdf env fp pp s in
  let bk := backup_path_of fp in
  let tmp := fp +:+ ".temp" in
  (fst run = Ok BackupFailed /\ copy_failed env fp bk s (snd run))
  \/ exists d, fs s !! fp = Some d /\
     (run = (Ok ReadFailed, backed_up fp d s)
      \/ (exists ps, document d = Some ps
            /\ run = (Raise (ExternalError (CPages fp)), opened fp d s))
      \/ exists ps w r ocr,
           document d = Some ps
           /\ Forall (fun c => exists n, ocr_call fp n (truthy_path pp) c) ocr
           /\ List.length w + r = List.length ps
           /\ sublist w ps
           /\ (w = [] /\ run = (Ok AllPagesBlank, logged (opened fp d s) ocr)
               \/ w <> [] /\ exists tail,
                    trace (snd run)
                    = trace s ++ [CCopy fp bk; COpen fp; CPages fp] ++ ocr ++ tail
                    /\ rebuild_calls fp bk tmp w (fst run) tail
                    /\ (fst run = Ok WriteFailed -> fs (snd run) !! fp = Some d)
                    /\ (fst run = Ok ReplaceFailed ->
                          move_failed env tmp fp s (snd run))
                    /\ (is_success (fst run) = true ->
                          fst run = Ok (Success (List.length ps) r)
                          /\ fs (snd run) !! fp = Some (written w)))).
Proof.
  intros run bk tmp. subst bk tmp. unfold CleanerBase1.process_pdf in run.
  destruct (process_pdf_run env CleanerBase1.globals (write_temp_sibling env) fp pp s)
    as [E | (d & Hd & [E | [E | (ps & w & r & ocr & Hdoc & _ & Hocr & Hlen & Hsub & Hdec)]])];
    [by left | right; exists d; split; [done|]; by left
     | right; exists d; split; [done|]; right; by left |].
  right. exists d. split; [done|]. right; right. exists ps, w, r, ocr.
  repeat (split; [done|]).
  destruct Hdec as [[-> E] | [Hne E]]; [by left | right].
  split; [done|]. fold run in E. rewrite E.
  destruct (replace_original_sibling env fp (backup_path_of fp) (List.length ps) r w
              (logged (opened fp d s) ocr) (backup_path_fresh fp))
    as (tail & Htr & Hcalls & Hwf & Hrf & Hok).
  assert (Hfp : fs (logged (opened fp d s) ocr) !! fp = fs s !! fp).
  { rewrite fs_logged, Hd. by apply fs_opened_original. }
  exists tail. split; [|split; [done|split; [|split; [|done]]]].
  - rewrite Htr. cbn. by rewrite <- !app_assoc.
  - intros Hf. by rewrite (Hwf Hf), Hfp.
  - intros Hf. eapply move_failed_from; [exact Hfp | by apply Hrf].
Qed.

Lemma process_pdf2_anatomy fp pp s :
  let run := CleanerBase2.process_pdf env fp pp s in
  let bk := backup_path_of fp in
  (fst run = Ok BackupFailed /\ copy_failed env fp bk s (snd run))
  \/ exists d, fs s !! fp = Some d /\
     (run = (Ok ReadFailed, backed_up fp d s)
      \/ (exists ps, document d = Some ps
            /\ run = (Raise (ExternalError (CPages fp)), opened fp d s))
      \/ exists ps w r ocr,
           document d = Some ps
           /\ Forall (fun c => exists n, ocr_call fp n (truthy_path pp) c) ocr
           /\ List.length w + r = List.length ps
           /\ sublist w ps
           /\ (w = [] /\ run = (Ok AllPagesBlank, logged (opened fp d s) ocr)
               \/ w <> [] /\
                  (run = (Ok WriteFailed,
                          logged (opened fp d s) (ocr ++ [CMkTemp]))
                   \/ exists tmp tail,
                        tmp <> fp
                        /\ fs (opened fp d s) !! tmp = None
                        /\ trace (snd run)
                           = trace s ++ [CCopy fp bk; COpen fp; CPages fp] ++ ocr
                               ++ CMkTemp :: tail
                        /\ rebuild_calls fp bk tmp w (fst run) tail
                        /\ (fst run = Ok WriteFailed ->
                              fs (snd run) !! fp = Some d)
                        /\ (fst run = Ok ReplaceFailed ->
                              move_failed env tmp fp s (snd run))
                        /\ (is_success (fst run) = true ->
                              fst run = Ok (Success (List.length ps) r)
                              /\ fs (snd run) !! fp = Some (written w))))).
Proof.
  intros run bk. subst bk. unfold CleanerBase2.process_pdf in run.
  destruct (process_pdf_run env CleanerBase2.globals (write_temp_secure env) fp pp s)
    as [E | (d & Hd & [E | [E | (ps & w & r & ocr & Hdoc & _ & Hocr & Hlen & Hsub & Hdec)]])];
    [by left | right; exists d; split; [done|]; by left
     | right; exists d; split; [done|]; right; by left |].
  right. exists d. split; [done|]. right; right. exists ps, w, r, ocr.
  repeat (split; [done|]).
  destruct Hdec as [[-> E] | [Hne E]]; [by left | right].
  split; [done|]. fold run in E. rewrite E.
  assert (Hfp : fs (logged (opened fp d s) ocr) !! fp = fs s !! fp).
  { rewrite fs_logged, Hd. by apply fs_opened_original. }
  assert (Hsome : is_Some (fs (logged (opened fp d s) ocr) !! fp)).
  { rewrite Hfp, Hd. by eexists. }
  destruct (replace_original_secure env fp (backup_path_of fp) (List.length ps) r w
              (logged (opened fp d s) ocr) (backup_path_fresh fp) Hsome)
    as [E' | (Htmp & Hfresh & tail & Htr & Hcalls & Hwf & Hrf & Hok)].
  - left. rewrite E'. by rewrite logged_app.
  - right. eexists _, tail. split; [exact Htmp|]. split; [exact Hfresh|].
    split; [|split; [done|split; [|split; [|done]]]].
    + rewrite Htr. cbn. by rewrite <- !app_assoc.
    + intros Hf. by rewrite (Hwf Hf), Hfp.
    + intros Hf. eapply move_failed_from; [exact Hfp | by apply Hrf].
Qed.

End Anatomy.

(** * The specified properties *)

(** ** Classification *)

Lemma ltb_of_leb (a b : nat) :
  (if (a <=? b)%nat then false else true) = (b <? a)%nat.
Proof. destruct (Nat.leb_spec a b), (Nat.ltb_spec b a); done || lia. Qed.

Lemma insert_kept_elem doc nums dropped i page :
  i ∈ nums -> CleanerBase.mem i dropped = false ->
  CleanerBase.pages doc !! i = Some page ->
  page ∈ CleanerBase.insert_kept doc nums dropped.
Proof.
  intros Hin Hmem Hi. induction nums as [|n nums IH];
    [by apply elem_of_nil in Hin|].
  cbn [CleanerBase.insert_kept].
  apply elem_of_cons in Hin as [<- | Hin].
  - rewrite Hmem, Hi. by left.
  - destruct (CleanerBase.mem n dropped); [by apply IH|].
    destruct (CleanerBase.pages doc !! n); [right|]; by apply IH.
Qed.

(** C5. A page whose text layer, stripped, is not empty is kept and the
    rasterize/OCR stage is not invoked for it.  In [CleanerBase1] and
    [CleanerBase2], [is_blank_page] answers [False] and leaves the state,
    the log of external calls included, as it found it.  In [CleanerBase],
    [check_blank_page(page, use_ocr=False)] answers [False] without any
    call; a run of [process_pdf] then makes no rasterize call for that
    page, and whenever it saves a document the page is in it. *)
Theorem C5_text_short_circuit :
  (forall env page path n pp s,
      has_text (text_layer page) = true ->
      CleanerBase1.is_blank_page env page path n pp s = (Ok false, s)
      /\ CleanerBase2.is_blank_page env page path n pp s = (Ok false, s))
  /\ (forall env fp s ps i page,
        fs s !! fp ≫= document = Some ps ->
        ps !! i = Some page ->
        has_text (text_layer page) = true ->
        let doc := {| CleanerBase.name := fp; CleanerBase.pages := ps |} in
        CleanerBase.check_blank_page env (page_at doc i page) false s
        = (Ok false, s)
        /\ exists evs,
             trace (snd (CleanerBase.process_pdf env fp s)) = trace s ++ evs
             /\ (forall pp, CRasterize fp (i + 1) pp ∉ evs)
             /\ (forall new_doc, CWrite fp new_doc ∈ evs -> page ∈ new_doc)).
Proof.
  split.
  - intros env page path n pp s H. split; by apply is_blank_page_text.
  - intros env fp s ps i page Hps Hi Htext doc.
    assert (Hstrip : strip (default [] (text_layer page)) <> []).
    { unfold has_text in Htext. destruct (text_layer page) as [t|]; [|done].
      cbn. by destruct (strip t). }
    assert (Hflag : flagged_by_text doc i = false).
    { unfold flagged_by_text. cbn. rewrite Hi.
      by destruct (strip (default [] (text_layer page))). }
    split.
    { rewrite check_by_text. unfold CleanerBase.get_text. cbn.
      by destruct (strip (default [] (text_layer page))). }
    destruct (process_pdf0_anatomy env fp s)
      as [[_ E] | (ps' & dropped & ocr & tail & Hps' & _ & Hsub & Hocr & _ & Htr & Hdec)].
    { rewrite E. exists [COpen fp]. split; [done|].
      split; [intros pp | intros new_doc]; rewrite list_elem_of_singleton; done. }
    cbv zeta in *. rewrite Hps in Hps'. injection Hps' as <-. fold doc in Hsub, Hocr, Hdec.
    eexists. split; [exact Htr|].
    assert (Hnot_ocr : forall pp, CRasterize fp (i + 1) pp ∉ ocr).
    { intros pp Hin. rewrite Forall_forall in Hocr.
      destruct (Hocr _ Hin) as (n & Hn & [Heq | [img Heq]]); [|done].
      injection Heq as Hni _. assert (n = i) as -> by lia.
      apply list_elem_of_In, List.filter_In in Hn as [_ Hn]. congruence. }
    assert (Hnot_dropped : CleanerBase.mem i dropped = false).
    { apply not_true_is_false. intros Hm.
      apply List.existsb_exists in Hm as (n & Hn & ->%Nat.eqb_eq).
      apply list_elem_of_In in Hn. apply (sublist_subseteq _ _ Hsub) in Hn.
      apply list_elem_of_In, List.filter_In in Hn as [_ Hn]. congruence. }
    assert (Hkept : page ∈ CleanerBase.insert_kept doc (seq 0 (List.length ps)) dropped).
    { apply (insert_kept_elem doc _ dropped i page); [|done..].
      apply elem_of_seq. apply lookup_lt_Some in Hi. lia. }
    assert (Htail : forall c, c ∈ tail ->
              c = CCopy fp (fp +:+ ".bak")
              \/ c = CWrite fp (CleanerBase.insert_kept doc (seq 0 (List.length ps)) dropped)
              \/ c = CRemove (fp +:+ ".bak")).
    { intros c Hc.
      destruct Hdec as [(_ & Ht & _) | [(_ & _ & Ht & _) | (_ & _ & [Ht | [Ht | Ht]])]];
        rewrite Ht in Hc; members Hc. }
    split.
    + intros pp [Heq | [Hin | Hin]%elem_of_app]%elem_of_cons;
        [done | by eapply Hnot_ocr |].
      by destruct (Htail _ Hin) as [? | [? | ?]].
    + intros new_doc [Heq | [Hin | Hin]%elem_of_app]%elem_of_cons; [done | |].
      * rewrite Forall_forall in Hocr.
        destruct (Hocr _ Hin) as (n & _ & [Heq | [img Heq]]); done.
      * destruct (Htail _ Hin) as [? | [Heq | ?]]; [done | | done].
        injection Heq as ->. exact Hkept.
Qed.

Lemma C5_witness :
  let s0 := disk "/docs/a.pdf" (pdf five_pages) in
  CleanerBase1.is_blank_page quiet (page_of "one" "one") "/docs/a.pdf" 1 None s0
  = (Ok false, s0)
  /\ forall pp,
       CRasterize "/docs/a.pdf" 1 pp
       ∉ trace (snd (CleanerBase.process_pdf quiet "/docs/a.pdf" s0)).
Proof.
  intros s0. split.
  - apply (proj1 C5_text_short_circuit quiet (page_of "one" "one")).
    vm_compute. reflexivity.
  - destruct (proj2 C5_text_short_circuit quiet "/docs/a.pdf" s0 five_pages 0
                (page_of "one" "one")) as [_ (evs & Htr & Hno & _)].
    + vm_compute. reflexivity.
    + vm_compute. reflexivity.
    + vm_compute. reflexivity.
    + rewrite Htr. exact Hno.
Defined.

Lemma ocr_reads_inv env path n pp s t :
  ocr_reads env path n pp s t ->
  exists img rest,
    convert_from_path env path n pp s
    = (Ok (img :: rest), logged s [CRasterize path n pp])
    /\ image_to_string env img (logged s [CRasterize path n pp])
       = (Ok t, logged s [CRasterize path n pp; COcr img]).
Proof.
  intros (img & rest & Hc & Ho). exists img, rest.
  rewrite convert_from_path_eq in Hc, Ho |- *.
  destruct (fault env _ _); [destruct (fs s !! path ≫= document) as [ps|] |..];
    try discriminate Hc.
  cbn [fst snd] in Hc, Ho. injection Hc as Hc. rewrite Hc. split; [done|].
  rewrite image_to_string_eq in Ho |- *.
  destruct (fault env _ (COcr img)); try discriminate Ho.
  cbn in Ho. injection Ho as ->. by rewrite logged_app.
Qed.

(** C6. For a page whose text layer strips to nothing and whose OCR goes
    through with output [t], the verdict is the threshold rule: blank
    (dropped by OCR) when [len(t.strip()) < 5], kept otherwise.  This is
    [is_blank_page] of [CleanerBase1] and, in [CleanerBase], the pair of
    [check_blank_page] calls (flagged by the text check, then decided by
    the OCR check). *)
Theorem C6_threshold_rule :
  (forall env page path n pp s t,
      has_text (text_layer page) = false ->
      ocr_reads env path n (truthy_path pp) s t ->
      fst (CleanerBase1.is_blank_page env page path n pp s)
      = Ok (len (strip t) <? 5)%nat)
  /\ (forall env page s t,
        strip (CleanerBase.get_text page) = [] ->
        ocr_reads env (CleanerBase.name (CleanerBase.parent page))
          (CleanerBase.number page + 1) None s t ->
        fst (CleanerBase.check_blank_page env page false s) = Ok true
        /\ fst (CleanerBase.check_blank_page env page true s)
           = Ok (len (strip t) <? 5)%nat).
Proof.
  split.
  - intros env page path n pp s t Htext Hocr.
    apply ocr_reads_inv in Hocr as (img & rest & Hc & Ho).
    unfold CleanerBase1.is_blank_page. rewrite is_blank_page_no_text by done.
    unfold ocr_stage, bind. rewrite Hc, Ho. cbn [fst].
    destruct t as [|c t]; [reflexivity|].
    unfold load_global.
    replace (CleanerBase1.globals !! "OCR_TEXT_LENGTH_THRESHOLD") with (Some 5)
      by (symmetry; apply lookup_singleton_eq).
    cbn [ret fst]. set (k := len (strip (c :: t))).
    destruct (Nat.leb_spec 5 k), (Nat.ltb_spec k 5); cbn; done || lia.
  - intros env page s t Htext Hocr.
    apply ocr_reads_inv in Hocr as (img & rest & Hc & Ho).
    split.
    + rewrite check_by_text. by rewrite Htext.
    + rewrite check_by_ocr. unfold CleanerBase.ocr_stage, bind.
      by rewrite Hc, Ho.
Qed.

Lemma C6_witness :
  let s0 := disk "/docs/a.pdf" (pdf [scanned_page; empty_page]) in
  fst (CleanerBase1.is_blank_page quiet scanned_page "/docs/a.pdf" 1 None s0)
  = Ok false
  /\ fst (CleanerBase1.is_blank_page quiet empty_page "/docs/a.pdf" 2 None s0)
     = Ok true
  /\ fst (CleanerBase.check_blank_page quiet
            (page_at {| CleanerBase.name := "/docs/a.pdf";
                        CleanerBase.pages := [scanned_page; empty_page] |}
                     0 scanned_page) true s0)
     = Ok false.
Proof.
  intros s0. split; [|split].
  - apply (proj1 C6_threshold_rule quiet scanned_page "/docs/a.pdf" 1 None s0
             (py "Hello world")).
    + vm_compute. reflexivity.
    + eexists _, _. split; vm_compute; reflexivity.
  - apply (proj1 C6_threshold_rule quiet empty_page "/docs/a.pdf" 2 None s0
             (py "")).
    + vm_compute. reflexivity.
    + eexists _, _. split; vm_compute; reflexivity.
  - apply (proj2 C6_threshold_rule quiet _ s0 (py "Hello world")).
    + vm_compute. reflexivity.
    + eexists _, _. split; vm_compute; reflexivity.
Defined.

(** Without a binding for the threshold, the OCR stage never answers
    "not blank". *)
Lemma ocr_stage_unbound env globals path n pp s :
  globals !! "OCR_TEXT_LENGTH_THRESHOLD" = None ->
  fst (ocr_stage env globals path n pp s) <> Ok false.
Proof.
  intros Hg. unfold ocr_stage, bind. rewrite convert_from_path_eq.
  destruct (fault env _ _); [destruct (fs s !! path ≫= document) as [ps|] |..];
    try done.
  destruct (match ps !! (n - 1) with Some pg => rendering pg | None => [] end)
    as [|img rest]; [done|].
  rewrite image_to_string_eq.
  destruct (fault env _ (COcr img)); try done.
  destruct (ocr_reading img); [done|].
  unfold load_global. by rewrite Hg.
Qed.

(** C10. [CleanerBase2] never binds [OCR_TEXT_LENGTH_THRESHOLD].  So when
    the text layer strips to nothing and OCR returns text that does not
    strip to nothing, the comparison raises [NameError]; the handler
    around the OCR stage turns that into "blank"; and every page whose
    text layer is empty or whitespace is classified blank, whatever OCR
    reads. *)
Theorem C10_unbound_threshold :
  CleanerBase2.globals !! "OCR_TEXT_LENGTH_THRESHOLD" = None
  /\ (forall env page path n pp s t,
        has_text (text_layer page) = false ->
        ocr_reads env path n (truthy_path pp) s t ->
        strip t <> [] ->
        fst (ocr_stage env CleanerBase2.globals path n pp s)
        = Raise (NameError "OCR_TEXT_LENGTH_THRESHOLD")
        /\ fst (CleanerBase2.is_blank_page env page path n pp s) = Ok true)
  /\ (forall env page path n pp s,
        has_text (text_layer page) = false ->
        fst (CleanerBase2.is_blank_page env page path n pp s) = Ok true).
Proof.
  assert (Hg : CleanerBase2.globals !! "OCR_TEXT_LENGTH_THRESHOLD" = None)
    by apply lookup_empty.
  assert (Hall : forall env page path n pp s,
            has_text (text_layer page) = false ->
            fst (CleanerBase2.is_blank_page env page path n pp s) = Ok true).
  { intros env page path n pp s Htext.
    unfold CleanerBase2.is_blank_page. rewrite is_blank_page_no_text by done.
    pose proof (ocr_stage_unbound env CleanerBase2.globals path n pp s Hg) as H.
    cbn [fst]. by destruct (fst (ocr_stage env _ path n pp s)) as [[]|]. }
  split; [exact Hg|]. split; [|exact Hall].
  intros env page path n pp s t Htext Hocr Ht. split; [|by apply Hall].
  apply ocr_reads_inv in Hocr as (img & rest & Hc & Ho).
  unfold ocr_stage, bind. rewrite Hc, Ho.
  destruct t as [|c t]; [by destruct Ht|].
  unfold load_global. by rewrite Hg.
Qed.

Lemma C10_witness :
  let s0 := disk "/docs/a.pdf" (pdf [scanned_page]) in
  fst (ocr_stage quiet CleanerBase2.globals "/docs/a.pdf" 1 None s0)
  = Raise (NameError "OCR_TEXT_LENGTH_THRESHOLD")
  /\ fst (CleanerBase2.is_blank_page quiet scanned_page "/docs/a.pdf" 1 None s0)
     = Ok true.
Proof.
  intros s0.
  apply (proj1 (proj2 C10_unbound_threshold) quiet scanned_page "/docs/a.pdf" 1
           None s0 (py "Hello world")).
  - vm_compute. reflexivity.
  - eexists _, _. split; vm_compute; reflexivity.
  - vm_compute. discriminate.
Defined.

(** C1, as stated, fails on [CleanerBase1]: a page without text layer
    whose OCR raises is classified blank there. *)
Lemma C1_counterexample :
  ~ (forall env page path n pp s e,
       fst (ocr_stage env CleanerBase1.globals path n pp s) = Raise e ->
       fst (CleanerBase1.is_blank_page env page path n pp s) = Ok false).
Proof.
  intros H.
  specialize (H ocr_down scanned_page "/docs/a.pdf" 1 None
                (disk "/docs/a.pdf" (pdf [scanned_page]))
                (ExternalError (COcr {| ocr_reading := py "Hello world" |}))).
  vm_compute in H. specialize (H eq_refl). discriminate H.
Qed.

(** C1, amended.  In [CleanerBase], when rasterization or OCR raises
    inside [check_blank_page(page, use_ocr=True)] the page is not marked
    blank, and when every attempt raises, any number of repeated checks of
    the same page all answer "not blank".  In [CleanerBase1] and
    [CleanerBase2], when the OCR stage raises the page is kept exactly
    when its text layer is not empty (a case in which the stage is not
    even entered): a page without text whose OCR raises is classified
    blank. *)
Theorem C1_ocr_failure_policy :
  (forall env page s e,
      fst (CleanerBase.ocr_stage env page s) = Raise e ->
      fst (CleanerBase.check_blank_page env page true s) = Ok false)
  /\ (forall env page k s,
        (forall evs, exists e,
            fst (CleanerBase.ocr_stage env page (logged s evs)) = Raise e) ->
        fst (repeated_checks env page k s) = Ok (replicate k false))
  /\ (forall env page path n pp s e,
        fst (ocr_stage env CleanerBase1.globals path n pp s) = Raise e ->
        fst (CleanerBase1.is_blank_page env page path n pp s)
        = Ok (negb (has_text (text_layer page))))
  /\ (forall env page path n pp s e,
        fst (ocr_stage env CleanerBase2.globals path n pp s) = Raise e ->
        fst (CleanerBase2.is_blank_page env page path n pp s)
        = Ok (negb (has_text (text_layer page)))).
Proof.
  assert (Hgen : forall env globals page path n pp s e,
            fst (ocr_stage env globals path n pp s) = Raise e ->
            fst (is_blank_page env globals page path n pp s)
            = Ok (negb (has_text (text_layer page)))).
  { intros env globals page path n pp s e Hr.
    destruct (has_text (text_layer page)) eqn:Htext.
    - by rewrite is_blank_page_text.
    - rewrite is_blank_page_no_text by done. cbn [fst]. by rewrite Hr. }
  split; [|split; [|split]].
  - intros env page s e Hr. rewrite check_by_ocr. cbn [fst]. by rewrite Hr.
  - intros env page k. induction k as [|k IH]; intros s Hall; [done|].
    cbn [repeated_checks replicate]. unfold bind.
    destruct (Hall []) as [e He]. rewrite logged_nil in He.
    destruct (ocr_stage0_run env page s) as (r & evs & E & _).
    rewrite check_by_ocr, E in *. cbn [fst snd] in *. subst r.
    assert (Hnext : forall evs', exists e',
              fst (CleanerBase.ocr_stage env page (logged (logged s evs) evs'))
              = Raise e').
    { intros evs'. rewrite logged_app. apply Hall. }
    specialize (IH _ Hnext).
    destruct (repeated_checks env page k (logged s evs)) as [[answers|e'] s'];
      cbn in IH |- *; congruence.
  - intros env page path n pp s e. apply Hgen.
  - intros env page path n pp s e. apply Hgen.
Qed.

Lemma C1_witness :
  let doc := {| CleanerBase.name := "/docs/a.pdf";
                CleanerBase.pages := [scanned_page] |} in
  let s0 := disk "/docs/a.pdf" (pdf [scanned_page]) in
  fst (CleanerBase.check_blank_page ocr_down (page_at doc 0 scanned_page) true s0)
  = Ok false
  /\ fst (repeated_checks ocr_down (page_at doc 0 scanned_page) 3 s0)
     = Ok [false; false; false]
  /\ fst (CleanerBase1.is_blank_page ocr_down scanned_page "/docs/a.pdf" 1 None s0)
     = Ok true.
Proof.
  intros doc s0. split; [|split].
  - apply (proj1 C1_ocr_failure_policy ocr_down (page_at doc 0 scanned_page) s0
             (ExternalError (COcr {| ocr_reading := py "Hello world" |}))).
    vm_compute. reflexivity.
  - apply (proj1 (proj2 C1_ocr_failure_policy) ocr_down
             (page_at doc 0 scanned_page) 3 s0).
    intros evs.
    exists (ExternalError (COcr {| ocr_reading := py "Hello world" |})).
    vm_compute. reflexivity.
  - apply (proj1 (proj2 (proj2 C1_ocr_failure_policy)) ocr_down scanned_page
             "/docs/a.pdf" 1 None s0
             (ExternalError (COcr {| ocr_reading := py "Hello world" |}))).
    vm_compute. reflexivity.
Defined.

(** ** The per-file transaction *)

Lemma ocr_calls_prelude fp pp ocr :
  Forall (fun c => exists n, ocr_call fp n pp c) ocr -> Forall prelude_call ocr.
Proof.
  intros H. eapply Forall_impl; [exact H|].
  intros c (n & [-> | [img ->]]); done.
Qed.





(** C3, as stated, fails: [CleanerBase] lets the writer save onto the
    original path, and the temporary file of [CleanerBase2] need not lie
    in the directory of the original. *)
Lemma C3_counterexample :
  ~ (forall env fp s p new_doc,
       CWrite p new_doc ∈ trace (snd (CleanerBase.process_pdf env fp s)) ->
       p <> fp)
  /\ ~ (forall env fp pp s p w,
          CWrite p w ∈ trace (snd (CleanerBase2.process_pdf env fp pp s)) ->
          dirname p = dirname fp).
Proof.
  split; intros H.
  - apply (H quiet "/docs/a.pdf" (disk "/docs/a.pdf" (pdf five_pages))
             "/docs/a.pdf"
             [page_of "one" "one"; page_of "three" "three"; page_of "five" "five"]);
      [|reflexivity].
    apply list_elem_of_In. vm_compute. tauto.
  - specialize (H quiet "/docs/a.pdf" None (disk "/docs/a.pdf" (pdf five_pages))
                  "/tmp/tmpk3x9.pdf"
                  [page_of "one" "one"; page_of "three" "three"; page_of "five" "five"]).
    assert (Hd : dirname "/tmp/tmpk3x9.pdf" = dirname "/docs/a.pdf" -> False)
      by (vm_compute; discriminate).
    apply Hd, H. apply list_elem_of_In. vm_compute. tauto.
Qed.

(** C3, amended.  When the rebuild proceeds: in [CleanerBase1] the writer
    writes [file_path + ".temp"], which lies in the directory of the
    original, and that file is then moved onto the original path by one
    [shutil.move]; in [CleanerBase2] the writer writes a new temporary
    file made by [tempfile] (not necessarily in the directory of the
    original), which is then moved onto the original path by one
    [shutil.move]; in both the writer never writes the original path: the
    original is untouched if the writing fails, holds the writer's pages
    if the run succeeds and, if the move raises, is untouched unless the
    move raised midway and left something there.  In [CleanerBase], when
    the OCR pass confirms a page, the file is copied to
    [filepath + ".bak"] and the writer saves directly onto the original
    path; no temporary file is made and nothing is moved. *)
Theorem C3_rebuild_paths :
  (forall env fp pp s,
      rebuild_proceeds (fst (CleanerBase1.process_pdf env fp pp s)) = true ->
      rebuilt_beside env fp s (CleanerBase1.process_pdf env fp pp s))
  /\ (forall env fp pp s,
        rebuild_proceeds (fst (CleanerBase2.process_pdf env fp pp s)) = true ->
        rebuilt_elsewhere env fp s (CleanerBase2.process_pdf env fp pp s))
  /\ (forall env fp s ps dropped,
        fs s !! fp ≫= document = Some ps ->
        fault env (List.length (trace s)) (COpen fp) = NoFault ->
        let doc := {| CleanerBase.name := fp; CleanerBase.pages := ps |} in
        fst (CleanerBase.ocr_pass env doc
               (List.filter (flagged_by_text doc) (seq 0 (List.length ps)))
               (logged s [COpen fp])) = Ok dropped ->
        dropped <> [] ->
        rebuilt_in_place fp s (CleanerBase.process_pdf env fp s)).
Proof.
  split; [|split].
  - intros env fp pp s Hgo.
    split; [apply dirname_temp_sibling|]. split; [apply temp_sibling_fresh|].
    destruct (process_pdf1_anatomy env fp pp s)
      as [[E _] | (d & Hd & [E | [(ps & _ & E) | (ps & w & r & ocr & _ & Hocr & _ & _ &
                   [[_ E] | (_ & tail & Htr & Hcalls & Hwf & Hrf & Hok)])]])];
      try (rewrite E in Hgo; discriminate).
    exists ([CCopy fp (backup_path_of fp); COpen fp; CPages fp] ++ ocr), tail, w.
    split; [by rewrite <- app_assoc|]. split; [|split; [done|split; [|split]]].
    + apply Forall_app. split; [by repeat constructor|].
      by eapply ocr_calls_prelude.
    + intros Hs. by apply Hok.
    + intros Hf. by rewrite Hwf, Hd.
    + exact Hrf.
  - intros env fp pp s Hgo.
    destruct (process_pdf2_anatomy env fp pp s)
      as [[E _] | (d & Hd & [E | [(ps & _ & E) | (ps & w & r & ocr & _ & Hocr & _ & _ &
               [[_ E] | (_ & [E | (tmp & tail & Htmp & Hfresh & Htr & Hcalls & Hwf & Hrf & Hok)])])]])];
      try (rewrite E in Hgo; discriminate).
    + left. rewrite E. cbn [fst snd]. split; [done|].
      rewrite fs_logged. split; [by rewrite (fs_opened_original fp d s Hd)|].
      eexists. split; [cbn; by rewrite <- app_assoc|].
      cbn. repeat (apply Forall_cons_2; [done|]).
      apply Forall_app. split; [by eapply ocr_calls_prelude | by repeat constructor].
    + right. exists tmp. split; [done|].
      split; [cbn in Hfresh; by apply lookup_insert_None in Hfresh as [? _]|].
      exists ([CCopy fp (backup_path_of fp); COpen fp; CPages fp] ++ ocr ++ [CMkTemp]),
        tail, w.
      split; [rewrite Htr; by rewrite <- !app_assoc|].
      split; [|split; [done|split; [|split]]].
      * cbn. repeat (apply Forall_cons_2; [done|]).
        apply Forall_app. split; [by eapply ocr_calls_prelude | by repeat constructor].
      * intros Hs. by apply Hok.
      * intros Hf. by rewrite Hwf, Hd.
      * exact Hrf.
  - intros env fp s ps dropped Hps Hopen doc Hpass Hne.
    destruct (process_pdf0_anatomy env fp s)
      as [[[Hf | Hnone] _] | (ps' & dropped' & ocr & tail & Hps' & Hpass' & _ & Hocr
                              & _ & Htr & Hdec)];
      [congruence | congruence |].
    cbv zeta in *. rewrite Hps in Hps'. injection Hps' as <-.
    fold doc in Hpass', Hocr, Hdec. rewrite Hpass in Hpass'. injection Hpass' as <-.
    assert (Hpre : Forall (fun c => c = COpen fp \/ exists n, ocr_call fp n None c)
                     (COpen fp :: ocr)).
    { apply Forall_cons_2; [by left|]. eapply Forall_impl; [exact Hocr|].
      intros c (n & _ & Hc). right. by exists (n + 1). }
    set (new_doc := CleanerBase.insert_kept doc (seq 0 (List.length ps)) dropped) in *.
    assert (Happ : forall t : list Call,
              trace s ++ COpen fp :: ocr ++ CCopy fp (fp +:+ ".bak") :: t
              = trace s ++ (COpen fp :: ocr) ++ CCopy fp (fp +:+ ".bak") :: t)
      by done.
    destruct Hdec as [(Hnil & _) | [(_ & E & Ht & Hfp & _) | (_ & [e E] & Ht)]];
      [done | |].
    + exists (COpen fp :: ocr), new_doc, [CWrite fp new_doc; CRemove (fp +:+ ".bak")].
      split; [rewrite Htr, Ht; apply Happ|]. split; [done|].
      split; [right; by right|]. intros f total removed _. by split.
    + assert (Hnot : forall f total removed,
                fst (CleanerBase.process_pdf env fp s)
                = Ok (CleanerBase.Modified f total removed) -> False).
      { intros f total removed H. rewrite E in H. discriminate. }
      destruct Ht as [Ht | [Ht | Ht]].
      * exists (COpen fp :: ocr), new_doc, [].
        split; [rewrite Htr, Ht; apply Happ|]. split; [done|].
        split; [by left|]. intros f total removed H. by destruct (Hnot _ _ _ H).
      * exists (COpen fp :: ocr), new_doc, [CWrite fp new_doc].
        split; [rewrite Htr, Ht; apply Happ|]. split; [done|].
        split; [right; by left|]. intros f total removed H.
        by destruct (Hnot _ _ _ H).
      * exists (COpen fp :: ocr), new_doc, [CWrite fp new_doc; CRemove (fp +:+ ".bak")].
        split; [rewrite Htr, Ht; apply Happ|]. split; [done|].
        split; [right; by right|]. intros f total removed H.
        by destruct (Hnot _ _ _ H).
Qed.

Lemma C3_witness :
  let s0 := disk "/docs/a.pdf" (pdf five_pages) in
  rebuilt_beside quiet "/docs/a.pdf" s0
    (CleanerBase1.process_pdf quiet "/docs/a.pdf" None s0)
  /\ rebuilt_elsewhere quiet "/docs/a.pdf" s0
       (CleanerBase2.process_pdf quiet "/docs/a.pdf" None s0)
  /\ rebuilt_in_place "/docs/a.pdf" s0 (CleanerBase.process_pdf quiet "/docs/a.pdf" s0).
Proof.
  intros s0. split; [|split].
  - apply (proj1 C3_rebuild_paths quiet "/docs/a.pdf" None s0).
    vm_compute. reflexivity.
  - apply (proj1 (proj2 C3_rebuild_paths) quiet "/docs/a.pdf" None s0).
    vm_compute. reflexivity.
  - apply (proj2 (proj2 C3_rebuild_paths) quiet "/docs/a.pdf" s0 five_pages [1; 3]).
    + vm_compute. reflexivity.
    + vm_compute. reflexivity.
    + vm_compute. reflexivity.
    + discriminate.
Defined.

Lemma sublist_same_length {A} (l1 l2 : list A) :
  sublist l1 l2 -> List.length l2 <= List.length l1 -> l1 = l2.
Proof.
  induction 1 as [|x l1 l2 _ IH|x l1 l2 Hsub _]; cbn; intros Hlen.
  - done.
  - f_equal. apply IH. lia.
  - apply sublist_length in Hsub. lia.
Qed.

(** C4, as stated, fails on [CleanerBase2]: a run that removes no page
    ends in "Modified PDF saved" with the original replaced. *)
Lemma C4_counterexample :
  ~ (forall env fp pp s total,
       fst (CleanerBase2.process_pdf env fp pp s) = Ok (Success total 0) ->
       fs (snd (CleanerBase2.process_pdf env fp pp s)) !! fp = fs s !! fp).
Proof.
  intros H.
  specialize (H quiet "/docs/a.pdf" None (disk "/docs/a.pdf" (pdf three_pages)) 3).
  vm_compute in H. specialize (H eq_refl). discriminate H.
Qed.

(** C4, amended.  In [CleanerBase], for a file that opens and in which the
    OCR pass confirms no page as blank, the run is logged as "No changes"
    (removed pages: 0), the files are as before (no backup was ever made)
    and nothing was written.  In [CleanerBase2], a run that ends with no
    page removed has nevertheless written all pages to the temporary file
    and moved it onto the original path, which then holds the writer's
    output; it reports success with 0 removed pages. *)
Theorem C4_nothing_dropped :
  (forall env fp s ps,
      fs s !! fp ≫= document = Some ps ->
      fault env (List.length (trace s)) (COpen fp) = NoFault ->
      let doc := {| CleanerBase.name := fp; CleanerBase.pages := ps |} in
      fst (CleanerBase.ocr_pass env doc
             (List.filter (flagged_by_text doc) (seq 0 (List.length ps)))
             (logged s [COpen fp])) = Ok [] ->
      left_unchanged fp (List.length ps) s (CleanerBase.process_pdf env fp s))
  /\ (forall env fp pp s total,
        fst (CleanerBase2.process_pdf env fp pp s) = Ok (Success total 0) ->
        rewritten_in_full fp total s (CleanerBase2.process_pdf env fp pp s)).
Proof.
  split.
  - intros env fp s ps Hps Hfault doc Hpass.
    destruct (process_pdf0_anatomy env fp s)
      as [[[Hf | Hnone] _] | (ps' & dropped & ocr & tail & Hps' & Hpass' & _ & Hocr & _ & Htr & Hdec)];
      [congruence | congruence |].
    cbv zeta in *. rewrite Hps in Hps'. injection Hps' as <-.
    fold doc in Hpass', Hocr, Hdec. rewrite Hpass in Hpass'. injection Hpass' as <-.
    destruct Hdec as [(_ & -> & E & Hfs) | [(Hne & _) | (Hne & _)]]; try done.
    split; [exact E|]. split; [exact Hfs|].
    eexists. split; [exact Htr|]. rewrite app_nil_r.
    apply Forall_cons_2; [by left|]. eapply Forall_impl; [exact Hocr|].
    intros c (n & _ & Hc). right. by exists (n + 1).
  - intros env fp pp s total Hout.
    destruct (process_pdf2_anatomy env fp pp s)
      as [[E _] | (d & Hd & [E | [(ps & _ & E) | (ps & w & r & ocr & Hdoc & Hocr & Hlen & Hsub &
               [[_ E] | (_ & [E | (tmp & tail & Htmp & _ & Htr & Hcalls & _ & _ & Hok)])])]])];
      try (rewrite E in Hout; discriminate).
    rewrite Hout in Hok, Hcalls. destruct (Hok eq_refl) as [Heq Hfp].
    injection Heq as -> <-.
    assert (w = ps) as -> by (apply sublist_same_length; [done | lia]).
    destruct Hcalls as [[? _] | [[? _] | (t & rm & _ & ->)]]; try discriminate.
    exists d, ps, tmp,
      ([CCopy fp (backup_path_of fp); COpen fp; CPages fp] ++ ocr ++ [CMkTemp]).
    repeat (split; [done|]). split; [|done].
    rewrite Htr. by rewrite <- !app_assoc.
Qed.

Lemma C4_witness :
  let s0 := disk "/docs/a.pdf" (pdf three_pages) in
  left_unchanged "/docs/a.pdf" 3 s0 (CleanerBase.process_pdf quiet "/docs/a.pdf" s0)
  /\ rewritten_in_full "/docs/a.pdf" 3 s0
       (CleanerBase2.process_pdf quiet "/docs/a.pdf" None s0).
Proof.
  intros s0. split.
  - apply (proj1 C4_nothing_dropped quiet "/docs/a.pdf" s0 three_pages).
    + vm_compute. reflexivity.
    + vm_compute. reflexivity.
    + vm_compute. reflexivity.
  - apply (proj2 C4_nothing_dropped quiet "/docs/a.pdf" None s0 3).
    vm_compute. reflexivity.
Defined.

(** C8, as stated, fails: after "Failed to read PDF" the backup is still
    on disk. *)
Lemma C8_counterexample :
  ~ (forall env fp pp s,
       fst (CleanerBase1.process_pdf env fp pp s) = Ok ReadFailed ->
       fs (snd (CleanerBase1.process_pdf env fp pp s)) !! backup_path_of fp = None).
Proof.
  intros H.
  specialize (H quiet "/docs/a.pdf" None (disk "/docs/a.pdf" garbage)).
  vm_compute in H. specialize (H eq_refl). discriminate H.
Qed.

(** C8, amended.  In [CleanerBase1] and [CleanerBase2], when the backup
    copy goes through and [PdfReader(file_path)] raises, [process_pdf]
    reports "Failed to read PDF" and returns at once: the original is
    untouched and the backup stays on disk, no removal being attempted
    (and so it is whenever that report is made).  When the reader opens the
    file and [reader.pages], which stands outside every [try], raises (as
    for an encrypted document), the exception leaves [process_pdf]: no
    outcome is reported, and again the original is untouched and the
    backup stays on disk. *)
Theorem C8_read_failure :
  (forall env fp pp s d,
      backup_made env fp s d -> reader_raises env fp s d ->
      let run1 := CleanerBase1.process_pdf env fp pp s in
      let run2 := CleanerBase2.process_pdf env fp pp s in
      fst run1 = Ok ReadFailed /\ backup_left_behind fp d s (snd run1)
      /\ fst run2 = Ok ReadFailed /\ backup_left_behind fp d s (snd run2))
  /\ (forall env fp pp s d ps,
        backup_made env fp s d -> reader_opens env fp s d ps ->
        pages_raise env fp s ->
        let run1 := CleanerBase1.process_pdf env fp pp s in
        let run2 := CleanerBase2.process_pdf env fp pp s in
        fst run1 = Raise (ExternalError (CPages fp))
        /\ backup_left_behind fp d s (snd run1)
        /\ fst run2 = Raise (ExternalError (CPages fp))
        /\ backup_left_behind fp d s (snd run2))
  /\ (forall env fp pp s,
        (fst (CleanerBase1.process_pdf env fp pp s) = Ok ReadFailed ->
         exists d, backup_left_behind fp d s
                     (snd (CleanerBase1.process_pdf env fp pp s)))
        /\ (fst (CleanerBase2.process_pdf env fp pp s) = Ok ReadFailed ->
            exists d, backup_left_behind fp d s
                        (snd (CleanerBase2.process_pdf env fp pp s)))).
Proof.
  assert (Hleft : forall fp d s evs,
            fs s !! fp = Some d -> evs = [] \/ evs = [CPages fp] ->
            backup_left_behind fp d s
              {| fs := <[backup_path_of fp := d]> (fs s);
                 trace := trace s ++ CCopy fp (backup_path_of fp) :: COpen fp :: evs |}).
  { intros fp d s evs Hd Hevs. split; [done|]. cbn. split; [done|].
    split; [by rewrite lookup_insert_ne by apply backup_path_fresh|].
    split; [by rewrite lookup_insert_eq|]. by exists evs. }
  assert (Hread : forall env globals write_temp fp pp s d,
            backup_made env fp s d -> reader_raises env fp s d ->
            let run := process_pdf env globals write_temp fp pp s in
            fst run = Ok ReadFailed /\ backup_left_behind fp d s (snd run)).
  { intros env globals write_temp fp pp s d [Hd Hcopy] Hraise run. subst run.
    rewrite (process_pdf_read_failed env globals write_temp fp pp s d) by done.
    split; [done|]. apply Hleft; [done | by left]. }
  assert (Hpages : forall env globals write_temp fp pp s d ps,
            backup_made env fp s d -> reader_opens env fp s d ps ->
            pages_raise env fp s ->
            let run := process_pdf env globals write_temp fp pp s in
            fst run = Raise (ExternalError (CPages fp))
            /\ backup_left_behind fp d s (snd run)).
  { intros env globals write_temp fp pp s d ps [Hd Hcopy] [Hopen Hdoc] Hraise run.
    subst run.
    rewrite (process_pdf_listed env globals write_temp fp pp s d ps) by done.
    unfold pages_raise in Hraise.
    destruct (fault env _ (CPages fp)); [done|..];
      (split; [done|]; apply Hleft; [done | by right]). }
  assert (Hconv : forall env globals write_temp fp pp s,
            fst (process_pdf env globals write_temp fp pp s) = Ok ReadFailed ->
            exists d, backup_left_behind fp d s
                        (snd (process_pdf env globals write_temp fp pp s))).
  { intros env globals write_temp fp pp s Hout.
    destruct (process_pdf_run env globals write_temp fp pp s)
      as [[E _] | (d & Hd & [E | [(ps & _ & E)
                  | (ps & w & r & ocr & _ & _ & _ & _ & _ & [[_ E] | [_ E]])]])];
      try (rewrite E in Hout; discriminate).
    - rewrite E. exists d. apply Hleft; [done | by left].
    - rewrite E in Hout.
      destruct (replace_original_outcome env write_temp fp (backup_path_of fp)
                  (List.length ps) r w (logged (opened fp d s) ocr))
        as [H | [H | H]]; rewrite H in Hout; discriminate. }
  split; [|split].
  - intros env fp pp s d Hb Hr run1 run2.
    destruct (Hread env CleanerBase1.globals (write_temp_sibling env) fp pp s d Hb Hr).
    destruct (Hread env CleanerBase2.globals (write_temp_secure env) fp pp s d Hb Hr).
    done.
  - intros env fp pp s d ps Hb Ho Hp run1 run2.
    destruct (Hpages env CleanerBase1.globals (write_temp_sibling env) fp pp s d ps
                Hb Ho Hp).
    destruct (Hpages env CleanerBase2.globals (write_temp_secure env) fp pp s d ps
                Hb Ho Hp).
    done.
  - intros env fp pp s. split; apply Hconv.
Qed.

Lemma C8_witness :
  let s0 := disk "/docs/a.pdf" garbage in
  let s1 := disk "/docs/a.pdf" (pdf three_pages) in
  (fst (CleanerBase1.process_pdf quiet "/docs/a.pdf" None s0) = Ok ReadFailed
   /\ backup_left_behind "/docs/a.pdf" garbage s0
        (snd (CleanerBase1.process_pdf quiet "/docs/a.pdf" None s0)))
  /\ (fst (CleanerBase2.process_pdf pages_locked "/docs/a.pdf" None s1)
      = Raise (ExternalError (CPages "/docs/a.pdf"))
      /\ backup_left_behind "/docs/a.pdf" (pdf three_pages) s1
           (snd (CleanerBase2.process_pdf pages_locked "/docs/a.pdf" None s1))).
Proof.
  intros s0 s1. split.
  - destruct (proj1 C8_read_failure quiet "/docs/a.pdf" None s0 garbage)
      as (H1 & H2 & _).
    + split; reflexivity.
    + right. reflexivity.
    + split; [exact H1 | exact H2].
  - destruct (proj1 (proj2 C8_read_failure) pages_locked "/docs/a.pdf" None s1
                (pdf three_pages) three_pages) as (_ & _ & H1 & H2).
    + split; reflexivity.
    + split; reflexivity.
    + unfold pages_raise. vm_compute. discriminate.
    + split; [exact H1 | exact H2].
Defined.

(** ** Which pages are dropped *)

(** C7, as stated, fails on [CleanerBase1]: a page without text layer is
    removed although no OCR check confirmed it, when the rasterizer or
    tesseract raises.  With tesseract down, the second page of a
    two-page document, a scan showing "Hello world", is removed. *)
Lemma C7_counterexample :
  ~ (forall env page path n pp s,
       fst (CleanerBase1.is_blank_page env page path n pp s) = Ok true ->
       fst (ocr_stage env CleanerBase1.globals path n pp s) = Ok true)
  /\ (let s0 := disk "/docs/a.pdf" (pdf [page_of "one" "one"; scanned_page]) in
      let run := CleanerBase1.process_pdf ocr_down "/docs/a.pdf" None s0 in
      fst run = Ok (Success 2 1)
      /\ fs (snd run) !! "/docs/a.pdf" = Some (written [page_of "one" "one"])).
Proof.
  split.
  - intros H.
    specialize (H ocr_down scanned_page "/docs/a.pdf" 1 None
                  (disk "/docs/a.pdf" (pdf [scanned_page]))).
    vm_compute in H. specialize (H eq_refl). discriminate H.
  - cbv zeta. split; vm_compute; reflexivity.
Qed.

(** C7, amended.  OCR runs only on pages the text-layer check flagged,
    and a page is removed only if that check flagged it.  In
    [CleanerBase.process_pdf] a removed page was moreover confirmed by
    the OCR check: every rasterize call is for a flagged page, and a
    saved document is the original without a list of pages each of which
    was flagged by the text check and got [True] from
    [check_blank_page(page, use_ocr=True)].  In
    [CleanerBase1.is_blank_page] the answer is [True] only when the text
    layer is empty and the OCR stage either answered "blank" or raised
    (its handler answers "blank"), and a call is made only when the text
    layer is empty. *)
Theorem C7_dropped_within_flagged :
  (forall env fp s ps,
      fs s !! fp ≫= document = Some ps ->
      let doc := {| CleanerBase.name := fp; CleanerBase.pages := ps |} in
      exists evs,
        trace (snd (CleanerBase.process_pdf env fp s)) = trace s ++ evs
        /\ (forall k pp, CRasterize fp k pp ∈ evs ->
              exists n, k = n + 1 /\ flagged_by_text doc n = true)
        /\ (forall new_doc, CWrite fp new_doc ∈ evs ->
              exists dropped,
                new_doc = CleanerBase.insert_kept doc (seq 0 (List.length ps)) dropped
                /\ forall n, n ∈ dropped ->
                     flagged_by_text doc n = true
                     /\ exists p s_n,
                          ps !! n = Some p /\ fs s_n = fs s
                          /\ fst (CleanerBase.check_blank_page env
                                    (page_at doc n p) true s_n) = Ok true))
  /\ (forall env page path n pp s,
        (fst (CleanerBase1.is_blank_page env page path n pp s) = Ok true ->
         has_text (text_layer page) = false
         /\ (fst (ocr_stage env CleanerBase1.globals path n pp s) = Ok true
             \/ exists e,
                  fst (ocr_stage env CleanerBase1.globals path n pp s) = Raise e))
        /\ (snd (CleanerBase1.is_blank_page env page path n pp s) <> s ->
            has_text (text_layer page) = false)).
Proof.
  split.
  - intros env fp s ps Hps doc.
    destruct (process_pdf0_anatomy env fp s)
      as [[_ E] | (ps' & dropped & ocr & tail & Hps' & _ & Hsub & Hocr & Hd & Htr & Hdec)].
    { rewrite E. exists [COpen fp]. split; [done|].
      split; [intros k pp | intros new_doc]; rewrite list_elem_of_singleton; done. }
    cbv zeta in *. rewrite Hps in Hps'. injection Hps' as <-.
    fold doc in Hsub, Hocr, Hd, Hdec.
    assert (Hflag : forall n,
              n ∈ List.filter (flagged_by_text doc) (seq 0 (List.length ps)) ->
              flagged_by_text doc n = true).
    { intros n Hn. by apply list_elem_of_In, List.filter_In in Hn as [_ Hn]. }
    assert (Htail : forall c, c ∈ tail ->
              c = CCopy fp (fp +:+ ".bak")
              \/ c = CWrite fp (CleanerBase.insert_kept doc (seq 0 (List.length ps)) dropped)
              \/ c = CRemove (fp +:+ ".bak")).
    { intros c Hc.
      destruct Hdec as [(_ & Ht & _) | [(_ & _ & Ht & _) | (_ & _ & [Ht | [Ht | Ht]])]];
        rewrite Ht in Hc; members Hc. }
    rewrite Forall_forall in Hocr.
    eexists. split; [exact Htr|]. split.
    + intros k pp [Heq | [Hin | Hin]%elem_of_app]%elem_of_cons; [done | |].
      * destruct (Hocr _ Hin) as (n & Hn & [Heq | [img Heq]]); [|done].
        injection Heq as -> _. exists n. split; [done|]. by apply Hflag.
      * by destruct (Htail _ Hin) as [? | [? | ?]].
    + intros new_doc [Heq | [Hin | Hin]%elem_of_app]%elem_of_cons; [done | |].
      * destruct (Hocr _ Hin) as (n & _ & [Heq | [img Heq]]); done.
      * destruct (Htail _ Hin) as [? | [Heq | ?]]; [done | | done].
        injection Heq as ->. exists dropped. split; [done|].
        intros n Hn. split; [|by apply Hd].
        apply Hflag. by apply (sublist_subseteq _ _ Hsub).
  - intros env page path n pp s. unfold CleanerBase1.is_blank_page.
    destruct (has_text (text_layer page)) eqn:Htext.
    + rewrite is_blank_page_text by done. cbn. split; [discriminate | done].
    + rewrite is_blank_page_no_text by done. cbn [fst snd]. split; [|done].
      intros Hb. split; [done|].
      destruct (fst (ocr_stage env CleanerBase1.globals path n pp s)) as [[]|e];
        [by left | discriminate | right; by exists e].
Qed.

Lemma C7_witness :
  let s0 := disk "/docs/a.pdf" (pdf five_pages) in
  let doc := {| CleanerBase.name := "/docs/a.pdf"; CleanerBase.pages := five_pages |} in
  exists evs,
    trace (snd (CleanerBase.process_pdf quiet "/docs/a.pdf" s0)) = trace s0 ++ evs
    /\ (forall k pp, CRasterize "/docs/a.pdf" k pp ∈ evs ->
          exists n, k = n + 1 /\ flagged_by_text doc n = true).
Proof.
  intros s0 doc.
  destruct (proj1 C7_dropped_within_flagged quiet "/docs/a.pdf" s0 five_pages)
    as (evs & Htr & Hr & _).
  - vm_compute. reflexivity.
  - exists evs. split; [exact Htr | exact Hr].
Defined.

(** ** The batch loop *)

Lemma batch_loop_run env files : forall i s,
  exists records evs fs',
    CleanerBase.batch_loop env i files s
    = (Ok records, {| fs := fs'; trace := trace s ++ evs |})
    /\ batch_outcome env i files records evs.
Proof.
  induction files as [|fp rest IH]; intros i s.
  - exists [], [], (fs s). cbn. rewrite app_nil_r. split; [by destruct s|].
    unfold batch_outcome. cbn. repeat split; try done; intros; lia.
  - cbn [CleanerBase.batch_loop].
    destruct (stop_requested env i) eqn:Hstop.
    + exists [], [], (fs s). cbn. rewrite app_nil_r. split; [by destruct s|].
      unfold batch_outcome. cbn. repeat split; try done; try (intros; lia).
      intros _. by rewrite Nat.add_0_r.
    + unfold bind.
      destruct (process_pdf0_calls env fp s) as (record & evs & E & Hfile & Hevs).
      rewrite E.
      destruct (IH (S i) {| fs := fs (snd (CleanerBase.process_pdf env fp s));
                            trace := trace s ++ evs |})
        as (records & evs' & fs' & E' & Hk & Hmap & Hfalse & Htrue & Hfirst & Hevs').
      rewrite E'. cbn [ret trace].
      exists (record :: records), (evs ++ evs'), fs'.
      split; [by rewrite <- app_assoc|].
      unfold batch_outcome. cbn [List.length take map].
      split; [cbn in Hk |- *; lia|]. split; [by rewrite Hfile, Hmap|].
      split; [|split; [|split]].
      * intros [|j] Hj; [by rewrite Nat.add_0_r|].
        replace (i + S j) with (S i + j) by lia. apply Hfalse. lia.
      * intros Hlt. replace (i + S (List.length records))
          with (S i + List.length records) by lia.
        apply Htrue. cbn in Hlt. lia.
      * intros [|j] Hj Hs; [rewrite Nat.add_0_r in Hs; congruence|].
        replace (i + S j) with (S i + j) in Hs by lia.
        cbn in Hj. assert (List.length records <= j) by (apply Hfirst; [lia|done]).
        lia.
      * apply Forall_app. split.
        -- eapply Forall_impl; [exact Hevs|]. intros c Hc. exists fp.
           split; [by left | done].
        -- eapply Forall_impl; [exact Hevs'|]. intros c (f & Hf & Hc).
           exists f. split; [by right | done].
Qed.

(** C9. In a batch run the flag [stop_requested] is read before each
    file; once it is read as set, no further file is opened or processed.
    The records written are those of the files attempted, in listing
    order: they cover the first [k] files, where the flag was read unset
    before each of these and, when [k] is less than the number of files,
    read set before file [k] (a proper prefix); every external call of
    the run is about one of these [k] files. *)
Theorem C9_cancellation env folder_path listing s :
  let files := CleanerBase.pdf_files folder_path listing in
  exists records evs fs',
    CleanerBase.process_files env folder_path listing s
    = (Ok records, {| fs := fs'; trace := trace s ++ evs |})
    /\ batch_outcome env 0 files records evs.
Proof.
  intros files. unfold CleanerBase.process_files. fold files.
  destruct (batch_loop_run env files 0 s) as (records & evs & fs' & E & H).
  exists records, evs, fs'. split; [|done].
  destruct files; [|done]. exact E.
Qed.

(** The scenario of the design: four files, Stop pressed while the second
    is in progress.  Two records come back and the third and fourth file
    are never opened. *)
Lemma C9_scenario :
  let listing := ["a.pdf"; "b.PDF"; "notes.txt"; "c.pdf"; "d.pdf"] in
  let s0 := {| fs := {[ "/in/a.pdf" := pdf five_pages; "/in/b.PDF" := pdf three_pages;
                        "/in/c.pdf" := pdf three_pages; "/in/d.pdf" := pdf five_pages ]};
               trace := [] |} in
  let run := CleanerBase.process_files (stop_during 2) "/in" listing s0 in
  fst run = Ok [CleanerBase.Modified "a.pdf" 5 2; CleanerBase.NoChanges "b.PDF" 3]
  /\ (COpen "/in/c.pdf" ∉ trace (snd run))
  /\ (COpen "/in/d.pdf" ∉ trace (snd run))
  /\ fs (snd run) !! "/in/c.pdf" = Some (pdf three_pages)
  /\ fs (snd run) !! "/in/d.pdf" = Some (pdf five_pages).
Proof.
  cbv zeta. repeat split; try (vm_compute; reflexivity);
    rewrite list_elem_of_In; vm_compute; intuition discriminate.
Qed.

(** * Further properties of the code *)

(** ** Where the backup goes *)

Lemma rstrip_sep_app_sep d : rstrip_sep (d +:+ "/") = rstrip_sep d.
Proof.
  induction d as [|c r IH]; [done|].
  rewrite append_cons. cbn [rstrip_sep]. by rewrite IH.
Qed.

Lemma rstrip_sep_id d : ends_with_sep d = false -> rstrip_sep d = d.
Proof.
  induction d as [|c r IH]; [done|]. destruct r as [|c' r'].
  - cbn. by intros ->.
  - intros H. specialize (IH H).
    change (match rstrip_sep (String c' r') with
            | EmptyString => if is_sep c then EmptyString else String c EmptyString
            | String a b => String c (String a b)
            end = String c (String c' r')).
    by rewrite IH.
Qed.

Lemma ends_with_sep_rstrip_sep h : ends_with_sep (rstrip_sep h) = false.
Proof.
  induction h as [|c r IH]; [done|]. cbn [rstrip_sep].
  destruct (rstrip_sep r) as [|x y] eqn:E.
  - destruct (is_sep c) eqn:Hc; [done|]. cbn. exact Hc.
  - exact IH.
Qed.

Lemma all_sep_ends_with_sep d :
  all_sep d = true -> d <> EmptyString -> ends_with_sep d = true.
Proof.
  induction d as [|c r IH]; [done|]. cbn [all_sep].
  intros [Hc Hr]%andb_true_iff _. destruct r as [|c' r']; [exact Hc|].
  apply IH; done.
Qed.

Lemma all_sep_app a b : all_sep (a +:+ b) = all_sep a && all_sep b.
Proof.
  induction a as [|c r IH]; [done|].
  rewrite append_cons. cbn [all_sep]. by rewrite IH, andb_assoc.
Qed.

(** A directory name either consists of separators or does not end in
    one. *)
Lemma dirname_shape p :
  all_sep (dirname p) = true \/ ends_with_sep (dirname p) = false.
Proof.
  unfold dirname. destruct (all_sep (fst (cut_last_sep p))) eqn:E.
  - by left.
  - right. apply ends_with_sep_rstrip_sep.
Qed.

Lemma dirname_join d b :
  (all_sep d = true \/ ends_with_sep d = false) ->
  no_sep b = true -> b <> EmptyString ->
  dirname (join d b) = d.
Proof.
  intros Hd Hb Hne. unfold dirname, join.
  destruct b as [|c r]; [done|]. cbn in Hb.
  apply andb_true_iff in Hb as [Hc Hr]. apply negb_true_iff in Hc. rewrite Hc.
  assert (Hcr : no_sep (String c r) = true) by (cbn; by rewrite Hc, Hr).
  destruct d as [|x d'].
  { by rewrite cut_last_sep_no_sep. }
  destruct (ends_with_sep (String x d')) eqn:He.
  - rewrite cut_last_sep_app, cut_last_sep_ends_with_sep by done. cbn [fst].
    destruct Hd as [Hd | Hd]; [by rewrite Hd | congruence].
  - rewrite <- string_app_assoc, cut_last_sep_app by done.
    rewrite cut_last_sep_ends_with_sep by apply ends_with_sep_app_sep.
    cbn [fst]. rewrite all_sep_app.
    destruct (all_sep (String x d')) eqn:Ha.
    + rewrite all_sep_ends_with_sep in He; done.
    + cbn [andb]. rewrite rstrip_sep_app_sep. by apply rstrip_sep_id.
Qed.

(** X1. The backup of [CleanerBase1] and [CleanerBase2] is a sibling of the
    original: it lies in the directory of the original, is named after it
    with [".backup"] appended, and is never the original itself. *)
Theorem backup_is_sibling fp :
  dirname (backup_path_of fp) = dirname fp
  /\ basename (backup_path_of fp) = basename fp +:+ ".backup"
  /\ backup_path_of fp <> fp.
Proof.
  split; [|split; [apply basename_backup | apply backup_path_fresh]].
  unfold backup_path_of. apply dirname_join.
  - apply dirname_shape.
  - by rewrite no_sep_app, no_sep_basename.
  - by destruct (basename fp).
Qed.

Lemma basename_temp_sibling fp : basename (fp +:+ ".temp") = basename fp +:+ ".temp".
Proof. unfold basename. by rewrite cut_last_sep_app. Qed.

(** The temporary file of [CleanerBase1] is not its backup. *)
Lemma temp_sibling_not_backup fp : fp +:+ ".temp" <> backup_path_of fp.
Proof.
  intros E. apply (f_equal basename) in E.
  rewrite basename_temp_sibling, basename_backup in E.
  apply (f_equal String.length) in E. rewrite !string_app_length in E.
  cbn in E. lia.
Qed.

(** ** The files after a run of [CleanerBase1] and [CleanerBase2] *)

Section AfterTemp.
Variable env : Env.

Lemma replace_original_no_temp write_temp fp bk total r w s e s1 :
  write_temp fp w s = (Raise e, s1) ->
  replace_original env write_temp fp bk total r w s = (Ok WriteFailed, s1).
Proof.
  intros E. unfold replace_original, bind, try_except. by rewrite E.
Qed.

(** Once the temporary file is written, the move decides between
    "Failed to replace" and success, and the removal of the backup
    decides nothing. *)
Lemma replace_original_after_temp write_temp fp bk tmp total r w s s1 dbk :
  write_temp fp w s = (Ok tmp, s1) ->
  tmp <> fp -> bk <> fp -> bk <> tmp ->
  fs s1 !! tmp = Some (written w) -> fs s1 !! bk = Some dbk ->
  let run := replace_original env write_temp fp bk total r w s in
  let n := List.length (trace s1) in
  (forall p, p <> fp -> p <> bk -> p <> tmp -> fs (snd run) !! p = fs s1 !! p)
  /\ (fault env n (CMove tmp fp) = RaiseBefore ->
      run = (Ok ReplaceFailed, logged s1 [CMove tmp fp]))
  /\ (fault env n (CMove tmp fp) = RaiseDuring ->
      run = (Ok ReplaceFailed,
             {| fs := <[fp := leftover env n]> (fs s1);
                trace := trace s1 ++ [CMove tmp fp] |}))
  /\ (fault env n (CMove tmp fp) = NoFault ->
      fst run = Ok (Success total r)
      /\ trace (snd run) = trace s1 ++ [CMove tmp fp; CRemove bk]
      /\ fs (snd run) !! fp = Some (written w)
      /\ fs (snd run) !! tmp = None
      /\ (fault env (S n) (CRemove bk) = NoFault -> fs (snd run) !! bk = None)
      /\ (fault env (S n) (CRemove bk) <> NoFault ->
          fs (snd run) !! bk = Some dbk)).
Proof.
  intros E Htmp Hbk Hbt Hw Hb run n. subst run n.
  unfold replace_original, bind, try_except. rewrite E. cbv beta iota zeta.
  rewrite shutil_move_eq, Hw.
  destruct (fault env (List.length (trace s1)) (CMove tmp fp)) eqn:Hmove.
  2:{ cbn. split; [done|]. split; [done|]. split; intros; congruence. }
  2:{ cbn. split; [intros p H1 H2 H3; by rewrite lookup_insert_ne|].
      split; [intros; congruence|]. split; [done|]. intros; congruence. }
  cbv beta iota zeta. rewrite os_remove_eq. cbn [fs trace].
  rewrite length_app. cbn [List.length].
  replace (List.length (trace s1) + 1) with (S (List.length (trace s1))) by lia.
  rewrite lookup_insert_ne, lookup_delete_ne, Hb by done.
  destruct (fault env (S (List.length (trace s1))) (CRemove bk)) eqn:Hrm;
    unfold ret; cbn [fst snd fs trace logged].
  - split; [|split; [done|split; [done|]]].
    + intros p H1 H2 H3.
      by rewrite lookup_delete_ne, lookup_insert_ne, lookup_delete_ne by done.
    + intros _. split; [done|]. split; [by rewrite <- app_assoc|].
      split; [by rewrite lookup_delete_ne, lookup_insert_eq by done|].
      split; [by rewrite lookup_delete_ne, lookup_insert_ne, lookup_delete_eq by done|].
      split; [intros _; by rewrite lookup_delete_eq | done].
  - split; [|split; [done|split; [done|]]].
    + intros p H1 H2 H3. by rewrite lookup_insert_ne, lookup_delete_ne by done.
    + intros _. split; [done|]. split; [by rewrite <- app_assoc|].
      split; [by rewrite lookup_insert_eq|].
      split; [by rewrite lookup_insert_ne, lookup_delete_eq by done|].
      split; [done|]. intros _.
      by rewrite lookup_insert_ne, lookup_delete_ne by done.
  - split; [|split; [done|split; [done|]]].
    + intros p H1 H2 H3. by rewrite lookup_insert_ne, lookup_delete_ne by done.
    + intros _. split; [done|]. split; [by rewrite <- app_assoc|].
      split; [by rewrite lookup_insert_eq|].
      split; [by rewrite lookup_insert_ne, lookup_delete_eq by done|].
      split; [done|]. intros _.
      by rewrite lookup_insert_ne, lookup_delete_ne by done.
Qed.

End AfterTemp.

Section FilesAfter.
Variable env : Env.

Lemma fs_opened_other fp d s p :
  p <> backup_path_of fp -> fs (opened fp d s) !! p = fs s !! p.
Proof. intros H. cbn. by rewrite lookup_insert_ne. Qed.

(** The ends of a rebuild through [tmp], with the files they leave:
    [s1] is the state before the temporary file is written. *)
Lemma rebuild_ends_intro write_temp fp tmp d w total r s1 s1' :
  let bk := backup_path_of fp in
  let run := replace_original env write_temp fp bk total r w s1 in
  write_temp fp w s1 = (Ok tmp, s1') ->
  tmp <> fp -> tmp <> bk ->
  fs s1 !! fp = Some d -> fs s1 !! bk = Some d ->
  fs s1' = <[tmp := written w]> (fs s1) ->
  (forall p, p <> fp -> p <> bk -> p <> tmp -> fs (snd run) !! p = fs s1 !! p)
  /\ ((fst run = Ok ReplaceFailed
       /\ move_failed env tmp fp s1 (snd run)
       /\ fs (snd run) !! bk = Some d
       /\ fs (snd run) !! tmp = Some (written w))
      \/ (fst run = Ok (Success total r)
          /\ fs (snd run) !! fp = Some (written w)
          /\ fs (snd run) !! tmp = None
          /\ exists pre,
               trace (snd run) = pre ++ [CRemove bk]
               /\ (fault env (List.length pre) (CRemove bk) = NoFault ->
                   fs (snd run) !! bk = None)
               /\ (fault env (List.length pre) (CRemove bk) <> NoFault ->
                   fs (snd run) !! bk = Some d))).
Proof.
  intros bk run E Htmp Htb Hfp Hbk Hfs.
  assert (Hbf : bk <> fp) by apply backup_path_fresh.
  assert (Hw : fs s1' !! tmp = Some (written w))
    by (rewrite Hfs; apply lookup_insert_eq).
  assert (Hb : fs s1' !! bk = Some d)
    by (rewrite Hfs, lookup_insert_ne by done; exact Hbk).
  destruct (replace_original_after_temp env write_temp fp bk tmp total r w s1 s1' d
              E Htmp Hbf (not_eq_sym Htb) Hw Hb) as (Hframe & Hbefore & Hduring & Hok).
  fold run in Hframe, Hbefore, Hduring, Hok. split.
  - intros p H1 H2 H3. rewrite Hframe, Hfs by done. by rewrite lookup_insert_ne.
  - destruct (fault env (List.length (trace s1')) (CMove tmp fp)) eqn:Hm.
    + right. destruct (Hok eq_refl) as (Hout & Htr & Hnew & Hgone & Hrm & Hkeep).
      split; [done|]. split; [done|]. split; [done|].
      exists (trace s1' ++ [CMove tmp fp]).
      rewrite length_app. cbn [List.length].
      replace (List.length (trace s1') + 1) with (S (List.length (trace s1'))) by lia.
      split; [by rewrite Htr, <- app_assoc|]. by split.
    + left. rewrite Hbefore by done. cbn [fst snd]. rewrite fs_logged, Hfs.
      split; [done|].
      split; [left; rewrite fs_logged, Hfs; by rewrite lookup_insert_ne|].
      rewrite !lookup_insert_ne by done.
      split; [done|]. apply lookup_insert_eq.
    + left. rewrite Hduring by done. cbn [fst snd fs].
      split; [done|].
      split; [right; eexists; split; [exact Hm | apply lookup_insert_eq]|].
      rewrite Hfs, !lookup_insert_ne by done.
      split; [done|]. apply lookup_insert_eq.
Qed.

End FilesAfter.

Section Shapes.
Variable env : Env.

(** Pages with text are among the pages given to the writer. *)
Lemma scan_pages_keeps_text globals path pp pages : forall i s w r s',
  scan_pages env globals path pp i pages s = (Ok (w, r), s') ->
  forall page, page ∈ pages -> with_text page = true -> page ∈ w.
Proof.
  induction pages as [|q rest IH]; intros i s w r s' E page Hin Htext.
  - by apply elem_of_nil in Hin.
  - cbn [scan_pages] in E. unfold bind in E.
    destruct (is_blank_page_run env globals q path i pp s)
      as (b & evs & Eb & _ & Hb).
    rewrite Eb in E.
    destruct (scan_pages_run env globals path pp rest (S i) (logged s evs))
      as (w' & r' & evs' & E' & _).
    rewrite E' in E. unfold ret in E. cbn [fst snd] in E.
    apply elem_of_cons in Hin as [-> | Hin].
    + destruct (Hb Htext) as [-> _]. injection E as <- _ _. by left.
    + assert (page ∈ w') by (eapply IH; [exact E' | done..]).
      destruct b; injection E as <- _ _; [done | by right].
Qed.

Lemma rebuild_end_from write_temp fp tmp d w total r s s1 :
  let bk := backup_path_of fp in
  fs s !! fp = Some d ->
  fs s1 = <[bk := d]> (fs s) ->
  tmp <> fp -> tmp <> bk ->
  (exists s1', write_temp fp w s1 = (Ok tmp, s1')
               /\ fs s1' = <[tmp := written w]> (fs s1))
  \/ (exists e s1', write_temp fp w s1 = (Raise e, s1')
                    /\ (fs s1' = fs s1 \/ exists x, fs s1' = <[tmp := x]> (fs s1))) ->
  rebuild_end env fp tmp d w total r s
    (replace_original env write_temp fp bk total r w s1).
Proof.
  intros bk Hd Hfs Htmp Htb Hwt.
  assert (Hbf : bk <> fp) by apply backup_path_fresh.
  assert (Hfp1 : fs s1 !! fp = Some d) by (by rewrite Hfs, lookup_insert_ne).
  assert (Hbk1 : fs s1 !! bk = Some d) by (by rewrite Hfs, lookup_insert_eq).
  assert (Hframe1 : forall p, p <> bk -> fs s1 !! p = fs s !! p)
    by (intros p Hp; by rewrite Hfs, lookup_insert_ne).
  unfold rebuild_end. fold bk.
  destruct Hwt as [(s1' & E & Hfs') | (e & s1' & E & Hfs')].
  - destruct (rebuild_ends_intro env write_temp fp tmp d w total r s1 s1'
                E Htmp Htb Hfp1 Hbk1 Hfs') as [Hframe Hends].
    fold bk in Hframe, Hends. split.
    + intros p H1 H2 H3. rewrite Hframe by done. by apply Hframe1.
    + right. destruct Hends as [(Hout & Hmv & Hrest) | Hends]; [left | by right].
      split; [done|]. split; [|done].
      eapply move_failed_from; [|exact Hmv]. by rewrite Hfp1.
  - rewrite (replace_original_no_temp env write_temp fp bk total r w s1 e s1' E).
    cbn [fst snd]. split.
    + intros p H1 H2 H3. destruct Hfs' as [-> | [x ->]];
        rewrite ?lookup_insert_ne by done; by apply Hframe1.
    + left. split; [done|].
      destruct Hfs' as [-> | [x ->]]; rewrite ?lookup_insert_ne by done; done.
Qed.

Lemma process_pdf_shape globals write_temp (temp_ok : string -> Prop) fp pp s :
  (forall d w total r s1,
      fs s !! fp = Some d ->
      fs s1 = <[backup_path_of fp := d]> (fs s) ->
      w <> [] ->
      let run := replace_original env write_temp fp (backup_path_of fp) total r w s1 in
      (fst run = Ok WriteFailed /\ fs (snd run) = <[backup_path_of fp := d]> (fs s))
      \/ exists tmp,
           temp_ok tmp /\ tmp <> fp /\ tmp <> backup_path_of fp
           /\ rebuild_end env fp tmp d w total r s run) ->
  run_shape env fp temp_ok s (process_pdf env globals write_temp fp pp s).
Proof.
  intros Hwt. unfold run_shape.
  destruct (process_pdf_run env globals write_temp fp pp s)
    as [E | (d & Hd & [E | [E | (ps & w & r & ocr & Hdoc & Hscan & _ & Hlen & Hsub & Hdec)]])];
    [by left | right; exists d; split; [done|]; by left
     | right; exists d; split; [done|]; right; by left |].
  right. exists d. split; [done|]. right; right. exists ps, w, r.
  split; [done|]. split; [done|]. split; [done|].
  split; [by eapply scan_pages_keeps_text|].
  destruct Hdec as [[-> E] | [Hne E]].
  - left. rewrite E. done.
  - right. split; [done|]. rewrite E. by apply Hwt.
Qed.

Lemma process_pdf1_shape fp pp s :
  run_shape env fp (fun tmp => tmp = fp +:+ ".temp") s
    (CleanerBase1.process_pdf env fp pp s).
Proof.
  apply process_pdf_shape. intros d w total r s1 Hd Hfs Hne run. right.
  exists (fp +:+ ".temp"). split; [done|].
  split; [apply temp_sibling_fresh|]. split; [apply temp_sibling_not_backup|].
  apply rebuild_end_from; try done;
    [apply temp_sibling_fresh | apply temp_sibling_not_backup |].
  unfold write_temp_sibling, bind, ret. rewrite write_document_eq.
  destruct (fault env _ _).
  - left. eexists. split; [reflexivity|]. done.
  - right. eexists _, _. split; [reflexivity|]. by left.
  - right. eexists _, _. split; [reflexivity|]. right. by eexists.
Qed.

Lemma process_pdf2_shape fp pp s :
  run_shape env fp (fun tmp => fs s !! tmp = None) s
    (CleanerBase2.process_pdf env fp pp s).
Proof.
  apply process_pdf_shape. intros d w total r s1 Hd Hfs Hne run.
  set (bk := backup_path_of fp) in *.
  set (tmp := temp_name env (List.length (trace s1))).
  destruct (write_temp_secure env fp w s1) as [res s1'] eqn:E.
  assert (E' := E). unfold write_temp_secure, bind, ret in E'.
  rewrite NamedTemporaryFile_eq in E'. cbv zeta in E'. fold tmp in E'.
  assert (Hmk : (res, s1') = (Raise (ExternalError CMkTemp), logged s1 [CMkTemp]) ->
                fst run = Ok WriteFailed /\ fs (snd run) = <[bk := d]> (fs s)).
  { intros H. injection H as -> ->. subst run.
    rewrite (replace_original_no_temp env _ fp bk total r w s1 _ _ E). done. }
  destruct (fault env _ CMkTemp); [destruct (fs s1 !! tmp) eqn:Hfresh |..];
    try (left; apply Hmk; congruence).
  right. exists tmp.
  rewrite Hfs in Hfresh. apply lookup_insert_None in Hfresh as [Hnone Hbt].
  assert (Htmp : tmp <> fp) by congruence.
  split; [done|]. split; [done|]. split; [done|].
  rewrite write_document_eq in E'. cbn [fs trace] in E'.
  apply rebuild_end_from; try done.
  destruct (fault env _ _); cbn in E'; injection E' as <- <-.
  - left. eexists. split; [exact E|]. cbn. apply insert_insert_eq.
  - right. eexists _, _. split; [exact E|]. right. cbn. by eexists.
  - right. eexists _, _. split; [exact E|]. right. cbn. eexists.
    apply insert_insert_eq.
Qed.

End Shapes.

Section ShapeConsequences.
Variable env : Env.

Lemma shape_stopped fp temp_ok s run :
  run_shape env fp temp_ok s run ->
  stopped_before_move (fst run) = true ->
  backup_intact fp s (snd run).
Proof.
  intros Hshape Hout.
  assert (Hbf : backup_path_of fp <> fp) by apply backup_path_fresh.
  assert (Hopen : forall d s', fs s !! fp = Some d ->
                    fs s' = <[backup_path_of fp := d]> (fs s) ->
                    backup_intact fp s s').
  { intros d s' Hd Hs'. exists d. rewrite Hs'. split; [done|].
    by rewrite lookup_insert_ne, lookup_insert_eq by done. }
  destruct Hshape as [[E _] | (d & Hd & [E | [(ps & _ & E) | (ps & w & r & _ & _ & _ & _ & Hdec)]])].
  - rewrite E in Hout. discriminate.
  - rewrite E. by apply (Hopen d).
  - rewrite E. by apply (Hopen d).
  - destruct Hdec as [(_ & E & Hfs) | (Hne & [[E Hfs] | (tmp & Hok & Htmp & Htb & _ & Hend)])].
    + by apply (Hopen d).
    + by apply (Hopen d).
    + destruct Hend as [(E & Hfp & Hbk) | [(E & _) | (E & _)]].
      * by exists d.
      * rewrite E in Hout. discriminate.
      * rewrite E in Hout. discriminate.
Qed.

Lemma shape_replace_failed fp temp_ok s run :
  run_shape env fp temp_ok s run ->
  fst run = Ok ReplaceFailed ->
  exists tmp, temp_ok tmp /\ tmp <> fp /\ replace_failed_at env fp tmp s (snd run).
Proof.
  intros Hshape Hout.
  destruct Hshape as [[E _] | (d & Hd & [E | [(ps & _ & E) | (ps & w & r & _ & _ & _ & _ & Hdec)]])];
    try (rewrite E in Hout; discriminate).
  destruct Hdec as [(_ & E & Hfs) | (Hne & [[E Hfs] | (tmp & Hok & Htmp & Htb & _ & Hend)])];
    try (rewrite E in Hout; discriminate).
  destruct Hend as [(E & _) | [(E & Hmv & Hbk & Ht) | (E & _)]];
    try (rewrite E in Hout; discriminate).
  exists tmp. split; [done|]. split; [done|]. by exists d, w.
Qed.

Lemma shape_success fp temp_ok s run total removed :
  run_shape env fp temp_ok s run ->
  fst run = Ok (Success total removed) ->
  trimmed fp total removed s (snd run)
  /\ (exists pre,
        trace (snd run) = pre ++ [CRemove (backup_path_of fp)]
        /\ (fault env (List.length pre) (CRemove (backup_path_of fp)) = NoFault ->
            fs (snd run) !! backup_path_of fp = None)
        /\ (fault env (List.length pre) (CRemove (backup_path_of fp)) <> NoFault ->
            fs (snd run) !! backup_path_of fp = fs s !! fp))
  /\ (forall p, fs s !! p = None -> p <> backup_path_of fp ->
                fs (snd run) !! p = None)
  /\ exists tmp, temp_ok tmp /\ fs (snd run) !! tmp = None.
Proof.
  intros Hshape Hout.
  destruct Hshape as [[E _] | (d & Hd & [E | [(ps & _ & E)
                     | (ps & w & r & Hdoc & Hlen & Hsub & Htext & Hdec)]])];
    try (rewrite E in Hout; discriminate).
  destruct Hdec as [(_ & E & _) | (Hne & [[E _] | (tmp & Htok & Htmp & Htb & Hframe & Hend)])];
    try (rewrite E in Hout; discriminate).
  destruct Hend as [(E & _) | [(E & _) | (E & Hfp & Hgone & pre & Htr & Hrm & Hkeep)]];
    try (rewrite E in Hout; discriminate).
  rewrite E in Hout. injection Hout as <- <-.
  split; [|split; [|split]].
  - exists d, ps, w. repeat (split; [done|]). done.
  - exists pre. split; [done|]. split; [done|]. by rewrite Hd.
  - intros p Hp Hpb. destruct (decide (p = tmp)) as [-> | Hpt]; [done|].
    assert (p <> fp) by congruence. by rewrite Hframe.
  - by exists tmp.
Qed.

Lemma shape_frame fp temp_ok s run p :
  run_shape env fp temp_ok s run ->
  p <> fp -> p <> backup_path_of fp ->
  (forall tmp, temp_ok tmp -> p <> tmp) ->
  fs (snd run) !! p = fs s !! p.
Proof.
  intros Hshape Hp Hpb Hpt.
  destruct Hshape as [[_ [_ Hfs]] | (d & Hd & [E | [(ps & _ & E)
                     | (ps & w & r & _ & _ & _ & _ & Hdec)]])].
  - destruct Hfs as [-> | (_ & _ & ->)]; [done|]. by rewrite lookup_insert_ne.
  - rewrite E. cbn. by rewrite lookup_insert_ne.
  - rewrite E. by apply fs_opened_other.
  - destruct Hdec as [(_ & _ & ->) | (_ & [[_ ->] | (tmp & Htok & _ & _ & Hframe & _)])];
      rewrite ?lookup_insert_ne by done; try done.
    apply Hframe; try done. by apply Hpt.
Qed.

End ShapeConsequences.

(** X2. After a run of [CleanerBase1] or [CleanerBase2] that stops after
    the backup and before the move ("Failed to read PDF", "All pages are
    blank", "Failed to write modified PDF", or an exception that leaves
    [process_pdf]), the original is as it was and the backup, which is
    not removed, holds the same content.  After "Failed to replace the
    original PDF" the backup holds the content the original had and the
    rebuilt document is still in the temporary file; the original is as
    it was, unless the move raised midway, and then it holds what the
    move left. *)
Theorem failed_run_keeps_backup :
  (forall env fp pp s,
      let run := CleanerBase1.process_pdf env fp pp s in
      (stopped_before_move (fst run) = true -> backup_intact fp s (snd run))
      /\ (fst run = Ok ReplaceFailed ->
          replace_failed_at env fp (fp +:+ ".temp") s (snd run)))
  /\ (forall env fp pp s,
        let run := CleanerBase2.process_pdf env fp pp s in
        (stopped_before_move (fst run) = true -> backup_intact fp s (snd run))
        /\ (fst run = Ok ReplaceFailed ->
            exists tmp, fs s !! tmp = None /\ tmp <> fp
                        /\ replace_failed_at env fp tmp s (snd run))).
Proof.
  split; intros env fp pp s run; subst run.
  - split; [apply (shape_stopped env fp _ s _ (process_pdf1_shape env fp pp s))|].
    intros Hout.
    destruct (shape_replace_failed env fp _ s _ (process_pdf1_shape env fp pp s) Hout)
      as (tmp & -> & _ & H). exact H.
  - split; [apply (shape_stopped env fp _ s _ (process_pdf2_shape env fp pp s))|].
    intros Hout.
    destruct (shape_replace_failed env fp _ s _ (process_pdf2_shape env fp pp s) Hout)
      as (tmp & Hnone & Hne & H). by exists tmp.
Qed.

Lemma failed_run_keeps_backup_witness :
  let s0 := disk "/docs/a.pdf" (pdf five_pages) in
  let s1 := disk "/docs/a.pdf" (pdf [empty_page]) in
  replace_failed_at move_breaks "/docs/a.pdf" "/docs/a.pdf.temp" s0
    (snd (CleanerBase1.process_pdf move_breaks "/docs/a.pdf" None s0))
  /\ backup_intact "/docs/a.pdf" s1
       (snd (CleanerBase2.process_pdf quiet "/docs/a.pdf" None s1)).
Proof.
  intros s0 s1. split.
  - apply (proj2 (proj1 failed_run_keeps_backup move_breaks "/docs/a.pdf" None s0)).
    vm_compute. reflexivity.
  - apply (proj1 (proj2 failed_run_keeps_backup quiet "/docs/a.pdf" None s1)).
    vm_compute. reflexivity.
Defined.

(** X3. When [CleanerBase1] or [CleanerBase2] reports success with [total]
    pages and [removed] removed ones, the original holds the writer's
    output for [total - removed] pages of the document, at least one, in
    their original order, and every page with a text layer is among
    them. *)
Theorem success_trims :
  (forall env fp pp s total removed,
      fst (CleanerBase1.process_pdf env fp pp s) = Ok (Success total removed) ->
      trimmed fp total removed s (snd (CleanerBase1.process_pdf env fp pp s)))
  /\ (forall env fp pp s total removed,
        fst (CleanerBase2.process_pdf env fp pp s) = Ok (Success total removed) ->
        trimmed fp total removed s (snd (CleanerBase2.process_pdf env fp pp s))).
Proof.
  split; intros env fp pp s total removed Hout.
  - by destruct (shape_success env fp _ s _ total removed
                   (process_pdf1_shape env fp pp s) Hout) as [H _].
  - by destruct (shape_success env fp _ s _ total removed
                   (process_pdf2_shape env fp pp s) Hout) as [H _].
Qed.

Lemma success_trims_witness :
  let s0 := disk "/docs/a.pdf" (pdf five_pages) in
  trimmed "/docs/a.pdf" 5 2 s0 (snd (CleanerBase1.process_pdf quiet "/docs/a.pdf" None s0))
  /\ trimmed "/docs/a.pdf" 5 2 s0
       (snd (CleanerBase2.process_pdf quiet "/docs/a.pdf" None s0)).
Proof.
  intros s0. split.
  - apply (proj1 success_trims quiet "/docs/a.pdf" None s0 5 2).
    vm_compute. reflexivity.
  - apply (proj2 success_trims quiet "/docs/a.pdf" None s0 5 2).
    vm_compute. reflexivity.
Defined.

(** X4. A successful run of [CleanerBase1] or [CleanerBase2] ends with the
    attempt to remove the backup; success is reported whether or not that
    call raises, and the backup is gone exactly when it did not.  No other
    new file is left: the temporary file has been moved away. *)
Theorem success_cleans_up :
  (forall env fp pp s total removed,
      fst (CleanerBase1.process_pdf env fp pp s) = Ok (Success total removed) ->
      cleaned_up env fp s (snd (CleanerBase1.process_pdf env fp pp s))
      /\ fs (snd (CleanerBase1.process_pdf env fp pp s)) !! (fp +:+ ".temp") = None)
  /\ (forall env fp pp s total removed,
        fst (CleanerBase2.process_pdf env fp pp s) = Ok (Success total removed) ->
        cleaned_up env fp s (snd (CleanerBase2.process_pdf env fp pp s))).
Proof.
  split; intros env fp pp s total removed Hout.
  - destruct (shape_success env fp _ s _ total removed
                (process_pdf1_shape env fp pp s) Hout)
      as (_ & Hrm & Hnew & tmp & -> & Hgone).
    split; [|done]. by split.
  - destruct (shape_success env fp _ s _ total removed
                (process_pdf2_shape env fp pp s) Hout)
      as (_ & Hrm & Hnew & _).
    by split.
Qed.

Lemma success_cleans_up_witness :
  let s0 := disk "/docs/a.pdf" (pdf five_pages) in
  cleaned_up remove_down "/docs/a.pdf" s0
    (snd (CleanerBase1.process_pdf remove_down "/docs/a.pdf" None s0))
  /\ cleaned_up quiet "/docs/a.pdf" s0
       (snd (CleanerBase2.process_pdf quiet "/docs/a.pdf" None s0)).
Proof.
  intros s0. split.
  - apply (proj1 success_cleans_up remove_down "/docs/a.pdf" None s0 5 2).
    vm_compute. reflexivity.
  - apply (proj2 success_cleans_up quiet "/docs/a.pdf" None s0 5 2).
    vm_compute. reflexivity.
Defined.

(** X5. [process_pdf] changes nothing but the original, its backup and its
    temporary file.  In [CleanerBase1] every other path is as before; in
    [CleanerBase2], whose temporary file is new, every other file that
    existed is as before. *)
Theorem other_files_untouched :
  (forall env fp pp s p,
      p <> fp -> p <> backup_path_of fp -> p <> fp +:+ ".temp" ->
      fs (snd (CleanerBase1.process_pdf env fp pp s)) !! p = fs s !! p)
  /\ (forall env fp pp s p x,
        p <> fp -> p <> backup_path_of fp -> fs s !! p = Some x ->
        fs (snd (CleanerBase2.process_pdf env fp pp s)) !! p = Some x).
Proof.
  split.
  - intros env fp pp s p Hp Hb Ht.
    apply (shape_frame env fp _ s _ p (process_pdf1_shape env fp pp s)); try done.
    by intros tmp ->.
  - intros env fp pp s p x Hp Hb Hx. rewrite <- Hx.
    apply (shape_frame env fp _ s _ p (process_pdf2_shape env fp pp s)); try done.
    intros tmp Hnone ->. congruence.
Qed.

Lemma other_files_untouched_witness :
  let s0 := {| fs := {[ "/docs/a.pdf" := pdf five_pages; "/docs/b.pdf" := garbage ]};
               trace := [] |} in
  fs (snd (CleanerBase1.process_pdf quiet "/docs/a.pdf" None s0)) !! "/docs/b.pdf"
  = fs s0 !! "/docs/b.pdf"
  /\ fs (snd (CleanerBase2.process_pdf quiet "/docs/a.pdf" None s0)) !! "/docs/b.pdf"
     = Some garbage.
Proof.
  intros s0. split.
  - apply (proj1 other_files_untouched quiet "/docs/a.pdf" None s0 "/docs/b.pdf");
      vm_compute; discriminate.
  - apply (proj2 other_files_untouched quiet "/docs/a.pdf" None s0 "/docs/b.pdf");
      vm_compute; discriminate || reflexivity.
Defined.

(** X6. A file that does not exist makes [CleanerBase1] and [CleanerBase2]
    report "Failed to create backup copy" after one call, with nothing
    created.  Whenever that is reported, the copy was the only call, and
    no file has changed except that a copy that raised midway has left a
    file at the backup path. *)
Theorem missing_file_backup_failed :
  (forall env fp pp s,
      fs s !! fp = None ->
      CleanerBase1.process_pdf env fp pp s
      = (Ok BackupFailed, logged s [CCopy fp (backup_path_of fp)])
      /\ CleanerBase2.process_pdf env fp pp s
         = (Ok BackupFailed, logged s [CCopy fp (backup_path_of fp)]))
  /\ (forall env fp pp s,
        (fst (CleanerBase1.process_pdf env fp pp s) = Ok BackupFailed ->
         copy_failed env fp (backup_path_of fp) s
           (snd (CleanerBase1.process_pdf env fp pp s)))
        /\ (fst (CleanerBase2.process_pdf env fp pp s) = Ok BackupFailed ->
            copy_failed env fp (backup_path_of fp) s
              (snd (CleanerBase2.process_pdf env fp pp s)))).
Proof.
  assert (Hmiss : forall env globals write_temp fp pp s,
            fs s !! fp = None ->
            process_pdf env globals write_temp fp pp s
            = (Ok BackupFailed, logged s [CCopy fp (backup_path_of fp)])).
  { intros env globals write_temp fp pp s H.
    unfold process_pdf, bind, try_except. rewrite shutil_copy_eq, H.
    by destruct (fault env _ _). }
  assert (Hback : forall env fp temp_ok s run,
            run_shape env fp temp_ok s run -> fst run = Ok BackupFailed ->
            copy_failed env fp (backup_path_of fp) s (snd run)).
  { intros env fp temp_ok s run Hshape Hout.
    destruct Hshape as [[_ H] | (d & Hd & [E | [(ps & _ & E)
                       | (ps & w & r & _ & _ & _ & _ & Hdec)]])];
      [done | rewrite E in Hout; discriminate | rewrite E in Hout; discriminate |].
    destruct Hdec as [(_ & E & _) | (_ & [[E _] | (tmp & _ & _ & _ & _ & Hend)])];
      try (rewrite E in Hout; discriminate).
    destruct Hend as [(E & _) | [(E & _) | (E & _)]]; rewrite E in Hout; discriminate. }
  split.
  - intros env fp pp s H. split; by apply Hmiss.
  - intros env fp pp s. split; intros Hout.
    + by apply (Hback env fp _ s _ (process_pdf1_shape env fp pp s)).
    + by apply (Hback env fp _ s _ (process_pdf2_shape env fp pp s)).
Qed.

Lemma missing_file_backup_failed_witness :
  let s0 := disk "/docs/a.pdf" (pdf five_pages) in
  CleanerBase1.process_pdf quiet "/docs/nothing.pdf" None s0
  = (Ok BackupFailed, logged s0 [CCopy "/docs/nothing.pdf" "/docs/nothing.pdf.backup"]).
Proof.
  intros s0.
  apply (proj1 missing_file_backup_failed quiet "/docs/nothing.pdf" None s0).
  vm_compute. reflexivity.
Defined.

(** ** What [CleanerBase2] keeps *)

Section UnboundThreshold.
Variable env : Env.

Lemma is_blank_page2_verdict page path n pp s :
  fst (is_blank_page env CleanerBase2.globals page path n pp s)
  = Ok (negb (with_text page)).
Proof.
  unfold with_text. destruct (has_text (text_layer page)) eqn:Htext.
  - by rewrite is_blank_page_text.
  - rewrite is_blank_page_no_text by done. cbn [fst negb].
    pose proof (ocr_stage_unbound env CleanerBase2.globals path n pp s
                  (lookup_empty _)) as H.
    by destruct (fst (ocr_stage env CleanerBase2.globals path n pp s)) as [[]|].
Qed.

Lemma scan_pages2_filter path pp pages : forall i s w r s',
  scan_pages env CleanerBase2.globals path pp i pages s = (Ok (w, r), s') ->
  w = List.filter with_text pages.
Proof.
  induction pages as [|q rest IH]; intros i s w r s' E.
  - cbn in E. by injection E as <- _ _.
  - cbn [scan_pages List.filter] in E |- *. unfold bind in E.
    pose proof (is_blank_page2_verdict q path i pp s) as Hv.
    destruct (is_blank_page env CleanerBase2.globals q path i pp s) as [[b|e] s1];
      cbn [fst] in Hv; [injection Hv as ->|discriminate].
    destruct (scan_pages env CleanerBase2.globals path pp (S i) rest s1)
      as [[[w' r']|e] s2] eqn:E'; [|discriminate].
    apply IH in E'. unfold ret in E. cbn [fst snd] in E.
    destruct (with_text q); cbn [negb] in E; injection E as <- _ _; by rewrite E'.
Qed.

End UnboundThreshold.

(** X7. [CleanerBase2] keeps exactly the pages that have a text layer,
    whatever the rasterizer and tesseract do: on success the original
    holds the writer's output for these pages, "All pages are blank" means
    that no page has a text layer, and a document without any text layer
    (a scan) is never rebuilt. *)
Theorem cleanerbase2_keeps_text_pages env fp pp s d ps :
  fs s !! fp = Some d -> document d = Some ps ->
  let run := CleanerBase2.process_pdf env fp pp s in
  (forall total removed,
      fst run = Ok (Success total removed) ->
      fs (snd run) !! fp = Some (written (List.filter with_text ps))
      /\ removed = List.length ps - List.length (List.filter with_text ps))
  /\ (fst run = Ok AllPagesBlank -> List.filter with_text ps = [])
  /\ (List.filter with_text ps = [] -> rebuild_proceeds (fst run) = false).
Proof.
  intros Hd Hdoc run. subst run. unfold CleanerBase2.process_pdf.
  destruct (process_pdf_run env CleanerBase2.globals (write_temp_secure env) fp pp s)
    as [[E _] | (d' & Hd' & [E | [(ps' & _ & E)
               | (ps' & w & r & ocr & Hdoc' & Hscan & _ & Hlen & _ & Hdec)]])].
  - rewrite E. cbn. repeat split; discriminate || done.
  - rewrite E. cbn. repeat split; discriminate || done.
  - rewrite E. cbn. repeat split; discriminate || done.
  - rewrite Hd in Hd'. injection Hd' as <-.
    rewrite Hdoc in Hdoc'. injection Hdoc' as <-.
    apply scan_pages2_filter in Hscan. subst w.
    destruct Hdec as [[Hnil E] | [Hne E]]; rewrite E.
    + cbn [fst snd]. repeat split; discriminate || done.
    + assert (Hsome : is_Some (fs (logged (opened fp d s) ocr) !! fp)).
      { rewrite fs_logged, (fs_opened_original fp d s Hd). by eexists. }
      pose proof (replace_original_outcome env (write_temp_secure env) fp
                    (backup_path_of fp) (List.length ps) r
                    (List.filter with_text ps) (logged (opened fp d s) ocr)) as Hout.
      cbv zeta in Hout.
      destruct (replace_original_secure env fp (backup_path_of fp)
                  (List.length ps) r (List.filter with_text ps)
                  (logged (opened fp d s) ocr) (backup_path_fresh fp) Hsome)
        as [E' | (_ & _ & tail & _ & _ & _ & _ & Hok)].
      * rewrite E'. cbn. repeat split; discriminate || done.
      * split; [|split; [|done]].
        -- intros total removed Hs. rewrite Hs in Hok.
           destruct (Hok eq_refl) as [Heq Hfp]. injection Heq as -> ->.
           split; [done | lia].
        -- destruct Hout as [H | [H | H]]; rewrite H; discriminate.
Qed.

Lemma cleanerbase2_keeps_text_pages_witness :
  let s0 := disk "/docs/a.pdf" (pdf [scanned_page; page_of "text" "text"]) in
  fs (snd (CleanerBase2.process_pdf quiet "/docs/a.pdf" None s0)) !! "/docs/a.pdf"
  = Some (written [page_of "text" "text"]).
Proof.
  intros s0.
  destruct (cleanerbase2_keeps_text_pages quiet "/docs/a.pdf" None s0
              (pdf [scanned_page; page_of "text" "text"])
              [scanned_page; page_of "text" "text"]) as (H & _).
  - vm_compute. reflexivity.
  - reflexivity.
  - destruct (H 2 1) as [Hfp _]; [vm_compute; reflexivity|]. exact Hfp.
Defined.

(** ** When nothing raises: [CleanerBase1] *)

Section Faultless1.
Variable env : Env.
Hypothesis Hq : faultless env.

Lemma is_blank_page1_quiet page path n pp s ps :
  fs s !! path ≫= document = Some ps ->
  ps !! (n - 1) = Some page ->
  exists evs,
    is_blank_page env CleanerBase1.globals page path n pp s
    = (Ok (blank_on_paper page), logged s evs).
Proof.
  intros Hps Hn. unfold blank_on_paper.
  destruct (has_text (text_layer page)) eqn:Htext.
  - exists []. rewrite is_blank_page_text, logged_nil by done. done.
  - rewrite is_blank_page_no_text by done. cbn [negb andb].
    unfold ocr_stage, bind. rewrite convert_from_path_eq, Hq, Hps, Hn.
    destruct (rendering page) as [|img rest]; [by eexists|].
    rewrite image_to_string_eq, Hq.
    destruct (ocr_reading img) as [|c t] eqn:Ht.
    + cbn. rewrite logged_app. by eexists.
    + unfold load_global.
      replace (CleanerBase1.globals !! "OCR_TEXT_LENGTH_THRESHOLD") with (Some 5)
        by (symmetry; apply lookup_singleton_eq).
      cbn [ret fst snd]. rewrite logged_app.
      set (k := len (strip (c :: t))). eexists.
      destruct (Nat.leb_spec 5 k), (Nat.ltb_spec k 5);
        solve [reflexivity | lia].
Qed.

(** The loop classifies each page by its own bitmap: page [i] of the
    document is rasterized as page [i + 1] of the file. *)
Lemma scan_pages1_quiet path pp rest : forall pre i s,
  fs s !! path ≫= document = Some (pre ++ rest) ->
  i = S (List.length pre) ->
  exists evs,
    scan_pages env CleanerBase1.globals path pp i rest s
    = (Ok (List.filter keeps rest, List.length (List.filter blank_on_paper rest)),
       logged s evs).
Proof.
  induction rest as [|page rest IH]; intros pre i s Hps ->.
  - exists []. cbn. by rewrite logged_nil.
  - cbn [scan_pages List.filter]. unfold bind.
    destruct (is_blank_page1_quiet page path (S (List.length pre)) pp s
                (pre ++ page :: rest) Hps) as [evs E].
    { cbn. rewrite Nat.sub_0_r. by rewrite list_lookup_middle. }
    rewrite E.
    destruct (IH (pre ++ [page]) (S (S (List.length pre))) (logged s evs))
      as [evs' E'].
    { rewrite fs_logged. by rewrite <- app_assoc. }
    { rewrite length_app. cbn. lia. }
    rewrite E', logged_app. unfold ret, keeps. cbn [fst snd].
    exists (evs ++ evs'). by destruct (blank_on_paper page).
Qed.

End Faultless1.

Lemma process_pdf1_quiet env fp pp s d ps :
  faultless env ->
  fs s !! fp = Some d -> document d = Some ps ->
  let run := CleanerBase1.process_pdf env fp pp s in
  (List.filter keeps ps = [] -> fst run = Ok AllPagesBlank)
  /\ (List.filter keeps ps <> [] ->
      fst run = Ok (Success (List.length ps)
                            (List.length (List.filter blank_on_paper ps)))
      /\ fs (snd run) !! fp = Some (written (List.filter keeps ps))
      /\ fs (snd run) !! backup_path_of fp = None
      /\ fs (snd run) !! (fp +:+ ".temp") = None).
Proof.
  intros Hq Hd Hdoc run. subst run.
  unfold CleanerBase1.process_pdf.
  set (bk := backup_path_of fp).
  assert (Hbf : bk <> fp) by apply backup_path_fresh.
  rewrite (process_pdf_listed env _ _ fp pp s d ps) by (done || apply Hq).
  rewrite Hq. cbv zeta. fold bk.
  set (s1 := opened fp d s).
  destruct (scan_pages1_quiet env Hq fp pp ps [] 1 s1) as [ocr E].
  { subst s1. rewrite (fs_opened_original fp d s Hd). cbn. by rewrite Hdoc. }
  { done. }
  rewrite E. cbn [fst snd].
  destruct (List.filter keeps ps) as [|k0 kept] eqn:Hkeep.
  { cbn. split; [done|]. by intros H. }
  split; [discriminate|]. intros _.
  set (w := k0 :: kept). set (s2 := logged s1 ocr).
  set (tmp := fp +:+ ".temp").
  set (s3 := {| fs := <[tmp := written w]> (fs s2);
                trace := trace s2 ++ [CWrite tmp w] |}).
  assert (Ewt : write_temp_sibling env fp w s2 = (Ok tmp, s3)).
  { unfold write_temp_sibling, bind, ret. rewrite write_document_eq, Hq. done. }
  assert (Hfs2 : fs s2 = <[bk := d]> (fs s)) by done.
  assert (Htf : tmp <> fp) by apply temp_sibling_fresh.
  assert (Htb : tmp <> bk) by apply temp_sibling_not_backup.
  destruct (replace_original_after_temp env (write_temp_sibling env) fp bk tmp
              (List.length ps) (List.length (List.filter blank_on_paper ps))
              w s2 s3 d Ewt Htf Hbf (not_eq_sym Htb))
    as (_ & _ & _ & Hok).
  { cbn. apply lookup_insert_eq. }
  { subst s3. cbn [fs]. rewrite lookup_insert_ne by done.
    rewrite Hfs2. apply lookup_insert_eq. }
  destruct (Hok (Hq _ _)) as (Hout & _ & Hfp & Hgone & Hrm & _).
  split; [exact Hout|]. split; [exact Hfp|]. split; [|exact Hgone].
  apply Hrm, Hq.
Qed.

(** X8. When no external call raises, [CleanerBase1] removes exactly the pages
    that are blank on paper (no text layer, and no bitmap or fewer than 5
    characters read by OCR on the first one).  If some page remains, it
    reports the number of pages and of removed pages, the original holds
    the remaining pages in their order, and neither the backup nor the
    temporary file is left; if none remains, it reports that all pages
    are blank. *)
Theorem cleanerbase1_when_nothing_raises env fp pp s d ps :
  faultless env ->
  fs s !! fp = Some d -> document d = Some ps ->
  let run := CleanerBase1.process_pdf env fp pp s in
  (List.filter keeps ps = [] -> fst run = Ok AllPagesBlank)
  /\ (List.filter keeps ps <> [] ->
      fst run = Ok (Success (List.length ps)
                            (List.length (List.filter blank_on_paper ps)))
      /\ fs (snd run) !! fp = Some (written (List.filter keeps ps))
      /\ fs (snd run) !! backup_path_of fp = None
      /\ fs (snd run) !! (fp +:+ ".temp") = None).
Proof. apply process_pdf1_quiet. Qed.

Lemma cleanerbase1_when_nothing_raises_witness :
  let s0 := disk "/docs/a.pdf" (pdf five_pages) in
  fst (CleanerBase1.process_pdf quiet "/docs/a.pdf" None s0) = Ok (Success 5 2)
  /\ fs (snd (CleanerBase1.process_pdf quiet "/docs/a.pdf" None s0)) !! "/docs/a.pdf"
     = Some (written [page_of "one" "one"; page_of "three" "three";
                      page_of "five" "five"]).
Proof.
  intros s0.
  destruct (cleanerbase1_when_nothing_raises quiet "/docs/a.pdf" None s0
              (pdf five_pages) five_pages) as [_ H].
  - intros n c. reflexivity.
  - vm_compute. reflexivity.
  - reflexivity.
  - destruct H as (Hout & Hfp & _); [vm_compute; discriminate|].
    split; [exact Hout | exact Hfp].
Defined.

(** ** The files after a run of [CleanerBase] *)

Lemma filter_sublist {A} (f : A -> bool) (l : list A) : sublist (List.filter f l) l.
Proof.
  induction l as [|x l IH]; [constructor|]. cbn.
  destruct (f x); [by apply sublist_skip | by apply sublist_cons].
Qed.

Lemma mem_elem n l : CleanerBase.mem n l = true <-> n ∈ l.
Proof.
  unfold CleanerBase.mem. rewrite existsb_exists. split.
  - intros (x & Hx%list_elem_of_In & ->%Nat.eqb_eq). done.
  - intros H. exists n. split; [by apply list_elem_of_In | apply Nat.eqb_refl].
Qed.

Lemma mem_not_elem n l : n ∉ l -> CleanerBase.mem n l = false.
Proof.
  intros H. destruct (CleanerBase.mem n l) eqn:E; [|done].
  by apply mem_elem in E.
Qed.

Lemma insert_kept_ext doc nums d1 d2 :
  (forall n, n ∈ nums -> CleanerBase.mem n d1 = CleanerBase.mem n d2) ->
  CleanerBase.insert_kept doc nums d1 = CleanerBase.insert_kept doc nums d2.
Proof.
  induction nums as [|n nums IH]; intros H; [done|].
  cbn [CleanerBase.insert_kept].
  rewrite (H n) by (by left). rewrite IH by (intros m Hm; apply H; by right).
  done.
Qed.

(** Every index given to [new_doc.insert_pdf] adds one page, and the
    others are the removed ones. *)
Lemma insert_kept_count doc : forall nums dropped,
  NoDup nums -> sublist dropped nums ->
  Forall (fun n => n < List.length (CleanerBase.pages doc)) nums ->
  List.length (CleanerBase.insert_kept doc nums dropped) + List.length dropped
  = List.length nums.
Proof.
  induction nums as [|n nums IH]; intros dropped Hnd Hsub Hin.
  - apply sublist_nil_r in Hsub as ->. done.
  - apply NoDup_cons in Hnd as [Hn Hnd]. apply Forall_cons in Hin as [Hlt Hin].
    cbn [CleanerBase.insert_kept].
    apply sublist_cons_r in Hsub as [Hsub | (d' & -> & Hsub)].
    + rewrite mem_not_elem by (intros H; apply Hn; by eapply elem_of_sublist).
      destruct (lookup_lt_is_Some_2 _ _ Hlt) as [p ->]. cbn.
      by rewrite IH.
    + assert (Hm : CleanerBase.mem n (n :: d') = true) by (apply mem_elem; by left).
      rewrite Hm.
      rewrite (insert_kept_ext doc nums (n :: d') d').
      * cbn. rewrite <- (IH d') by done. lia.
      * intros m Hmn. unfold CleanerBase.mem. cbn.
        destruct (Nat.eqb_spec m n) as [->|]; [by exfalso; apply Hn | done].
Qed.

Lemma insert_kept_sublist doc dropped : forall k i,
  sublist (CleanerBase.insert_kept doc (seq i k) dropped)
          (drop i (CleanerBase.pages doc)).
Proof.
  induction k as [|k IH]; intros i; [apply sublist_nil_l|].
  cbn [seq CleanerBase.insert_kept].
  destruct (CleanerBase.pages doc !! i) as [p|] eqn:Hp.
  - rewrite (drop_S _ _ _ Hp).
    destruct (CleanerBase.mem i dropped);
      [apply sublist_cons | apply sublist_skip]; apply IH.
  - assert (E : CleanerBase.insert_kept doc (seq (S i) k) dropped = []).
    { apply sublist_nil_r. rewrite <- (drop_ge (CleanerBase.pages doc) (S i)).
      - apply IH.
      - apply lookup_ge_None in Hp. lia. }
    rewrite E. destruct (CleanerBase.mem i dropped); apply sublist_nil_l.
Qed.

Section InPlaceFiles.
Variable env : Env.

Lemma save_in_place_files fp doc dropped s :
  let run := CleanerBase.save_in_place env fp doc dropped s in
  let bak := fp +:+ ".bak" in
  (forall p, p <> fp -> p <> bak -> fs (snd run) !! p = fs s !! p)
  /\ (forall e d, fst run = Raise e -> fs s !! fp = Some d ->
      failed_in_place env fp d s (snd run)).
Proof.
  intros run bak. subst run.
  pose proof (bak_fresh fp) as Hbak. fold bak in Hbak.
  unfold CleanerBase.save_in_place, bind. fold bak.
  rewrite shutil_copy_eq.
  destruct (fault env _ (CCopy _ _)) eqn:Hcopy;
    [destruct (fs s !! fp) as [d|] eqn:Hd | | destruct (fs s !! fp) as [d|] eqn:Hd];
    try (split; [done | intros; by left]).
  2:{ cbn [fst snd fs]. split; [intros p H1 H2; by rewrite lookup_insert_ne|].
      intros e d' _ _. right; left. by eexists. }
  rewrite save_eq.
  destruct (CleanerBase.insert_kept doc _ dropped) as [|p0 kept] eqn:Hnew.
  { cbn [fst snd fs logged].
    split; [intros p H1 H2; by rewrite lookup_insert_ne|].
    intros e d' _ [= <-]. right; right. cbn [fs logged]. rewrite lookup_insert_eq.
    split; [done|]. left. by rewrite lookup_insert_ne. }
  rewrite write_document_eq. cbn [trace fs].
  destruct (fault env _ (CWrite _ _)) eqn:Hwrite.
  - rewrite os_remove_eq. cbn [trace fs].
    rewrite lookup_insert_ne, lookup_insert_eq by done.
    destruct (fault env _ (CRemove _)) eqn:Hremove; cbn [fst snd fs logged ret].
    + split; [|done]. intros p H1 H2.
      by rewrite lookup_delete_ne, !lookup_insert_ne by done.
    + split; [intros p H1 H2; by rewrite !lookup_insert_ne by done|].
      intros e d' _ [= <-]. right; right. cbn [fs logged].
      rewrite lookup_insert_ne, lookup_insert_eq by done. split; [done|].
      right; right. eexists. by rewrite lookup_insert_eq.
    + split; [intros p H1 H2; by rewrite !lookup_insert_ne by done|].
      intros e d' _ [= <-]. right; right. cbn [fs logged].
      rewrite lookup_insert_ne, lookup_insert_eq by done. split; [done|].
      right; right. eexists. by rewrite lookup_insert_eq.
  - cbn [fst snd fs logged ret].
    split; [intros p H1 H2; by rewrite !lookup_insert_ne by done|].
    intros e d' _ [= <-]. right; right. cbn [fs logged].
    rewrite lookup_insert_eq. split; [done|]. left.
    by rewrite lookup_insert_ne.
  - cbn [fst snd fs logged ret].
    split; [intros p H1 H2; by rewrite !lookup_insert_ne by done|].
    intros e d' _ [= <-]. right; right. cbn [fs logged].
    rewrite lookup_insert_ne, lookup_insert_eq by done. split; [done|].
    right; left. by rewrite lookup_insert_eq.
Qed.

End InPlaceFiles.

Section InPlaceRuns.
Variable env : Env.

Lemma process_pdf0_frame fp s p :
  p <> fp -> p <> fp +:+ ".bak" ->
  fs (snd (CleanerBase.process_pdf env fp s)) !! p = fs s !! p.
Proof.
  intros H1 H2.
  destruct (process_pdf0_run env fp s)
    as [[_ E] | (ps & dropped & evs & _ & _ & _ & _ & _ & [[_ E] | [_ E]])];
    rewrite E; try done.
  pose proof (save_in_place_files env fp
                {| CleanerBase.name := fp; CleanerBase.pages := ps |} dropped
                (logged s (COpen fp :: evs))) as [Hframe _].
  destruct (CleanerBase.save_in_place env fp _ dropped _) as [r s'].
  cbn [snd] in *. by rewrite Hframe.
Qed.

End InPlaceRuns.

(** X9. [CleanerBase.process_pdf] touches two paths only, whatever happens:
    the file it is given and that file's [.bak] copy.  Every other path
    holds after the run what it held before, and every external call of
    the run is about the file: it copies, opens, rasterizes or writes
    the file, reads a bitmap, or removes the [.bak] copy. *)
Theorem in_place_touches_two_paths env fp s :
  let run := CleanerBase.process_pdf env fp s in
  (forall p, p <> fp -> p <> fp +:+ ".bak" -> fs (snd run) !! p = fs s !! p)
  /\ exists evs, trace (snd run) = trace s ++ evs /\ Forall (about fp) evs.
Proof.
  intros run. split.
  - intros p H1 H2. by apply process_pdf0_frame.
  - destruct (process_pdf0_calls env fp s) as (record & evs & E & _ & Hevs).
    exists evs. subst run. rewrite E. done.
Qed.

Lemma in_place_touches_two_paths_witness :
  let s0 := {| fs := {[ "/in/a.pdf" := pdf five_pages;
                        "/in/b.pdf" := pdf three_pages ]};
               trace := [] |} in
  fs (snd (CleanerBase.process_pdf writer_breaks "/in/a.pdf" s0)) !! "/in/b.pdf"
  = Some (pdf three_pages).
Proof.
  intros s0.
  rewrite (proj1 (in_place_touches_two_paths writer_breaks "/in/a.pdf" s0)
             "/in/b.pdf"); [reflexivity | discriminate | discriminate].
Defined.

(** X10. When [CleanerBase.process_pdf] logs an error for a file that was
    there, the content the file had is not lost.  Either no file has
    changed; or only the [.bak] path has, where a copy that raised midway
    has left a file, the original being intact; or the [.bak] copy holds
    that content, beside an original that is as before, truncated by the
    writer, or already saved (when only the removal of the copy
    failed). *)
Theorem in_place_error_keeps_content env fp s d name e :
  fs s !! fp = Some d ->
  fst (CleanerBase.process_pdf env fp s) = Ok (CleanerBase.Failed name e) ->
  failed_in_place env fp d s (snd (CleanerBase.process_pdf env fp s))
  /\ (fs (snd (CleanerBase.process_pdf env fp s)) !! fp = Some d
      \/ fs (snd (CleanerBase.process_pdf env fp s)) !! (fp +:+ ".bak") = Some d).
Proof.
  intros Hd Hout.
  assert (Hshape : failed_in_place env fp d s (snd (CleanerBase.process_pdf env fp s))).
  { revert Hout.
    destruct (process_pdf0_run env fp s)
      as [[_ E] | (ps & dropped & evs & _ & _ & _ & _ & _ & [[_ E] | [_ E]])];
      rewrite E; try (intros _; by left); try done.
    pose proof (save_in_place_files env fp
                  {| CleanerBase.name := fp; CleanerBase.pages := ps |} dropped
                  (logged s (COpen fp :: evs))) as [_ Hfail].
    pose proof (save_in_place_run env fp
                  {| CleanerBase.name := fp; CleanerBase.pages := ps |} dropped
                  (logged s (COpen fp :: evs))) as Hrun.
    cbv zeta in Hrun.
    destruct (CleanerBase.save_in_place env fp _ dropped _) as [r s'].
    cbn [fst snd] in *. intros Hr.
    destruct Hrun as [(e' & -> & _) | (-> & _)]; [|done].
    exact (Hfail e' d eq_refl Hd). }
  split; [exact Hshape|].
  destruct Hshape as [-> | [(n & _ & ->) | [Hbak _]]].
  - by left.
  - left. by rewrite lookup_insert_ne by apply bak_fresh.
  - by right.
Qed.

Lemma in_place_error_keeps_content_witness :
  let s0 := disk "/in/a.pdf" (pdf five_pages) in
  failed_in_place writer_breaks "/in/a.pdf" (pdf five_pages) s0
    (snd (CleanerBase.process_pdf writer_breaks "/in/a.pdf" s0)).
Proof.
  intros s0.
  eapply (in_place_error_keeps_content writer_breaks "/in/a.pdf" s0);
    vm_compute; reflexivity.
Defined.

(** X11. When [CleanerBase.process_pdf] logs ["Modified"], the record names
    the file, its page count and a number of removed pages that is at
    least 1; the file then holds the remaining pages, in their order and
    as many as the record says, among them every page with a text layer;
    the [.bak] copy is gone. *)
Theorem in_place_modified_accounting env fp s name total removed :
  fst (CleanerBase.process_pdf env fp s)
  = Ok (CleanerBase.Modified name total removed) ->
  name = basename fp
  /\ trimmed_in_place fp total removed s (snd (CleanerBase.process_pdf env fp s)).
Proof.
  intros Hr.
  destruct (process_pdf0_anatomy env fp s)
    as [[_ E] | (ps & dropped & ocr & tail & Hps & _ & Hsub & _ & _ & _ & Hend)].
  { rewrite E in Hr. done. }
  cbv zeta in Hsub, Hend.
  set (doc := {| CleanerBase.name := fp; CleanerBase.pages := ps |}) in *.
  destruct Hend as [(_ & _ & E & _) | [(Hne & E & _ & Hfp & Hbak) | (_ & [e E] & _)]];
    rewrite E in Hr; try done.
  injection Hr as <- <- <-. split; [done|].
  assert (Hseq : sublist dropped (seq 0 (List.length ps))).
  { etrans; [exact Hsub | apply filter_sublist]. }
  exists ps, (CleanerBase.insert_kept doc (seq 0 (List.length ps)) dropped).
  split; [done|]. split; [done|].
  split; [destruct dropped; [done | cbn; lia]|].
  split.
  { rewrite (insert_kept_count doc); [by rewrite length_seq| | |].
    - apply NoDup_seq.
    - exact Hseq.
    - apply Forall_forall. intros n Hn%elem_of_seq. cbn. lia. }
  split; [apply (insert_kept_sublist doc dropped (List.length ps) 0)|].
  split; [|by split].
  intros page [i Hi]%list_elem_of_lookup Htext.
  apply (insert_kept_elem doc _ dropped i); [| |exact Hi].
  - apply elem_of_seq. apply lookup_lt_Some in Hi. lia.
  - apply mem_not_elem. intros Hin.
    apply (elem_of_sublist _ _ _ Hin) in Hsub.
    apply list_elem_of_In, List.filter_In in Hsub as [_ Hflag].
    unfold flagged_by_text in Hflag. cbn in Hflag. rewrite Hi in Hflag.
    unfold with_text, has_text in Htext.
    destruct (text_layer page) as [t|]; [|done]. cbn in Hflag.
    by destruct (strip t).
Qed.

Lemma in_place_modified_accounting_witness :
  let s0 := disk "/in/a.pdf" (pdf five_pages) in
  "a.pdf" = basename "/in/a.pdf"
  /\ trimmed_in_place "/in/a.pdf" 5 2 s0
       (snd (CleanerBase.process_pdf quiet "/in/a.pdf" s0)).
Proof.
  intros s0.
  apply (in_place_modified_accounting quiet "/in/a.pdf" s0 "a.pdf" 5 2).
  vm_compute. reflexivity.
Defined.

(** ** When nothing raises: [CleanerBase] *)

Lemma filter_filter_and {A} (f g : A -> bool) (l : list A) :
  List.filter g (List.filter f l) = List.filter (fun x => f x && g x) l.
Proof.
  induction l as [|x l IH]; [done|]. cbn.
  destruct (f x); cbn; [destruct (g x)|]; by rewrite IH.
Qed.

Lemma mem_filter f n l :
  n ∈ l -> CleanerBase.mem n (List.filter f l) = f n.
Proof.
  intros Hn. destruct (f n) eqn:Hf.
  - apply mem_elem, list_elem_of_In, List.filter_In.
    split; [by apply list_elem_of_In | done].
  - apply mem_not_elem. intros H%list_elem_of_In%List.filter_In. destruct H.
    congruence.
Qed.

(** The two passes together pick the pages that are blank on paper. *)
Lemma flagged_and_ocr_blank ps n :
  flagged_by_text {| CleanerBase.name := EmptyString; CleanerBase.pages := ps |} n
  && ocr_blank ps n
  = blank_index ps n.
Proof.
  unfold flagged_by_text, ocr_blank, blank_index, blank_on_paper, has_text. cbn.
  destruct (ps !! n) as [p|]; [|done].
  destruct (text_layer p) as [t|]; cbn; [|done].
  by destruct (strip t).
Qed.

(** Dropping the blank indices keeps the pages that are not blank. *)
Lemma insert_kept_filter name rest : forall pre dropped,
  (forall n, n < List.length (pre ++ rest) ->
     CleanerBase.mem n dropped = blank_index (pre ++ rest) n) ->
  CleanerBase.insert_kept
    {| CleanerBase.name := name; CleanerBase.pages := pre ++ rest |}
    (seq (List.length pre) (List.length rest)) dropped
  = List.filter keeps rest.
Proof.
  induction rest as [|page rest IH]; intros pre dropped Hmem; [done|].
  cbn [List.length seq CleanerBase.insert_kept CleanerBase.pages List.filter].
  rewrite Hmem by (rewrite length_app; cbn; lia).
  unfold blank_index, keeps. rewrite list_lookup_middle by done.
  specialize (IH (pre ++ [page]) dropped).
  rewrite <- app_assoc, (length_app pre [page]) in IH. cbn in IH.
  replace (List.length pre + 1) with (S (List.length pre)) in IH by lia.
  rewrite IH by exact Hmem.
  by destruct (blank_on_paper page).
Qed.

Lemma blank_indices_count rest : forall pre,
  List.length (List.filter (blank_index (pre ++ rest))
                 (seq (List.length pre) (List.length rest)))
  = List.length (List.filter blank_on_paper rest).
Proof.
  induction rest as [|page rest IH]; intros pre; [done|].
  cbn [List.length seq List.filter].
  unfold blank_index at 1. rewrite list_lookup_middle by done.
  specialize (IH (pre ++ [page])).
  rewrite <- app_assoc, (length_app pre [page]) in IH. cbn in IH.
  replace (List.length pre + 1) with (S (List.length pre)) in IH by lia.
  destruct (blank_on_paper page); cbn; by rewrite IH.
Qed.

Lemma filter_keeps_all ps :
  List.filter blank_on_paper ps = [] -> List.filter keeps ps = ps.
Proof.
  induction ps as [|p ps IH]; [done|]. cbn [List.filter]. unfold keeps at 1.
  destruct (blank_on_paper p); [done|]. cbn. intros H. f_equal. by apply IH.
Qed.

Section Faultless0.
Variable env : Env.
Hypothesis Hq : faultless env.

Lemma ocr_pass_quiet fp ps nums : forall s,
  fs s !! fp ≫= document = Some ps ->
  Forall (fun n => n < List.length ps) nums ->
  exists evs,
    CleanerBase.ocr_pass env {| CleanerBase.name := fp; CleanerBase.pages := ps |}
      nums s
    = (Ok (List.filter (ocr_blank ps) nums), logged s evs).
Proof.
  induction nums as [|n nums IH]; intros s Hps Hin.
  - exists []. cbn. by rewrite logged_nil.
  - apply Forall_cons in Hin as [Hn Hin].
    cbn [CleanerBase.ocr_pass List.filter]. unfold bind, CleanerBase.getitem.
    cbn [CleanerBase.pages].
    destruct (lookup_lt_is_Some_2 _ _ Hn) as [p Hp]. rewrite Hp. cbn [ret].
    rewrite check_by_ocr. unfold CleanerBase.ocr_stage, bind.
    cbn [CleanerBase.parent CleanerBase.name CleanerBase.number].
    rewrite convert_from_path_eq, Hq, Hps.
    replace (n + 1 - 1) with n by lia. rewrite Hp.
    unfold ocr_blank at 1. rewrite Hp.
    destruct (rendering p) as [|img imgs].
    + cbn [ret fst snd].
      destruct (IH (logged s [CRasterize fp (n + 1) None])) as [evs E];
        [by rewrite fs_logged | done |].
      rewrite E, logged_app. by eexists.
    + rewrite image_to_string_eq, Hq. cbn [ret fst snd]. rewrite logged_app.
      destruct (IH (logged s ([CRasterize fp (n + 1) None] ++ [COcr img])))
        as [evs E]; [by rewrite fs_logged | done |].
      rewrite E, logged_app. by eexists.
Qed.

Lemma save_in_place_quiet fp doc dropped s d :
  fs s !! fp = Some d ->
  let run := CleanerBase.save_in_place env fp doc dropped s in
  let total := List.length (CleanerBase.pages doc) in
  let new_doc := CleanerBase.insert_kept doc (seq 0 total) dropped in
  (new_doc <> [] ->
   fst run = Ok (CleanerBase.Modified (basename fp) total (List.length dropped))
   /\ fs (snd run) !! fp = Some (written new_doc)
   /\ fs (snd run) !! (fp +:+ ".bak") = None)
  /\ (new_doc = [] ->
      fst run = Raise ValueError
      /\ fs (snd run) = <[fp +:+ ".bak" := d]> (fs s)).
Proof.
  intros Hd run total new_doc. subst run.
  unfold CleanerBase.save_in_place, bind. fold total new_doc.
  pose proof (bak_fresh fp) as Hbak.
  rewrite shutil_copy_eq, Hq, Hd. cbv beta iota zeta. rewrite save_eq.
  destruct new_doc as [|p0 kept]; (split; [|done]); [done | intros _].
  rewrite write_document_eq, Hq. cbv beta iota zeta.
  rewrite os_remove_eq, Hq. cbn [fs trace].
  rewrite lookup_insert_ne, lookup_insert_eq by done. cbn [fst snd fs ret].
  split; [done|].
  split; [by rewrite lookup_delete_ne, lookup_insert_eq by done|].
  by rewrite lookup_delete_eq.
Qed.

Lemma process_pdf0_quiet fp s d ps :
  fs s !! fp = Some d -> document d = Some ps ->
  let run := CleanerBase.process_pdf env fp s in
  (List.filter blank_on_paper ps = [] ->
     fst run = Ok (CleanerBase.NoChanges (basename fp) (List.length ps))
     /\ fs (snd run) = fs s)
  /\ (List.filter blank_on_paper ps <> [] -> List.filter keeps ps <> [] ->
      fst run = Ok (CleanerBase.Modified (basename fp) (List.length ps)
                      (List.length (List.filter blank_on_paper ps)))
      /\ fs (snd run) !! fp = Some (written (List.filter keeps ps))
      /\ fs (snd run) !! (fp +:+ ".bak") = None)
  /\ (List.filter blank_on_paper ps <> [] -> List.filter keeps ps = [] ->
      fst run = Ok (CleanerBase.Failed (basename fp) ValueError)
      /\ fs (snd run) = <[fp +:+ ".bak" := d]> (fs s)).
Proof.
  intros Hd Hdoc run.
  assert (Hps : fs s !! fp ≫= document = Some ps) by (by rewrite Hd).
  set (doc := {| CleanerBase.name := fp; CleanerBase.pages := ps |}).
  set (flagged := List.filter (flagged_by_text doc) (seq 0 (List.length ps))).
  assert (Hrange : Forall (fun n => n < List.length ps) flagged).
  { apply Forall_forall. intros n Hn%list_elem_of_In.
    apply List.filter_In in Hn as [Hn%list_elem_of_In%elem_of_seq _]. lia. }
  destruct (ocr_pass_quiet fp ps flagged (logged s [COpen fp])) as [evs0 Eq];
    [by rewrite fs_logged | exact Hrange |].
  set (dropped := List.filter (ocr_blank ps) flagged) in *.
  assert (Hdropped : dropped
            = List.filter (blank_index ps) (seq 0 (List.length ps))).
  { subst dropped flagged. rewrite filter_filter_and.
    apply List.filter_ext. intros n. apply flagged_and_ocr_blank. }
  assert (Hcount : List.length dropped
                   = List.length (List.filter blank_on_paper ps)).
  { rewrite Hdropped. apply (blank_indices_count ps []). }
  assert (Hkept : CleanerBase.insert_kept doc (seq 0 (List.length ps)) dropped
                  = List.filter keeps ps).
  { apply (insert_kept_filter fp ps []). intros n Hn. cbn in Hn.
    rewrite Hdropped. apply mem_filter, elem_of_seq. cbn. lia. }
  destruct (process_pdf0_run env fp s)
    as [[[Hf | Hnone] _] | (ps' & dropped' & ocr & Hps' & Hpass & _ & _ & _ & Hend)].
  { by rewrite Hq in Hf. }
  { congruence. }
  cbv zeta in Hpass, Hend. fold run in Hend.
  assert (ps' = ps) by congruence. subst ps'.
  change (CleanerBase.ocr_pass env doc flagged (logged s [COpen fp])
          = (Ok dropped', logged s (COpen fp :: ocr))) in Hpass.
  change (CleanerBase.ocr_pass env doc flagged (logged s [COpen fp])
          = (Ok dropped, logged (logged s [COpen fp]) evs0)) in Eq.
  rewrite Eq in Hpass. injection Hpass as <- Hlog.
  fold doc in Hend.
  assert (Hnil : dropped = [] <-> List.filter blank_on_paper ps = []).
  { rewrite <- !length_zero_iff_nil, Hcount. done. }
  destruct Hend as [[Hd0 E] | [Hne E]].
  - rewrite E. split; [done|]. apply Hnil in Hd0. by split.
  - split; [intros H; by apply Hnil in H|].
    destruct (save_in_place_quiet fp doc dropped (logged s (COpen fp :: ocr)) d)
      as (Hsome & Hnone); [by rewrite fs_logged|].
    cbn [CleanerBase.pages doc] in Hsome, Hnone. fold doc in Hsome, Hnone.
    rewrite Hkept in Hsome, Hnone. rewrite E.
    destruct (CleanerBase.save_in_place env fp doc dropped _) as [r s'].
    cbn [fst snd] in *. split; intros _ Hk.
    + destruct (Hsome Hk) as (-> & Hfp & Hbak). cbn. by rewrite <- Hcount.
    + destruct (Hnone Hk) as (-> & Hfs). cbn. by rewrite Hfs, fs_logged.
Qed.

End Faultless0.

(** X12. When no external call raises, [CleanerBase] finds exactly the pages
    that are blank on paper.  With no such page it logs ["No changes"]
    and leaves every file as it was.  With some such pages and some
    others it logs ["Modified"] with the number of pages and of removed
    pages, the file holds the remaining pages in their order, and the
    [.bak] copy is gone.  With such pages only, the save is refused by
    PyMuPDF for want of a page: the error is logged, the original is as
    it was, and the [.bak] copy stays behind. *)
Theorem cleanerbase_when_nothing_raises env fp s d ps :
  faultless env ->
  fs s !! fp = Some d -> document d = Some ps ->
  let run := CleanerBase.process_pdf env fp s in
  (List.filter blank_on_paper ps = [] ->
     fst run = Ok (CleanerBase.NoChanges (basename fp) (List.length ps))
     /\ fs (snd run) = fs s)
  /\ (List.filter blank_on_paper ps <> [] -> List.filter keeps ps <> [] ->
      fst run = Ok (CleanerBase.Modified (basename fp) (List.length ps)
                      (List.length (List.filter blank_on_paper ps)))
      /\ fs (snd run) !! fp = Some (written (List.filter keeps ps))
      /\ fs (snd run) !! (fp +:+ ".bak") = None)
  /\ (List.filter blank_on_paper ps <> [] -> List.filter keeps ps = [] ->
      fst run = Ok (CleanerBase.Failed (basename fp) ValueError)
      /\ fs (snd run) !! fp = Some d
      /\ fs (snd run) !! (fp +:+ ".bak") = Some d).
Proof.
  intros Hq Hd Hdoc run.
  destruct (process_pdf0_quiet env Hq fp s d ps Hd Hdoc) as (H0 & H1 & H2).
  fold run in H0, H1, H2. split; [done|]. split; [done|].
  intros Hb Hk. destruct (H2 Hb Hk) as [Hout Hfs]. split; [done|].
  rewrite Hfs, lookup_insert_eq, lookup_insert_ne by apply bak_fresh. done.
Qed.

Lemma cleanerbase_when_nothing_raises_witness :
  let s0 := disk "/docs/a.pdf" (pdf five_pages) in
  let s1 := disk "/docs/a.pdf" (pdf [empty_page]) in
  (fst (CleanerBase.process_pdf quiet "/docs/a.pdf" s0)
   = Ok (CleanerBase.Modified "a.pdf" 5 2)
   /\ fs (snd (CleanerBase.process_pdf quiet "/docs/a.pdf" s0)) !! "/docs/a.pdf"
      = Some (written [page_of "one" "one"; page_of "three" "three";
                       page_of "five" "five"]))
  /\ fst (CleanerBase.process_pdf quiet "/docs/a.pdf" s1)
     = Ok (CleanerBase.Failed "a.pdf" ValueError).
Proof.
  intros s0 s1. split.
  - destruct (cleanerbase_when_nothing_raises quiet "/docs/a.pdf" s0
                (pdf five_pages) five_pages) as (_ & H & _).
    + intros n c. reflexivity.
    + vm_compute. reflexivity.
    + reflexivity.
    + destruct H as (Hout & Hfp & _);
        [vm_compute; discriminate | vm_compute; discriminate |].
      split; [exact Hout | exact Hfp].
  - destruct (cleanerbase_when_nothing_raises quiet "/docs/a.pdf" s1
                (pdf [empty_page]) [empty_page]) as (_ & _ & H).
    + intros n c. reflexivity.
    + vm_compute. reflexivity.
    + reflexivity.
    + destruct H as (Hout & _);
        [vm_compute; discriminate | vm_compute; reflexivity |].
      exact Hout.
Defined.

(** X13. [CleanerBase] and [CleanerBase1] agree when nothing raises and some
    page is not blank: after either, the file holds a document with the
    same pages, those that are not blank on paper, and no backup is left.
    (They differ in how they get there, and [CleanerBase1] rewrites the
    file even when it removes nothing.) *)
Theorem variants_agree_when_nothing_raises env fp pp s d ps :
  faultless env ->
  fs s !! fp = Some d -> document d = Some ps ->
  List.filter keeps ps <> [] ->
  let s0 := snd (CleanerBase.process_pdf env fp s) in
  let s1 := snd (CleanerBase1.process_pdf env fp pp s) in
  fs s0 !! fp ≫= document = Some (List.filter keeps ps)
  /\ fs s1 !! fp ≫= document = Some (List.filter keeps ps)
  /\ (fs s0 = fs s \/ fs s0 !! (fp +:+ ".bak") = None)
  /\ fs s1 !! backup_path_of fp = None.
Proof.
  intros Hq Hd Hdoc Hkeep s0 s1.
  destruct (process_pdf1_quiet env fp pp s d ps Hq Hd Hdoc) as [_ H1].
  destruct (H1 Hkeep) as (_ & Hfp1 & Hbk1 & _). fold s1 in Hfp1, Hbk1.
  destruct (process_pdf0_quiet env Hq fp s d ps Hd Hdoc) as (Hnone & Hsome & _).
  fold s0 in Hnone, Hsome.
  split; [|split; [by rewrite Hfp1 | split; [|done]]].
  - destruct (List.filter blank_on_paper ps) as [|b bs] eqn:Hb.
    + destruct (Hnone eq_refl) as [_ ->]. rewrite Hd. cbn.
      by rewrite filter_keeps_all.
    + destruct Hsome as (_ & -> & _); done.
  - destruct (List.filter blank_on_paper ps) as [|b bs] eqn:Hb.
    + left. by destruct (Hnone eq_refl).
    + right. by destruct Hsome as (_ & _ & ->).
Qed.

Lemma variants_agree_when_nothing_raises_witness :
  let s := disk "/docs/a.pdf" (pdf three_pages) in
  fs (snd (CleanerBase.process_pdf quiet "/docs/a.pdf" s)) !! "/docs/a.pdf"
    ≫= document = Some three_pages
  /\ fs (snd (CleanerBase1.process_pdf quiet "/docs/a.pdf" None s)) !! "/docs/a.pdf"
    ≫= document = Some three_pages.
Proof.
  intros s.
  destruct (variants_agree_when_nothing_raises quiet "/docs/a.pdf" None s
              (pdf three_pages) three_pages) as (H0 & H1 & _).
  - intros n c. reflexivity.
  - vm_compute. reflexivity.
  - reflexivity.
  - vm_compute. discriminate.
  - split; [exact H0 | exact H1].
Defined.

(** ** The batch of [CleanerBase] *)

Lemma named_pdf_nonempty f : named_pdf f = true -> f <> EmptyString.
Proof. by intros H ->. Qed.

(** The candidates of a listing are named after the directory entries. *)
Lemma basename_pdf_files folder listing :
  Forall (fun f => no_sep f = true) listing ->
  map basename (CleanerBase.pdf_files folder listing)
  = List.filter named_pdf listing.
Proof.
  unfold CleanerBase.pdf_files. fold named_pdf.
  induction 1 as [|f listing Hf _ IH]; [done|]. cbn [List.filter].
  destruct (named_pdf f) eqn:Hpdf; [|done]. cbn [map].
  rewrite IH, basename_join; [done | done | by apply named_pdf_nonempty].
Qed.

Lemma batch_loop_frame env p files : forall i s,
  apart_from files p ->
  fs (snd (CleanerBase.batch_loop env i files s)) !! p = fs s !! p.
Proof.
  induction files as [|fp rest IH]; intros i s Hp; [done|].
  apply Forall_cons in Hp as [[H1 H2] Hp].
  cbn [CleanerBase.batch_loop].
  destruct (stop_requested env i); [done|]. unfold bind.
  destruct (process_pdf0_calls env fp s) as (record & evs & E & _).
  rewrite E.
  specialize (IH (S i) {| fs := fs (snd (CleanerBase.process_pdf env fp s));
                          trace := trace s ++ evs |} Hp).
  destruct (CleanerBase.batch_loop env (S i) rest _) as [[records|e] s2];
    unfold ret; cbn [snd fs] in *; rewrite IH; by apply process_pdf0_frame.
Qed.

Lemma batch_loop_all env files s :
  never_stopped env ->
  exists records,
    fst (CleanerBase.batch_loop env 0 files s) = Ok records
    /\ map record_file records = map basename files.
Proof.
  intros Hstop.
  destruct (batch_loop_run env files 0 s)
    as (records & evs & fs' & E & Hk & Hmap & _ & Htrue & _).
  exists records. rewrite E. split; [done|].
  destruct (decide (List.length records < List.length files)) as [Hlt|Hge].
  - apply Htrue in Hlt. by rewrite Hstop in Hlt.
  - rewrite Hmap, take_ge; [done | lia].
Qed.

(** X14. A batch run of [CleanerBase] changes no file other than the PDF
    files of the folder and their [.bak] copies. *)
Theorem batch_touches_listed_only env folder_path listing s p :
  apart_from (CleanerBase.pdf_files folder_path listing) p ->
  fs (snd (CleanerBase.process_files env folder_path listing s)) !! p
  = fs s !! p.
Proof.
  intros Hp. unfold CleanerBase.process_files.
  pose proof (batch_loop_frame env p _ 0 s Hp) as H.
  by destruct (CleanerBase.pdf_files folder_path listing).
Qed.

Lemma batch_touches_listed_only_witness :
  let s0 := {| fs := {[ "/in/a.pdf" := pdf five_pages; "/in/notes.txt" := garbage ]};
               trace := [] |} in
  fs (snd (CleanerBase.process_files quiet "/in" ["a.pdf"; "notes.txt"] s0))
    !! "/in/notes.txt" = Some garbage.
Proof.
  intros s0.
  rewrite (batch_touches_listed_only quiet "/in" ["a.pdf"; "notes.txt"] s0
             "/in/notes.txt").
  - reflexivity.
  - vm_compute. repeat constructor; discriminate.
Defined.

(** X15. When Stop is never pressed, a batch run of [CleanerBase] writes one
    record for every directory entry whose name ends in [.pdf] (in any
    letter case), in listing order and under that name, whether or not
    the file could be processed: an error on one file does not end the
    batch. *)
Theorem batch_logs_every_pdf env folder_path listing s :
  never_stopped env ->
  Forall (fun f => no_sep f = true) listing ->
  exists records,
    fst (CleanerBase.process_files env folder_path listing s) = Ok records
    /\ map record_file records = List.filter named_pdf listing.
Proof.
  intros Hstop Hlisting. unfold CleanerBase.process_files.
  destruct (batch_loop_all env (CleanerBase.pdf_files folder_path listing) s Hstop)
    as (records & E & Hmap).
  exists records. rewrite basename_pdf_files in Hmap by done.
  split; [|done].
  by destruct (CleanerBase.pdf_files folder_path listing).
Qed.

Lemma batch_logs_every_pdf_witness :
  let s0 := disk "/in/a.pdf" (pdf five_pages) in
  exists records,
    fst (CleanerBase.process_files quiet "/in" ["a.pdf"; "notes.txt"; "B.PDF"] s0)
    = Ok records
    /\ map record_file records = ["a.pdf"; "B.PDF"].
Proof.
  intros s0.
  apply (batch_logs_every_pdf quiet "/in" ["a.pdf"; "notes.txt"; "B.PDF"] s0).
  - intros i. reflexivity.
  - repeat constructor.
Defined.

(** ** The folder mode of [CleanerBase2] *)

Lemma attempted_app a b : attempted (a ++ b) = attempted a ++ attempted b.
Proof.
  induction a as [|c a IH]; [done|]. destruct c; cbn; by rewrite ?IH.
Qed.

Lemma attempted_ocr fp pp ocr :
  Forall (fun c => exists n, ocr_call fp n pp c) ocr -> attempted ocr = [].
Proof.
  induction 1 as [|c ocr (n & [-> | [img ->]]) _ IH]; done.
Qed.

Section FolderMode.
Variable env : Env.

(** One run of [process_pdf] starts with the backup copy, makes no other
    copy, and either reports an outcome or lets the exception of
    [reader.pages] through. *)
Lemma process_pdf2_calls fp pp s :
  let run := CleanerBase2.process_pdf env fp pp s in
  (exists evs, trace (snd run) = trace s ++ evs /\ attempted evs = [fp])
  /\ ((exists shown, fst run = Ok shown)
      \/ fst run = Raise (ExternalError (CPages fp))).
Proof.
  intros run. subst run.
  destruct (process_pdf2_anatomy env fp pp s)
    as [[E [Htr _]] | (d & Hd & [E | [(ps & _ & E) | (ps & w & r & ocr & _ & Hocr & _ & _ &
          [[_ E] | (_ & [E | (tmp & tail & _ & _ & Htr & Hcalls & _)])])]])].
  - split; [eexists; split; [exact Htr | done] | left; by eexists].
  - rewrite E. split; [by eexists | left; by eexists].
  - rewrite E. split; [by eexists | by right].
  - rewrite E. cbn [fst snd]. split; [|left; by eexists].
    eexists. split; [cbn; by rewrite <- app_assoc|].
    cbn. by rewrite (attempted_ocr _ _ _ Hocr).
  - rewrite E. cbn [fst snd]. split; [|left; by eexists].
    eexists. split; [cbn; by rewrite <- app_assoc|].
    cbn. by rewrite attempted_app, (attempted_ocr _ _ _ Hocr).
  - split.
    + eexists. split; [exact Htr|]. cbn.
      rewrite attempted_app, (attempted_ocr _ _ _ Hocr). cbn.
      destruct Hcalls as [[_ ->] | [[_ ->] | (t & rm & _ & ->)]]; done.
    + left. destruct Hcalls as [[-> _] | [[-> _] | (t & rm & -> & _)]]; by eexists.
Qed.

Lemma process_pdf2_frame fp pp s p x :
  p <> fp -> p <> backup_path_of fp -> fs s !! p = Some x ->
  fs (snd (CleanerBase2.process_pdf env fp pp s)) !! p = Some x.
Proof.
  intros Hp Hb Hx. rewrite <- Hx.
  apply (shape_frame env fp _ s _ p (process_pdf2_shape env fp pp s)); try done.
  intros tmp Hnone ->. congruence.
Qed.

Lemma folder_loop_run pp files : forall n s,
  let run := folder_loop env files pp n s in
  exists evs k,
    trace (snd run) = trace s ++ evs
    /\ attempted evs = take k files
    /\ ((k = List.length files
         /\ exists shown,
              fst run = Ok (shown, n + List.length files)
              /\ List.length shown = List.length files)
        \/ (1 <= k <= List.length files /\ exists e, fst run = Raise e)).
Proof.
  induction files as [|fp rest IH]; intros n s run; subst run.
  - exists [], 0. cbn. rewrite app_nil_r, Nat.add_0_r.
    split; [done|]. split; [done|]. left. split; [done|]. by exists [].
  - cbn [folder_loop]. unfold bind.
    destruct (process_pdf2_calls fp pp s) as [(evs & Htr & Hatt) Hres].
    destruct (CleanerBase2.process_pdf env fp pp s) as [res s1].
    cbn [fst snd] in *.
    destruct Hres as [[out ->] | ->].
    + destruct (IH (n + 1) s1) as (evs' & k & Htr' & Hatt' & Hend).
      destruct (folder_loop env rest pp (n + 1) s1) as [res' s2].
      cbn [fst snd] in *.
      exists (evs ++ evs'), (S k).
      split; [destruct res'; cbn; by rewrite Htr', Htr, <- app_assoc|].
      split; [by rewrite attempted_app, Hatt, Hatt'|].
      destruct Hend as [(-> & shown & -> & Hlen) | (Hk & e & ->)].
      * left. split; [done|]. exists (out :: shown). cbn.
        split; [do 2 f_equal; lia | by rewrite Hlen].
      * right. split; [cbn; lia | by exists e].
    + exists evs, 1. split; [done|]. split; [by rewrite Hatt; destruct rest|].
      right. split; [cbn; lia | by eexists].
Qed.

Lemma folder_loop_frame pp p files : forall n s x,
  apart_from_backups files p ->
  fs s !! p = Some x ->
  fs (snd (folder_loop env files pp n s)) !! p = Some x.
Proof.
  induction files as [|fp rest IH]; intros n s x Hp Hx; [done|].
  apply Forall_cons in Hp as [[H1 H2] Hp].
  cbn [folder_loop]. unfold bind.
  pose proof (process_pdf2_frame fp pp s p x H1 H2 Hx) as Hframe.
  destruct (CleanerBase2.process_pdf env fp pp s) as [[out|e] s1];
    cbn [fst snd] in *; [|done].
  specialize (IH (n + 1) s1 x Hp Hframe).
  by destruct (folder_loop env rest pp (n + 1) s1) as [[r|e] s2].
Qed.

End FolderMode.

(** X16. [process_folder] of [CleanerBase2]: with no folder chosen, or no
    entry named [.pdf] in it, nothing is called and nothing changes.
    Otherwise [process_pdf] is started on the PDF files of the folder in
    listing order, once each; if none of these runs lets an exception
    through, every file gets its turn and the final count is the number
    of these files, including those for which the cleaning failed; an
    exception that leaves [process_pdf] ends the folder run at that file,
    without a final message. *)
Theorem folder_mode_counts_every_pdf env folder_path listing pp s :
  let run := process_folder env folder_path listing pp s in
  let files := CleanerBase.pdf_files folder_path listing in
  (folder_path = EmptyString -> run = (Ok ([], NoFolderSelected), s))
  /\ (folder_path <> EmptyString -> files = [] ->
      run = (Ok ([], NoPdfFiles), s))
  /\ (folder_path <> EmptyString -> files <> [] -> folder_run files s run).
Proof.
  intros run files. subst run. unfold process_folder. fold files.
  split; [by intros ->|].
  split; intros Hf; (destruct folder_path as [|c r]; [done|]).
  - by intros ->.
  - intros Hne.
    destruct (folder_loop_run env pp files 0 s) as (evs & k & Htr & Hatt & Hend).
    destruct files as [|f rest] eqn:Hfiles; [done|].
    unfold bind.
    destruct (folder_loop env (f :: rest) pp 0 s) as [res s1].
    cbn [fst snd] in *. exists evs, k.
    destruct Hend as [(-> & shown & -> & Hlen) | (Hk & e & ->)].
    + split; [done|]. split; [done|]. left. split; [done|]. by exists shown.
    + split; [done|]. split; [done|]. right. split; [done | by exists e].
Qed.

Lemma folder_mode_counts_every_pdf_witness :
  let s0 := disk "/in/a.pdf" (pdf five_pages) in
  folder_run ["/in/a.pdf"; "/in/gone.pdf"] s0
    (process_folder quiet "/in" ["a.pdf"; "notes.txt"; "gone.pdf"] None s0)
  /\ folder_run ["/in/a.pdf"; "/in/gone.pdf"] s0
       (process_folder pages_locked "/in" ["a.pdf"; "notes.txt"; "gone.pdf"] None s0).
Proof.
  intros s0. split.
  - apply (folder_mode_counts_every_pdf quiet "/in"
             ["a.pdf"; "notes.txt"; "gone.pdf"] None s0); discriminate.
  - apply (folder_mode_counts_every_pdf pages_locked "/in"
             ["a.pdf"; "notes.txt"; "gone.pdf"] None s0); discriminate.
Defined.

(** X17. A folder run of [CleanerBase2] leaves every file that existed as it
    was, other than the PDF files of the folder and their [.backup]
    copies. *)
Theorem folder_mode_touches_listed_only env folder_path listing pp s p x :
  apart_from_backups (CleanerBase.pdf_files folder_path listing) p ->
  fs s !! p = Some x ->
  fs (snd (process_folder env folder_path listing pp s)) !! p = Some x.
Proof.
  intros Hp Hx. unfold process_folder.
  destruct folder_path as [|c r]; [done|].
  pose proof (folder_loop_frame env pp p _ 0 s x Hp Hx) as H.
  destruct (CleanerBase.pdf_files (String c r) listing) as [|f files]; [done|].
  unfold bind.
  by destruct (folder_loop env (f :: files) pp 0 s) as [[res|e] s1].
Qed.

Lemma folder_mode_touches_listed_only_witness :
  let s0 := {| fs := {[ "/in/a.pdf" := pdf five_pages; "/in/notes.txt" := garbage ]};
               trace := [] |} in
  fs (snd (process_folder quiet "/in" ["a.pdf"; "notes.txt"] None s0))
    !! "/in/notes.txt" = Some garbage.
Proof.
  intros s0.
  apply (folder_mode_touches_listed_only quiet "/in" ["a.pdf"; "notes.txt"] None s0
           "/in/notes.txt" garbage).
  - vm_compute. repeat constructor; discriminate.
  - reflexivity.
Defined.

(** ** The text check *)

Lemma lstrip_nil s : lstrip s = [] <-> all_space s = true.
Proof.
  induction s as [|c r IH]; [done|]. cbn.
  destruct (is_space c); [exact IH | done].
Qed.

Lemma lstrip_idem s : lstrip (lstrip s) = lstrip s.
Proof.
  induction s as [|c r IH]; [done|]. cbn.
  destruct (is_space c) eqn:Hc; [exact IH|]. cbn. by rewrite Hc.
Qed.

Lemma all_space_rev s : all_space (rev s) = all_space s.
Proof.
  unfold all_space. induction s as [|c r IH]; [done|]. cbn.
  rewrite forallb_app, IH. cbn. rewrite andb_true_r. apply andb_comm.
Qed.

Lemma strip_nil s : strip s = [] <-> all_space s = true.
Proof.
  unfold strip, rstrip. rewrite <- lstrip_nil. split.
  - intros H. apply (f_equal (@rev char)) in H. rewrite rev_involutive in H.
    cbn in H. apply lstrip_nil in H. rewrite all_space_rev in H.
    apply lstrip_nil in H. by rewrite lstrip_idem in H.
  - by intros ->.
Qed.

Lemma strip_nil_bool s :
  match strip s with [] => true | _ => false end = all_space s.
Proof.
  destruct (all_space s) eqn:H.
  - apply strip_nil in H. by rewrite H.
  - destruct (strip s) eqn:E; [|done]. apply strip_nil in E. congruence.
Qed.

(** X18. The text check looks for a character that is not white space: the
    text pass of [CleanerBase] flags a page exactly when its extracted
    text consists of white space only (the empty text included), and
    [is_blank_page] of [CleanerBase1] and [CleanerBase2] goes on to OCR
    exactly when the text layer is missing or consists of white space
    only. *)
Theorem text_check_is_whitespace_test :
  (forall env page s,
      CleanerBase.check_blank_page env page false s
      = (Ok (all_space (CleanerBase.get_text page)), s))
  /\ (forall t, has_text (Some t) = negb (all_space t))
  /\ has_text None = false.
Proof.
  split; [|split; [|done]].
  - intros env page s. rewrite check_by_text. by rewrite strip_nil_bool.
  - intros t. unfold has_text. rewrite <- strip_nil_bool. by destruct (strip t).
Qed.

(** ** Unreadable input and second runs *)

Lemma save_in_place_exn env fp doc dropped s e :
  fst (CleanerBase.save_in_place env fp doc dropped s) = Raise e ->
  e <> ExternalError (COpen fp).
Proof.
  unfold CleanerBase.save_in_place, bind. rewrite shutil_copy_eq.
  destruct (fault env _ (CCopy _ _)); [destruct (fs s !! fp) | | destruct (fs s !! fp)];
    try (cbn; intros [= <-]; discriminate).
  rewrite save_eq.
  destruct (CleanerBase.insert_kept doc _ dropped);
    [cbn; intros [= <-]; discriminate|].
  rewrite write_document_eq.
  destruct (fault env _ (CWrite _ _)); try (cbn; intros [= <-]; discriminate).
  rewrite os_remove_eq. cbn [fs trace].
  destruct (fault env _ (CRemove _)); [destruct (_ !! _) |..];
    cbn; intros [= <-]; discriminate.
Qed.

Lemma process_pdf0_open_failed env fp s :
  fault env (List.length (trace s)) (COpen fp) <> NoFault
  \/ fs s !! fp ≫= document = None ->
  CleanerBase.process_pdf env fp s
  = (Ok (CleanerBase.Failed (basename fp) (ExternalError (COpen fp))),
     logged s [COpen fp]).
Proof.
  intros Hraise.
  unfold CleanerBase.process_pdf, CleanerBase.fitz_open, bind, try_except.
  rewrite open_document_eq.
  destruct Hraise as [Hf | Hnone].
  - by destruct (fault env _ (COpen fp)).
  - rewrite Hnone. by destruct (fault env _ (COpen fp)).
Qed.

(** X19. [CleanerBase.process_pdf] logs the error of the opening exactly
    when [fitz.open] raises: when the file is missing, when the library
    rejects it, or when the call fails for another reason.  The opening
    is then the only call: no file is changed and no [.bak] copy is made
    (unlike [CleanerBase1] and [CleanerBase2], which copy before they
    open). *)
Theorem in_place_unreadable_file env fp s :
  let run := CleanerBase.process_pdf env fp s in
  let opening_raises :=
    fault env (List.length (trace s)) (COpen fp) <> NoFault
    \/ fs s !! fp ≫= document = None in
  (opening_raises ->
   run = (Ok (CleanerBase.Failed (basename fp) (ExternalError (COpen fp))),
          logged s [COpen fp]))
  /\ (fst run = Ok (CleanerBase.Failed (basename fp) (ExternalError (COpen fp))) ->
      opening_raises).
Proof.
  intros run opening_raises. subst run opening_raises.
  split; [apply process_pdf0_open_failed|].
  destruct (process_pdf0_run env fp s)
    as [[Hraise _] | (ps & dropped & evs & _ & _ & _ & _ & _ & Hdec)]; [done|].
  intros Hout. exfalso.
  destruct Hdec as [[_ E] | [_ E]]; rewrite E in Hout; [discriminate|].
  pose proof (save_in_place_exn env fp
                {| CleanerBase.name := fp; CleanerBase.pages := ps |} dropped
                (logged s (COpen fp :: evs))) as Hexn.
  destruct (save_in_place_run env fp
              {| CleanerBase.name := fp; CleanerBase.pages := ps |} dropped
              (logged s (COpen fp :: evs))) as [(e & He & _) | (Hr & _)];
    destruct (CleanerBase.save_in_place env fp _ dropped _) as [r s'];
    cbn [fst snd] in *; subst r; cbn in Hout; [|discriminate].
  injection Hout as Hout. by apply (Hexn e).
Qed.

Lemma in_place_unreadable_file_witness :
  CleanerBase.process_pdf quiet "/in/a.pdf" (disk "/in/a.pdf" garbage)
  = (Ok (CleanerBase.Failed "a.pdf" (ExternalError (COpen "/in/a.pdf"))),
     logged (disk "/in/a.pdf" garbage) [COpen "/in/a.pdf"]).
Proof.
  apply (proj1 (in_place_unreadable_file quiet "/in/a.pdf" (disk "/in/a.pdf" garbage))).
  right. reflexivity.
Defined.

Lemma filter_keeps_idem ps :
  List.filter blank_on_paper (List.filter keeps ps) = []
  /\ List.filter keeps (List.filter keeps ps) = List.filter keeps ps.
Proof.
  induction ps as [|p ps [IH1 IH2]]; [done|]. cbn [List.filter].
  destruct (keeps p) eqn:Hk; [|done]. cbn [List.filter]. rewrite Hk.
  unfold keeps in Hk. apply negb_true_iff in Hk. rewrite Hk.
  split; [done | by rewrite IH2].
Qed.

(** X20. Cleaning a cleaned file, when nothing raises and some page is not
    blank.  A second run of [CleanerBase] finds nothing to remove and
    changes no file; a second run of [CleanerBase1] removes nothing and
    rewrites the file with the same pages. *)
Theorem second_run_removes_nothing env fp pp s d ps :
  faultless env ->
  fs s !! fp = Some d -> document d = Some ps ->
  List.filter keeps ps <> [] ->
  let kept := List.length (List.filter keeps ps) in
  let s0 := snd (CleanerBase.process_pdf env fp s) in
  let s1 := snd (CleanerBase1.process_pdf env fp pp s) in
  (fst (CleanerBase.process_pdf env fp s0)
   = Ok (CleanerBase.NoChanges (basename fp) kept)
   /\ fs (snd (CleanerBase.process_pdf env fp s0)) = fs s0)
  /\ (fst (CleanerBase1.process_pdf env fp pp s1) = Ok (Success kept 0)
      /\ fs (snd (CleanerBase1.process_pdf env fp pp s1)) !! fp = fs s1 !! fp).
Proof.
  intros Hq Hd Hdoc Hkeep kept s0 s1.
  destruct (filter_keeps_idem ps) as [Hnone Hsame].
  split.
  - assert (H0 : exists d0, fs s0 !! fp = Some d0
                   /\ document d0 = Some (List.filter keeps ps)).
    { destruct (process_pdf0_quiet env Hq fp s d ps Hd Hdoc) as (Hno & Hsome & _).
      fold s0 in Hno, Hsome.
      destruct (List.filter blank_on_paper ps) as [|b bs] eqn:Hb.
      - destruct (Hno eq_refl) as [_ ->]. exists d. split; [done|].
        by rewrite filter_keeps_all.
      - destruct Hsome as (_ & -> & _); [done | done |]. by eexists. }
    destruct H0 as (d0 & Hd0 & Hdoc0).
    destruct (process_pdf0_quiet env Hq fp s0 d0 _ Hd0 Hdoc0) as [Hno _].
    by apply Hno.
  - destruct (process_pdf1_quiet env fp pp s d ps Hq Hd Hdoc) as [_ H1].
    destruct (H1 Hkeep) as (_ & Hfp & _). fold s1 in Hfp.
    destruct (process_pdf1_quiet env fp pp s1 _ (List.filter keeps ps) Hq Hfp eq_refl)
      as [_ H2].
    rewrite Hsame, Hnone in H2. destruct H2 as (Hout & Hfp2 & _); [done|].
    split; [exact Hout | by rewrite Hfp2, Hfp].
Qed.

Lemma second_run_removes_nothing_witness :
  let s := disk "/docs/a.pdf" (pdf five_pages) in
  let s0 := snd (CleanerBase.process_pdf quiet "/docs/a.pdf" s) in
  let s1 := snd (CleanerBase1.process_pdf quiet "/docs/a.pdf" None s) in
  fst (CleanerBase.process_pdf quiet "/docs/a.pdf" s0)
  = Ok (CleanerBase.NoChanges "a.pdf" 3)
  /\ fst (CleanerBase1.process_pdf quiet "/docs/a.pdf" None s1) = Ok (Success 3 0).
Proof.
  intros s s0 s1.
  destruct (second_run_removes_nothing quiet "/docs/a.pdf" None s
              (pdf five_pages) five_pages) as [[H0 _] [H1 _]].
  - intros n c. reflexivity.
  - vm_compute. reflexivity.
  - reflexivity.
  - vm_compute. discriminate.
  - split; [exact H0 | exact H1].
Defined.
